(** * video-analysis-system: the extraction, analysis and reporting pipeline

    A shallow embedding of [src/video_processor.py], [src/ai_analyzer.py],
    [src/main.py] and [src/github_publisher.py].

    Conventions of the embedding.
    - A Python [str] is a Rocq [string] holding its UTF-8 bytes.  Concatenation,
      equality, [in], [startswith], splitting on an ASCII separator and the
      ordering [<] agree on both views (UTF-8 keeps the code-point order).
    - A Python [float] is a primitive binary64 float; [int / float] converts the
      integer with round-to-nearest-even and raises [OverflowError] when the
      integer is out of range, as CPython does.
    - A call that can raise returns an [outcome]; [except Exception] is the
      handler [catch], or [try_except] for code that touches the world.  Only
      [Exception] subclasses are modelled.
    - The world is the file system (a flat map from paths to bytes; writing a
      file never fails), the zip archives written, and the trace of the
      subprocesses run, delays slept, requests sent and lines logged or
      printed.
    - The collaborators (yt-dlp, ffprobe, ffmpeg, tesseract, the inference
      API, the clock) are the fields of [externals]; [json] and the number
      formats the program takes from Python's library are the fields of
      [pylib].  A reply of the inference API is a [str].  A download that
      succeeds writes [video.<ext>] below the temporary directory; what a
      failing yt-dlp or ffmpeg leaves in the file system, whether decoding the
      error output of a failed subprocess raises, and whether [shutil.rmtree]
      fails and what it leaves then, are fields of [externals] too.
    - The publisher of [github_publisher.py] has events of its own, the
      requests sent and the lines logged; the token, the working directory and
      the GitHub API are the fields of [GitHubPublisher.environment].
    - Paths follow [posixpath]. *)

From Stdlib Require Import ZArith List String Ascii Bool Lia DecimalString.
From Stdlib Require Import PrimFloat SpecFloat FloatOps.
From Stdlib Require Import Sorted Permutation.
From stdpp Require Import base list strings gmap sorting.

Set Warnings "-register-all".

Local Open Scope Z_scope.

(** ** Results of calls that may raise *)

(** A Python exception: its class name and [str(e)]. *)
Record exn := Exn { exn_class : string; exn_msg : string }.

Inductive outcome (A : Type) : Type :=
| Return (a : A)
| Raise (e : exn).
Arguments Return {A} a.
Arguments Raise {A} e.

(** [try: body except Exception as e: handler e] for a pure body. *)
Definition catch {A : Type} (body : outcome A) (handler : exn -> outcome A) : outcome A :=
  match body with
  | Return a => Return a
  | Raise e => handler e
  end.

Definition obind {A B : Type} (m : outcome A) (k : A -> outcome B) : outcome B :=
  match m with
  | Return a => k a
  | Raise e => Raise e
  end.

(** ** The Python built-ins and library functions the code calls *)

Module Py.

Definition ord (c : ascii) : Z := Z.of_N (N_of_ascii c).

Definition is_digit (c : ascii) : bool := (48 <=? ord c) && (ord c <=? 57).

(** [Py_ISSPACE]: tab, line feed, vertical tab, form feed, carriage return, space. *)
Definition is_space (c : ascii) : bool :=
  ((9 <=? ord c) && (ord c <=? 13)) || (ord c =? 32).

(** [s.startswith(p)] *)
Definition startswith (s p : string) : bool := String.prefix p s.

(** [s.endswith(c)] for a one-character suffix *)
Fixpoint endswith_char (s : string) (c : ascii) : bool :=
  match s with
  | EmptyString => false
  | String x EmptyString => Ascii.eqb x c
  | String _ r => endswith_char r c
  end.

(** [sub in s] *)
Fixpoint contains (sub s : string) : bool :=
  String.prefix sub s ||
  match s with
  | EmptyString => false
  | String _ r => contains sub r
  end.

(** [s.rfind(c)]: the last index of the character, [-1] when it is absent. *)
Fixpoint rfind_from (c : ascii) (s : string) (i best : Z) : Z :=
  match s with
  | EmptyString => best
  | String x r => rfind_from c r (i + 1) (if Ascii.eqb x c then i else best)
  end.

Definition rfind (c : ascii) (s : string) : Z := rfind_from c s 0 (-1).

(** [s[i:j]] for [0 <= i <= j] *)
Definition slice (s : string) (i j : Z) : string :=
  String.substring (Z.to_nat i) (Z.to_nat (j - i)) s.

(** [s[i:]] for [0 <= i] *)
Definition slice_from (s : string) (i : Z) : string :=
  String.substring (Z.to_nat i) (String.length s - Z.to_nat i) s.

Fixpoint all_chars (p : ascii -> bool) (s : string) : bool :=
  match s with
  | EmptyString => true
  | String c r => p c && all_chars p r
  end.

(** [s.split(sep)] for a one-character separator: never empty. *)
Fixpoint split (sep : ascii) (s : string) : list string :=
  match s with
  | EmptyString => [EmptyString]
  | String c r =>
      if Ascii.eqb c sep then EmptyString :: split sep r
      else match split sep r with
           | h :: t => String c h :: t
           | [] => [String c EmptyString]
           end
  end.

(** [l[i]]: [IndexError] out of range. *)
Definition getitem {A : Type} (l : list A) (i : nat) : outcome A :=
  match l !! i with
  | Some x => Return x
  | None => Raise (Exn "IndexError" "list index out of range")
  end.

(** The digits of an [int()] literal after the sign: decimal digits, single
    underscores between digits, then optional trailing white space. *)
Fixpoint int_body (after_digit : bool) (acc : Z) (s : string) : option Z :=
  match s with
  | EmptyString => if after_digit then Some acc else None
  | String c r =>
      if is_digit c then int_body true (10 * acc + (ord c - 48)) r
      else if Ascii.eqb c "_" then
        if after_digit then int_body false acc r else None
      else if is_space c then
        if after_digit && all_chars is_space r then Some acc else None
      else None
  end.

Definition int_signed (s : string) : option Z :=
  match s with
  | String c r =>
      if Ascii.eqb c "+" then int_body false 0 r
      else if Ascii.eqb c "-" then option_map Z.opp (int_body false 0 r)
      else int_body false 0 s
  | EmptyString => int_body false 0 s
  end.

Fixpoint lstrip (s : string) : string :=
  match s with
  | String c r => if is_space c then lstrip r else s
  | EmptyString => EmptyString
  end.

(** [int(s)] in base 10, for a [str] of ASCII characters: [ValueError] when
    [s] is not an integer literal.  (A non-ASCII decimal digit or space, which
    CPython maps to its ASCII counterpart first, is outside the model; so is
    the digit limit of [sys.set_int_max_str_digits].) *)
Definition int (s : string) : outcome Z :=
  match int_signed (lstrip s) with
  | Some n => Return n
  | None => Raise (Exn "ValueError" "invalid literal for int() with base 10")
  end.

(** [float(n)] for an [int]: the nearest binary64 (ties to even),
    [OverflowError] when that is not finite. *)
Definition float_of_int (n : Z) : outcome float :=
  match binary_normalize prec emax n 0 false with
  | S754_zero s => Return (SF2Prim (S754_zero s))
  | S754_finite s m e => Return (SF2Prim (S754_finite s m e))
  | _ => Raise (Exn "OverflowError" "int too large to convert to float")
  end.

(** [n / d] for an [int] [n] and a non-zero [float] [d] *)
Definition truediv (n : Z) (d : float) : outcome float :=
  obind (float_of_int n) (fun x => Return (PrimFloat.div x d)).

(** [str(n)] for an [int] *)
Definition str_int (n : Z) : string := NilZero.string_of_int (Z.to_int n).

(** [n * 2^e] rounded to the nearest integer, ties to even. *)
Definition round_half_even (n e : Z) : Z :=
  if 0 <=? e then n * 2 ^ e
  else
    let d := 2 ^ (- e) in
    let q := n / d in
    let r := n mod d in
    if 2 * r <? d then q
    else if d <? 2 * r then q + 1
    else if Z.even q then q else q + 1.

(** [format(x, '.1f')], the [:.1f] of an f-string: the exact value of [x]
    rounded to one decimal, ties to even. *)
Definition format_1f (x : float) : string :=
  match Prim2SF x with
  | S754_nan => "nan"
  | S754_infinity s => if s then "-inf" else "inf"
  | S754_zero s => if s then "-0.0" else "0.0"
  | S754_finite s m e =>
      let tenths := round_half_even (10 * Z.pos m) e in
      (if s then "-" else EmptyString)
      +:+ str_int (tenths / 10) +:+ "." +:+ str_int (tenths mod 10)
  end.

(** [a < b] on [str] *)
Fixpoint str_lt (a b : string) : bool :=
  match a, b with
  | _, EmptyString => false
  | EmptyString, String _ _ => true
  | String x a', String y b' =>
      if ord x <? ord y then true
      else if ord y <? ord x then false
      else str_lt a' b'
  end.

(** [sorted(l)] on a list of [str]: a stable sort by [<]. *)
Fixpoint insert_sorted (x : string) (l : list string) : list string :=
  match l with
  | [] => [x]
  | y :: r => if str_lt y x then y :: insert_sorted x r else x :: y :: r
  end.

Definition sorted (l : list string) : list string :=
  foldr insert_sorted [] l.

(** [os.path.basename(p)] (posixpath): [p[p.rfind('/') + 1:]] *)
Definition basename (p : string) : string :=
  slice_from p (rfind "/" p + 1).

(** [os.path.splitext(p)] (posixpath): the extension starts at the last dot of
    the last path component, unless only dots precede it there. *)
Definition splitext (p : string) : string * string :=
  let sepIndex := rfind "/" p in
  let dotIndex := rfind "." p in
  if (sepIndex <? dotIndex)
     && negb (all_chars (Ascii.eqb ".") (slice p (sepIndex + 1) dotIndex))
  then (slice p 0 dotIndex, slice_from p dotIndex)
  else (p, EmptyString).

(** [os.path.join(a, b)] (posixpath) *)
Definition join (a b : string) : string :=
  if startswith b "/" then b
  else if String.eqb a EmptyString || endswith_char a "/" then a +:+ b
  else a +:+ "/" +:+ b.

End Py.

(** ** The world the pipeline runs in *)

(** A line feed, the [\n] of the Python literals. *)
Definition nl : string := String (ascii_of_nat 10) EmptyString.

(** What a run does that an observer can see, in the order it happens. *)
Inductive event :=
| Run (cmd : list string)        (* subprocess.run(cmd, check=True, ...) *)
| Sleep (seconds : Z)            (* time.sleep(seconds) *)
| ApiCall (model : string)       (* a request sent to the inference API *)
| Log (level msg : string)       (* logger.<level>(msg) *)
| Print (line : string).         (* print(line) *)

(** The file system, a flat map from the path of a regular file to its bytes;
    the zip archives written, each the list of its members (name in the
    archive, bytes) in the order they were added; and the events so far. *)
Record world := World {
  files : gmap string string;
  archives : gmap string (list (string * string));
  trace : list event
}.

Definition with_files (fs : gmap string string) (w : world) : world :=
  World fs (archives w) (trace w).

Definition with_event (ev : event) (w : world) : world :=
  World (files w) (archives w) (trace w ++ [ev]).

(** A computation that reads and changes the world and may raise. *)
Definition M (A : Type) : Type := world -> outcome A * world.

Definition ret {A : Type} (a : A) : M A := fun w => (Return a, w).

Definition raise {A : Type} (e : exn) : M A := fun w => (Raise e, w).

Definition bind {A B : Type} (m : M A) (k : A -> M B) : M B :=
  fun w =>
    match m w with
    | (Return a, w') => k a w'
    | (Raise e, w') => (Raise e, w')
    end.

Notation "'let*' x ':=' m 'in' k" := (bind m (fun x => k))
  (at level 10, x name, m at level 100, k at level 200, only parsing).

(** [try: body except Exception as e: handler e] *)
Definition try_except {A : Type} (body : M A) (handler : exn -> M A) : M A :=
  fun w =>
    match body w with
    | (Return a, w') => (Return a, w')
    | (Raise e, w') => handler e w'
    end.

Definition lift {A : Type} (o : outcome A) : M A := fun w => (o, w).

Definition emit (ev : event) : M unit :=
  fun w => (Return tt, with_event ev w).

Definition log (level msg : string) : M unit := emit (Log level msg).

(** [for x in l: ... results.append(f x)] *)
Fixpoint mapM {A B : Type} (f : A -> M B) (l : list A) : M (list B) :=
  match l with
  | [] => ret []
  | x :: r => let* y := f x in let* ys := mapM f r in ret (y :: ys)
  end.

(** The exception of [open] on a path that is no file; [str(e)] quotes the
    path as [repr] does for a path of plain characters. *)
Definition file_not_found (path : string) : exn :=
  Exn "FileNotFoundError" ("[Errno 2] No such file or directory: '" +:+ path +:+ "'").

(** [open(path, 'rb').read()] *)
Definition read_file (path : string) : M string :=
  fun w =>
    match files w !! path with
    | Some bytes => (Return bytes, w)
    | None => (Raise (file_not_found path), w)
    end.

(** [open(path, 'w').write(content)] *)
Definition write_file (path content : string) : M unit :=
  fun w => (Return tt, with_files (<[path := content]> (files w)) w).

(** [s] without its prefix [p], when it has it. *)
Fixpoint strip_prefix (p s : string) : option string :=
  match p, s with
  | EmptyString, _ => Some s
  | String a p', String b s' => if Ascii.eqb a b then strip_prefix p' s' else None
  | String _ _, EmptyString => None
  end.

(** The paths of the files below directory [d]. *)
Definition paths_under (d : string) (fs : gmap string string) : list string :=
  List.filter (fun p => bool_decide (is_Some (strip_prefix (d +:+ "/") p)))
              (map fst (map_to_list fs)).

(** [os.listdir(d)]: the names of the entries of [d], in no particular order.
    An entry is the first component, relative to [d], of a file below [d]. *)
Definition listdir (d : string) (fs : gmap string string) : list string :=
  remove_dups
    (omap (fun p => match strip_prefix (d +:+ "/") p with
                    | Some rest => head (Py.split "/" rest)
                    | None => None
                    end)
          (map fst (map_to_list fs))).

Definition os_listdir (d : string) : M (list string) :=
  fun w => (Return (listdir d (files w)), w).

(** A number that is an [int] or a [float]. *)
Inductive pynum := PInt (n : Z) | PFloat (x : float).

(** The dict [get_video_metadata] returns. *)
Record video_metadata :=
  Metadata { duration : pynum; format : string; resolution : string }.

(** What the program reaches outside itself.  Each field is the behaviour of one
    collaborator, so a statement for every [externals] holds whatever they do. *)
Record externals := {
  (* YoutubeDL(...).extract_info(url, download=True): the ['ext'] of the video
     and the bytes of the file written for it, or the exception *)
  yt_dlp : string -> outcome (string * string);
  (* the files after a download that failed, given the files before *)
  yt_dlp_leftovers : string -> gmap string string -> gmap string string;
  (* ffprobe run on a path and its output read: the [try] of get_video_metadata *)
  ffprobe : string -> outcome video_metadata;
  (* ffmpeg run on a command line: the files afterwards, or CalledProcessError *)
  ffmpeg : list string -> gmap string string -> outcome (gmap string string);
  (* the files after an ffmpeg run that failed, given the files before *)
  ffmpeg_leftovers : list string -> gmap string string -> gmap string string;
  (* e.stderr.decode() for the exception of a failed run *)
  stderr_decode : exn -> outcome string;
  (* shutil.rmtree(d) and os.makedirs(d) on the files: nothing when both
     succeed, else the exception and the files that are left *)
  rmtree : string -> gmap string string -> option (exn * gmap string string);
  (* cv2 and pytesseract on an image path: the [try] of perform_ocr *)
  tesseract : string -> outcome string;
  (* the inference API: the content of the reply to the k-th request of the
     run (counting from 0), or the exception the client raises *)
  openai : nat -> outcome string;
  (* time.strftime('%Y%m%d_%H%M%S') and
     datetime.now().strftime('%Y-%m-%d %H:%M:%S') *)
  strftime_stamp : string;
  datetime_now : string;
  (* github_publisher.publish_to_github() *)
  publish_to_github : outcome string
}.

(** ** video_processor.py *)

Module VideoProcessor.

(** The dict [{'path': ..., 'timestamp': ...}] of [extract_frames]. *)
Record frame := Frame { path : string; timestamp : float }.

(** The dict [{'path': ..., 'timestamp': ..., 'filename': ...}] of
    [extract_all_frames]. *)
Record frame_info :=
  FrameInfo { fi_path : string; fi_timestamp : float; fi_filename : string }.

(** The [int(...)] of [_get_frame_timestamp]. *)
Definition frame_number (frame_path : string) : outcome Z :=
  obind (Py.getitem (Py.split "_" (fst (Py.splitext (Py.basename frame_path)))) 1)
        Py.int.

(** The body of the [try] of [_get_frame_timestamp]. *)
Definition _get_frame_timestamp_try (frame_path : string) : outcome float :=
  obind (frame_number frame_path) (fun n => Py.truediv n 30%float).

Definition _get_frame_timestamp (frame_path : string) : outcome float :=
  catch (_get_frame_timestamp_try frame_path) (fun _ => Return 0%float).

Section WithExternals.
Variable X : externals.
(* VideoProcessor(temp_dir=...) *)
Variable temp_dir : string.

(** [subprocess.run(cmd, check=True, capture_output=True)] for an ffmpeg
    command line. *)
Definition subprocess_run (cmd : list string) : M unit :=
  fun w =>
    match ffmpeg X cmd (files w) with
    | Return fs => (Return tt, with_event (Run cmd) (with_files fs w))
    | Raise e =>
        (Raise e, with_event (Run cmd) (with_files (ffmpeg_leftovers X cmd (files w)) w))
    end.

(** The two [except] clauses of the extraction methods: log and re-raise.  The
    clause for a [CalledProcessError] logs the decoded stderr, and an exception
    of the decoding leaves the clause in place of the one caught; the other
    clause logs [str(e)]. *)
Definition log_and_reraise {A : Type} (ffmpeg_msg other_msg : string) (e : exn) : M A :=
  if String.eqb (exn_class e) "CalledProcessError" then
    let* stderr := lift (stderr_decode X e) in
    let* _ := log "ERROR" (ffmpeg_msg +:+ stderr) in
    raise e
  else
    let* _ := log "ERROR" (other_msg +:+ exn_msg e) in
    raise e.

(** [ydl.extract_info(url, download=True)] with the output template
    [<temp_dir>/video.%(ext)s]: the video is written under that name. *)
Definition run_yt_dlp (url : string) : M string :=
  fun w =>
    match yt_dlp X url with
    | Return (ext, video) =>
        (Return ext,
         with_files (<[Py.join temp_dir ("video." +:+ ext) := video]> (files w)) w)
    | Raise e => (Raise e, with_files (yt_dlp_leftovers X url (files w)) w)
    end.

Definition download_video (url : string) : M string :=
  try_except
    (let output_path := Py.join temp_dir "video.%(ext)s" in
     let* _ := log "INFO" ("Attempting to download video from: " +:+ url) in
     let* ext := run_yt_dlp url in
     let* _ := log "INFO" "Video download completed successfully" in
     ret (Py.join temp_dir ("video." +:+ ext)))
    (fun e =>
       let* _ := log "ERROR" ("Error downloading video: " +:+ exn_msg e) in
       raise e).

Definition get_video_metadata (video_path : string) : M video_metadata :=
  try_except
    (lift (ffprobe X video_path))
    (fun e =>
       let* _ := log "ERROR" ("Error getting video metadata: " +:+ exn_msg e) in
       ret (Metadata (PInt 0) "Unknown" "Unknown")).

Definition extract_frames (video_path : string) : M (list frame) :=
  try_except
    (let output_pattern := Py.join temp_dir "frame_%04d.jpg" in
     let cmd := ["ffmpeg"; "-i"; video_path;
                 "-vf"; "select=gt(scene\,0.4)";
                 "-vsync"; "0";
                 "-frame_pts"; "1";
                 output_pattern] in
     let* _ := subprocess_run cmd in
     let* listing := os_listdir temp_dir in
     let frame_files :=
       Py.sorted (List.filter (fun f => Py.startswith f "frame_") listing) in
     let max_frames := 3%nat in
     let frame_files := take max_frames frame_files in
     let* _ := log "INFO" ("Extracted "
                           +:+ Py.str_int (Z.of_nat (length frame_files))
                           +:+ " frames for analysis") in
     mapM (fun frame_file =>
             let frame_path := Py.join temp_dir frame_file in
             let* t := lift (_get_frame_timestamp frame_path) in
             ret (Frame frame_path t))
          frame_files)
    (log_and_reraise "FFmpeg error: " "Error extracting frames: ").

Definition extract_all_frames (video_path output_dir : string) (fps : Z)
  : M (list frame_info) :=
  try_except
    (let frames_dir := Py.join output_dir "all_frames" in
     let output_pattern := Py.join frames_dir "frame_%04d.jpg" in
     let cmd := ["ffmpeg"; "-i"; video_path;
                 "-vf"; "fps=" +:+ Py.str_int fps;
                 "-frame_pts"; "1";
                 "-vsync"; "0";
                 output_pattern] in
     let* _ := log "INFO" ("Extracting all frames with fps=" +:+ Py.str_int fps) in
     let* _ := subprocess_run cmd in
     let* listing := os_listdir frames_dir in
     let frame_files :=
       Py.sorted (List.filter (fun f => Py.startswith f "frame_") listing) in
     let* frames_info :=
       mapM (fun frame_file =>
               let frame_path := Py.join frames_dir frame_file in
               let* t := lift (_get_frame_timestamp frame_path) in
               ret (FrameInfo frame_path t frame_file))
            frame_files in
     let* _ := log "INFO" ("Saved "
                           +:+ Py.str_int (Z.of_nat (length frames_info))
                           +:+ " frames to " +:+ frames_dir) in
     ret frames_info)
    (log_and_reraise "FFmpeg error while extracting all frames: "
                     "Error extracting all frames: ").

Definition perform_ocr (image_path : string) : M string :=
  try_except
    (lift (tesseract X image_path))
    (fun e =>
       let* _ := log "ERROR" ("Error performing OCR: " +:+ exn_msg e) in
       ret EmptyString).

Definition extract_audio (video_path : string) : M string :=
  try_except
    (let audio_path := Py.join temp_dir "audio.wav" in
     let cmd := ["ffmpeg"; "-i"; video_path;
                 "-ac"; "1"; "-ar"; "16000";
                 "-y";
                 audio_path] in
     let* _ := subprocess_run cmd in
     ret audio_path)
    (log_and_reraise "FFmpeg error: " "Error extracting audio: ").

(** The dicts of [detect_music]. *)
Record segment := Segment { seg_start : Z; seg_end : Z; confidence : float }.
Record music := Music { has_music : bool; segments : list segment }.

(** The Python literal [0.8]: the binary64 nearest to it. *)
Definition confidence_0_8 : float := 0x1.999999999999ap-1%float.

Definition detect_music (audio_path : string) : M music :=
  ret (Music true [Segment 0 10 confidence_0_8]).

(** [shutil.rmtree(temp_dir)] then [os.makedirs(temp_dir)]: the files below
    [temp_dir] are gone, unless one of the two fails; the failure is logged and
    not raised. *)
Definition cleanup : M unit :=
  fun w =>
    match rmtree X temp_dir (files w) with
    | None =>
        (Return tt,
         with_files
           (filter (fun kv => strip_prefix (temp_dir +:+ "/") kv.1 = None) (files w)) w)
    | Some (e, fs) =>
        log "ERROR" ("Error cleaning up: " +:+ exn_msg e) (with_files fs w)
    end.

End WithExternals.

End VideoProcessor.


(** ** JSON values and the library functions on them *)

(** What [json.loads] returns and [json.dumps] takes. *)
Inductive json :=
| JNull
| JBool (b : bool)
| JInt (n : Z)
| JFloat (x : float)
| JStr (s : string)
| JList (l : list json)
| JDict (items : list (string * json)).

(** The functions of Python's library that are used as given. *)
Record pylib := {
  (* json.loads(s): the value, or JSONDecodeError *)
  json_loads : string -> outcome json;
  (* json.dumps(v) *)
  json_dumps : json -> string;
  (* json.dumps(v, ensure_ascii=False, indent=2) *)
  json_dumps_indent : json -> string;
  (* str(x) for a float *)
  str_float : float -> string;
  (* lines 158 to 182 of main.py, which print a summary that carries no error
     marker field by field: the lines printed, and the exception that stops the
     printing when a field has an unexpected type *)
  print_summary_fields : json -> list string * option exn
}.

(** ['error' in v] for a loaded JSON value: a key of a dict, an element of a
    list, a substring of a str; [TypeError] for the other values. *)
Definition error_in (v : json) : outcome bool :=
  match v with
  | JDict items => Return (existsb (fun kv => String.eqb "error" kv.1) items)
  | JList l =>
      Return (existsb (fun x => match x with
                                | JStr s => String.eqb "error" s
                                | _ => false
                                end) l)
  | JStr s => Return (Py.contains "error" s)
  | _ => Raise (Exn "TypeError" "argument is not iterable")
  end.

(** ** The result record of a run *)

(** One entry of [results['frames']]; [vision_analysis] is [None] when
    [analyze_image] returned [None]. *)
Record frame_analysis := FrameAnalysis {
  fa_timestamp : float;
  fa_ocr_text : string;
  fa_vision_analysis : option string
}.

(** One entry of [results['all_frames_info']]. *)
Record frame_data := FrameData {
  fd_timestamp : float;
  fd_filename : string;
  fd_ocr_text : string
}.

(** [results['audio_analysis']] once it is set. *)
Record audio_analysis := AudioAnalysis {
  transcription : string;
  music_detection : VideoProcessor.music
}.

(** The dict [results] of [analyze_video]; [summary] is [None] until the key
    is set. *)
Record results := Results {
  frames : list frame_analysis;
  audio : option audio_analysis;
  all_frames_info : list frame_data;
  summary : option string
}.

(** ** ai_analyzer.py *)

Module AIAnalyzer.

Section WithExternals.
Variable L : pylib.
Variable X : externals.

(* self.base_delay *)
Definition base_delay : Z := 5.

Definition sleep (seconds : Z) : M unit := emit (Sleep seconds).

Definition is_api_call (ev : event) : bool :=
  match ev with
  | ApiCall _ => true
  | _ => false
  end.

(** The number of requests sent so far. *)
Definition api_calls (t : list event) : nat := length (List.filter is_api_call t).

(** One request to the inference API: the reply, or the client's exception. *)
Definition call_api (model : string) : M string :=
  fun w => (openai X (api_calls (trace w)), with_event (ApiCall model) w).

(** The quota payload of [analyze_image]. *)
Definition image_quota_error (error_msg : string) : json :=
  JDict [("error", JStr "API quota exceeded");
         ("message", JStr "Недостаточно квоты API для анализа изображения");
         ("technical_details", JStr error_msg)].

(** The payload of the outer [except] of [analyze_image]. *)
Definition image_failed_error (error_msg : string) : json :=
  JDict [("error", JStr "Analysis failed");
         ("message", JStr "Не удалось проанализировать изображение");
         ("technical_details", JStr error_msg)].

(** The [for attempt in range(max_retries)] loop of [analyze_image], over the
    attempts still to make; [None] when the loop ends without a [return]. *)
Fixpoint attempts_loop (max_retries : nat) (attempts : list nat) : M (option string) :=
  match attempts with
  | [] => ret None
  | attempt :: rest =>
      try_except
        (let delay := base_delay * 2 ^ Z.of_nat attempt in
         let* _ := log "INFO" ("Waiting " +:+ Py.str_int delay
                               +:+ " seconds before API call (attempt "
                               +:+ Py.str_int (Z.of_nat attempt + 1) +:+ "/"
                               +:+ Py.str_int (Z.of_nat max_retries) +:+ ")") in
         let* _ := sleep delay in
         let* content := call_api "gpt-4o" in
         ret (Some content))
        (fun e =>
           let error_msg := exn_msg e in
           if Py.contains "insufficient_quota" error_msg then
             ret (Some (json_dumps L (image_quota_error error_msg)))
           else
             let* _ := log "WARNING" ("API call failed (attempt "
                                      +:+ Py.str_int (Z.of_nat attempt + 1) +:+ "/"
                                      +:+ Py.str_int (Z.of_nat max_retries) +:+ "): "
                                      +:+ error_msg) in
             if Nat.eqb attempt (max_retries - 1) then raise e
             else attempts_loop max_retries rest)
  end.

(** [analyze_image]: the str returned, [None] for Python's [None].  The image
    is read first; its base64 text travels in the request. *)
Definition analyze_image (image_path : string) : M (option string) :=
  try_except
    (let* image := read_file image_path in
     let max_retries := 3%nat in
     attempts_loop max_retries (seq 0 max_retries))
    (fun e =>
       let* _ := log "ERROR" ("Error analyzing image: " +:+ exn_msg e) in
       ret (Some (json_dumps L (image_failed_error (exn_msg e))))).

Definition transcription_quota_error : string :=
  "Ошибка: превышен лимит API для транскрипции".

Definition transcription_failed_error : string :=
  "Ошибка при транскрипции аудио".

Definition transcribe_audio (audio_path : string) : M string :=
  try_except
    (let* _ := sleep base_delay in
     let* audio := read_file audio_path in
     let* response := call_api "whisper-1" in
     ret response)
    (fun e =>
       let error_msg := exn_msg e in
       if Py.contains "insufficient_quota" error_msg then
         ret transcription_quota_error
       else
         let* _ := log "ERROR" ("Error transcribing audio: " +:+ error_msg) in
         ret transcription_failed_error).

(** The line that opens a key frame in the prompt. *)
Definition frame_header (frame : frame_analysis) : string :=
  "Момент " +:+ Py.format_1f (fa_timestamp frame) +:+ "с:" +:+ nl.

(** What the vision payload of a key frame adds: nothing when it is not a str;
    its parsed value, written again, when that carries no error marker; the
    raw text when reading it or looking for the marker raises. *)
Definition vision_text (frame : frame_analysis) : string :=
  match fa_vision_analysis frame with
  | Some vision_analysis =>
      match obind (json_loads L vision_analysis)
                  (fun analysis =>
                     obind (error_in analysis)
                           (fun has_error =>
                              Return (if negb has_error
                                      then json_dumps_indent L analysis +:+ nl
                                      else EmptyString)))
      with
      | Return text => text
      | Raise _ => vision_analysis +:+ nl
      end
  | None => EmptyString
  end.

(** The OCR line of a key frame, when there is text. *)
Definition ocr_line (frame : frame_analysis) : string :=
  if String.eqb (fa_ocr_text frame) EmptyString then EmptyString
  else "Найденный текст: " +:+ fa_ocr_text frame +:+ nl.

(** What one key frame adds to the prompt. *)
Definition frame_prompt (frame : frame_analysis) : string :=
  frame_header frame +:+ vision_text frame +:+ ocr_line frame.

(** The loop over [results['frames']]. *)
Definition frames_prompt (key_frames : list frame_analysis) : string :=
  foldr (fun frame rest => frame_prompt frame +:+ rest) EmptyString key_frames.

Definition _create_summary_prompt (r : results) : string :=
  ("Проанализируйте следующее содержание видео для создания JSON-анализа:"
     +:+ nl +:+ nl)
  +:+ match frames r with
      | [] => EmptyString
      | _ :: _ => ("Ключевые кадры:" +:+ nl) +:+ frames_prompt (frames r)
      end
  +:+ match audio r with
      | Some a =>
          (nl +:+ "Аудио содержание:" +:+ nl +:+ transcription a +:+ nl)
          +:+ (if VideoProcessor.has_music (music_detection a)
               then "В видео обнаружена музыка." +:+ nl
               else EmptyString)
      | None => EmptyString
      end.

(** The quota payload of [generate_summary]. *)
Definition summary_quota_error : json :=
  JDict [("error", JStr "API quota exceeded");
         ("message", JStr "Недостаточно квоты API для создания итогового описания")].

Definition summary_failed_error (error_msg : string) : json :=
  JDict [("error", JStr "Summary generation failed");
         ("message", JStr "Не удалось создать итоговое описание");
         ("technical_details", JStr error_msg)].

Definition generate_summary (r : results) : M string :=
  try_except
    (let* _ := sleep base_delay in
     let prompt := _create_summary_prompt r in
     let* content := call_api "gpt-4o" in
     ret content)
    (fun e =>
       let error_msg := exn_msg e in
       if Py.contains "insufficient_quota" error_msg then
         ret (json_dumps L summary_quota_error)
       else
         ret (json_dumps L (summary_failed_error error_msg))).

End WithExternals.

End AIAnalyzer.

(** ** main.py *)

Module Main.

Import VideoProcessor AIAnalyzer.

(** How [analyze_video] ends: it returns, or [sys.exit(code)]. *)
Inductive exit := Completed | SysExit (code : Z).

(** [json.dump] sees [results] as this value (keys in insertion order). *)
Definition segment_json (s : segment) : json :=
  JDict [("start", JInt (seg_start s)); ("end", JInt (seg_end s));
         ("confidence", JFloat (confidence s))].

Definition music_json (m : music) : json :=
  JDict [("has_music", JBool (has_music m));
         ("segments", JList (map segment_json (segments m)))].

Definition frame_analysis_json (f : frame_analysis) : json :=
  JDict [("timestamp", JFloat (fa_timestamp f));
         ("ocr_text", JStr (fa_ocr_text f));
         ("vision_analysis", match fa_vision_analysis f with
                             | Some s => JStr s
                             | None => JNull
                             end)].

Definition frame_data_json (f : frame_data) : json :=
  JDict [("timestamp", JFloat (fd_timestamp f));
         ("filename", JStr (fd_filename f));
         ("ocr_text", JStr (fd_ocr_text f))].

Definition results_json (r : results) : json :=
  JDict ([("frames", JList (map frame_analysis_json (frames r)));
          ("audio_analysis", match audio r with
                             | Some a =>
                                 JDict [("transcription", JStr (transcription a));
                                        ("music_detection", music_json (music_detection a))]
                             | None => JNull
                             end);
          ("all_frames_info", JList (map frame_data_json (all_frames_info r)))]
         ++ match summary r with
            | Some s => [("summary", JStr s)]
            | None => []
            end).

Section WithExternals.
Variable L : pylib.
Variable X : externals.

Definition str_num (n : pynum) : string :=
  match n with
  | PInt k => Py.str_int k
  | PFloat x => str_float L x
  end.

Definition yes_no (b : bool) : string := if b then "Да" else "Нет".

(** The text of the f-string [readme_content] when [results['audio_analysis']]
    is the dict [a]. *)
Definition readme_text (r : results) (a : audio_analysis)
    (video_metadata : video_metadata) : string :=
  "# Результаты анализа видео" +:+ nl
  +:+ "Дата анализа: " +:+ datetime_now X +:+ nl
  +:+ nl
  +:+ "## Структура архива:" +:+ nl
  +:+ "- all_frames/ - все кадры из видео" +:+ nl
  +:+ "- analysis.json - полные результаты анализа с детальным описанием" +:+ nl
  +:+ "- README.md - этот файл" +:+ nl
  +:+ nl
  +:+ "## Информация о видео:" +:+ nl
  +:+ "- Длительность: " +:+ str_num (duration video_metadata) +:+ " секунд" +:+ nl
  +:+ "- Разрешение: " +:+ resolution video_metadata +:+ nl
  +:+ "- Формат: " +:+ format video_metadata +:+ nl
  +:+ nl
  +:+ "## Статистика анализа:" +:+ nl
  +:+ "- Количество извлеченных кадров: "
  +:+ Py.str_int (Z.of_nat (length (all_frames_info r))) +:+ nl
  +:+ "- Количество ключевых кадров: "
  +:+ Py.str_int (Z.of_nat (length (frames r))) +:+ nl
  +:+ "- Наличие аудио: " +:+ yes_no true +:+ nl
  +:+ "- Обнаружена музыка: " +:+ yes_no (has_music (music_detection a)) +:+ nl
  +:+ nl
  +:+ "## Основное содержание:" +:+ nl
  +:+ match summary r with
      | Some s => s
      | None => "Анализ не удался"
      end +:+ nl.

(** The f-string [readme_content] of [create_results_archive].  While
    [results['audio_analysis']] is still [None], the chain of [.get] calls on
    line 47 raises. *)
Definition readme_content (r : results) (video_metadata : video_metadata)
  : outcome string :=
  match audio r with
  | Some a => Return (readme_text r a video_metadata)
  | None => Raise (Exn "AttributeError" "'NoneType' object has no attribute 'get'")
  end.

(** [zipfile.ZipFile(zip_path, 'w', ...)]: a new, empty archive. *)
Definition zip_open (zip_path : string) : M unit :=
  fun w => (Return tt, World (files w) (<[zip_path := []]> (archives w)) (trace w)).

(** [zipf.write(file_path, arcname)]: the file's bytes become the next member. *)
Definition zip_write (zip_path file_path arcname : string) : M unit :=
  let* bytes := read_file file_path in
  fun w =>
    (Return tt,
     World (files w)
           (alter (fun members => (members ++ [(arcname, bytes)])%list) zip_path
                  (archives w))
           (trace w)).

(** The two nested loops over [os.walk(top)] visit every file below [top]
    once, with [root] its directory: [os.path.join(root, file)] is its path and
    [file] its base name. *)
Definition os_walk_files (top : string) : M (list string) :=
  fun w => (Return (paths_under top (files w)), w).

Fixpoint for_each {A : Type} (l : list A) (body : A -> M unit) : M unit :=
  match l with
  | [] => ret tt
  | x :: r => let* _ := body x in for_each r body
  end.

(** [create_results_archive], called with a metadata dict as [analyze_video]
    does. *)
Definition create_results_archive (r : results) (output_dir : string)
    (video_metadata : video_metadata) : M string :=
  try_except
    (let archive_dir := Py.join output_dir "analysis_results" in
     let results_file := Py.join archive_dir "analysis.json" in
     let* _ := write_file results_file (json_dumps_indent L (results_json r)) in
     let* readme := lift (readme_content r video_metadata) in
     let readme_file := Py.join archive_dir "README.md" in
     let* _ := write_file readme_file readme in
     let zip_path := Py.join output_dir "video_analysis.zip" in
     let* _ := zip_open zip_path in
     let frames_dir := Py.join output_dir "all_frames" in
     let* walked := os_walk_files frames_dir in
     let* _ := for_each walked (fun file_path =>
                 let file := Py.basename file_path in
                 let arc_path := Py.join "all_frames" file in
                 zip_write zip_path file_path arc_path) in
     let* _ := zip_write zip_path results_file "analysis.json" in
     let* _ := zip_write zip_path readme_file "README.md" in
     ret zip_path)
    (fun e =>
       let* _ := log "ERROR" ("Error creating archive: " +:+ exn_msg e) in
       raise e).

Definition print (line : string) : M unit := emit (Print line).

(** Lines 151 to 188: the report on the console. *)
Definition render_report (summary_text : string) : M unit :=
  let* _ := print (nl +:+ "=== ДЕТАЛЬНЫЙ АНАЛИЗ ВИДЕО ===" +:+ nl) in
  try_except
    (let* summary := lift (json_loads L summary_text) in
     let* has_error := lift (error_in summary) in
     if negb has_error then
       let* _ := for_each (print_summary_fields L summary).1 print in
       match (print_summary_fields L summary).2 with
       | Some e => raise e
       | None => ret tt
       end
     else
       let* _ := print "❌ Ошибка при создании итогового описания:" in
       print (json_dumps_indent L summary))
    (fun e =>
       let* _ := log "ERROR" ("Ошибка при обработке итогового описания: " +:+ exn_msg e) in
       print "❌ Ошибка при обработке итогового описания").

(** Lines 116 to 124: OCR over the dense frames. *)
Definition process_all_frames (all_frames : list frame_info)
  : M (list frame_data) :=
  mapM (fun frame_info =>
          let* ocr_text := perform_ocr X (fi_path frame_info) in
          ret (FrameData (fi_timestamp frame_info) (fi_filename frame_info) ocr_text))
       all_frames.

(** Lines 126 to 135: OCR and vision analysis over the key frames. *)
Definition process_key_frames (key_frames : list frame) : M (list frame_analysis) :=
  mapM (fun frame =>
          let* ocr_text := perform_ocr X (path frame) in
          let* vision_analysis := analyze_image L X (path frame) in
          ret (FrameAnalysis (timestamp frame) ocr_text vision_analysis))
       key_frames.

(** Lines 146 to 197: summary, report, archive and cleanup. *)
Definition summarize_and_archive (temp_dir output_dir : string)
    (video_metadata : video_metadata) (r : results) : M string :=
  let* summary_text := generate_summary L X r in
  let r := Results (frames r) (audio r) (all_frames_info r) (Some summary_text) in
  let* _ := render_report summary_text in
  let* zip_path := create_results_archive r output_dir video_metadata in
  let* _ := cleanup X temp_dir in
  ret zip_path.

(** [analyze_video]; the progress messages it prints between the stages are
    left out of the trace. *)
Definition analyze_video (url : string) (publish : bool) : M exit :=
  try_except
    (let temp_dir := "temp" in
     let output_dir := Py.join "output" (strftime_stamp X) in
     let* video_path := download_video X temp_dir url in
     let* video_metadata := get_video_metadata X video_path in
     let* all_frames := extract_all_frames X video_path output_dir 1 in
     let* key_frames := extract_frames X temp_dir video_path in
     let* all_frames_info := process_all_frames all_frames in
     let* frame_analyses := process_key_frames key_frames in
     let* audio_path := extract_audio X temp_dir video_path in
     let* transcription := transcribe_audio X audio_path in
     let* music_detection := detect_music audio_path in
     let r := Results frame_analyses
                      (Some (AudioAnalysis transcription music_detection))
                      all_frames_info None in
     let* zip_path := summarize_and_archive temp_dir output_dir video_metadata r in
     let* _ :=
       if publish then
         try_except
           (let* repo_url := lift (publish_to_github X) in
            print ("✅ Код опубликован на GitHub: " +:+ repo_url))
           (fun e =>
              let* _ := log "ERROR" ("Ошибка при публикации на GitHub: " +:+ exn_msg e) in
              print "❌ Ошибка при публикации на GitHub")
       else ret tt in
     ret Completed)
    (fun e =>
       let* _ := log "ERROR" ("Ошибка при анализе видео: " +:+ exn_msg e) in
       let* _ := print (nl +:+ "❌ Ошибка: " +:+ exn_msg e) in
       ret (SysExit 1)).

End WithExternals.

End Main.

(** ** github_publisher.py *)

Module GitHubPublisher.

(** A request to the GitHub API: the method, the URL, the token that the
    [Authorization] header carries, and the JSON body. *)
Inductive request :=
| Post (url token : string) (body : json)
| Put (url token : string) (body : json)
| Get (url token : string).

(** What publishing does that an observer can see, in the order it happens. *)
Inductive net_event :=
| Sent (r : request)             (* requests.<method>(url, headers=..., ...) *)
| NetLog (level msg : string).   (* logger.<level>(msg) *)

(** What the publisher reaches outside itself. *)
Record environment := {
  (* os.environ.get("GITHUB_TOKEN") *)
  github_token : option string;
  (* the files below the working directory; publishing writes none *)
  project_files : gmap string string;
  (* requests.<method>(...), raise_for_status() and response.json() for a
     request, given the requests sent before it: the value of the response, or
     the exception *)
  http : list request -> request -> outcome json;
  (* base64.b64encode(content).decode('utf-8') *)
  b64encode : string -> string;
  (* str(v) for a value of a response, as an f-string formats it *)
  str_json : json -> string;
  (* the TypeError of v[key] for a value that is no dict *)
  subscript_error : json -> exn
}.

(** A computation that adds to the events of the publication and may raise. *)
Definition G (A : Type) : Type := list net_event -> outcome A * list net_event.

Definition gret {A : Type} (a : A) : G A := fun t => (Return a, t).

Definition graise {A : Type} (e : exn) : G A := fun t => (Raise e, t).

Definition gbind {A B : Type} (m : G A) (k : A -> G B) : G B :=
  fun t =>
    match m t with
    | (Return a, t') => k a t'
    | (Raise e, t') => (Raise e, t')
    end.

Notation "'let+' x ':=' m 'in' k" := (gbind m (fun x => k))
  (at level 10, x name, m at level 100, k at level 200, only parsing).

(** [try: body except Exception as e: handler e] *)
Definition gtry {A : Type} (body : G A) (handler : exn -> G A) : G A :=
  fun t =>
    match body t with
    | (Return a, t') => (Return a, t')
    | (Raise e, t') => handler e t'
    end.

Definition glift {A : Type} (o : outcome A) : G A := fun t => (o, t).

Definition glog (level msg : string) : G unit :=
  fun t => (Return tt, t ++ [NetLog level msg]).

Fixpoint gfor_each {A : Type} (l : list A) (body : A -> G unit) : G unit :=
  match l with
  | [] => gret tt
  | x :: r => let+ _ := body x in gfor_each r body
  end.

(** The requests among the events. *)
Definition requests_sent (t : list net_event) : list request :=
  omap (fun ev => match ev with
                  | Sent r => Some r
                  | NetLog _ _ => None
                  end) t.

(** [Path(p).name] (PurePosixPath): the last component of [p] that is neither
    empty nor a single dot, the empty string when there is none. *)
Definition path_name (p : string) : string :=
  default EmptyString
    (last (List.filter (fun c => negb (String.eqb c EmptyString)
                                 && negb (String.eqb c "."))
                       (Py.split "/" p))).

Definition api_base : string := "https://api.github.com".

(** The files [publish_to_github] uploads, in its order. *)
Definition project_file_names : list string :=
  ["main.py"; "video_processor.py"; "ai_analyzer.py"; "github_publisher.py";
   "README.md"; "CONTRIBUTING.md"; "CONTRIBUTORS.md"; ".gitignore"].

Section WithEnvironment.
Variable E : environment.

(** One request: it is sent, and its response is read. *)
Definition send (r : request) : G json :=
  fun t => (http E (requests_sent t) r, t ++ [Sent r]).

(** [v[key]] for a [str] key: the value under the key of a dict (whose keys
    are distinct), [KeyError] when the key is absent, [TypeError] on a value
    that is no dict. *)
Definition subscript (v : json) (key : string) : outcome json :=
  match v with
  | JDict items =>
      match List.find (fun kv => String.eqb key kv.1) items with
      | Some kv => Return kv.2
      | None => Raise (Exn "KeyError" ("'" +:+ key +:+ "'"))
      end
  | _ => Raise (subscript_error E v)
  end.

(** A directory is there when a file lies below it. *)
Definition is_directory (p : string) : bool :=
  match paths_under p (project_files E) with
  | [] => false
  | _ :: _ => true
  end.

(** [os.path.exists(p)] *)
Definition os_path_exists (p : string) : bool :=
  bool_decide (is_Some (project_files E !! p)) || is_directory p.

(** [open(p, 'rb').read()] *)
Definition open_read (p : string) : G string :=
  glift match project_files E !! p with
        | Some bytes => Return bytes
        | None =>
            if is_directory p
            then Raise (Exn "IsADirectoryError"
                            ("[Errno 21] Is a directory: '" +:+ p +:+ "'"))
            else Raise (file_not_found p)
        end.

(** The methods of [GitHubPublisher(token)]. *)
Definition create_repo (token name description : string) : G json :=
  gtry
    (let url := api_base +:+ "/user/repos" in
     let data := JDict [("name", JStr name);
                        ("description", JStr description);
                        ("private", JBool false);
                        ("auto_init", JBool false)] in
     send (Post url token data))
    (fun e =>
       let+ _ := glog "ERROR" ("Error creating repository: " +:+ exn_msg e) in
       graise e).

Definition get_user (token : string) : G json :=
  gtry
    (send (Get (api_base +:+ "/user") token))
    (fun e =>
       let+ _ := glog "ERROR" ("Error getting user info: " +:+ exn_msg e) in
       graise e).

Definition upload_file (token repo_name file_path commit_message : string) : G json :=
  gtry
    (let+ content := open_read file_path in
     let content_b64 := b64encode E content in
     let+ user := get_user token in
     let+ login := glift (subscript user "login") in
     let url := api_base +:+ "/repos/" +:+ str_json E login +:+ "/" +:+ repo_name
                +:+ "/contents/" +:+ path_name file_path in
     let data := JDict [("message", JStr commit_message);
                        ("content", JStr content_b64)] in
     send (Put url token data))
    (fun e =>
       let+ _ := glog "ERROR" ("Error uploading file " +:+ file_path +:+ ": "
                               +:+ exn_msg e) in
       graise e).

(** [publish_to_github(repo_name)]: the value of [repo['html_url']]. *)
Definition publish_to_github (repo_name : string) : G json :=
  gtry
    (let+ token :=
       match github_token E with
       | Some token =>
           if String.eqb token EmptyString
           then graise (Exn "ValueError"
                            "GitHub token not found in environment variables")
           else gret token
       | None => graise (Exn "ValueError"
                             "GitHub token not found in environment variables")
       end in
     let+ repo := create_repo token repo_name "Video Analysis System" in
     let+ html_url := glift (subscript repo "html_url") in
     let+ _ := glog "INFO" ("Created repository: " +:+ str_json E html_url) in
     let+ _ := gfor_each project_file_names (fun file =>
                 if os_path_exists file then
                   let+ _ := upload_file token repo_name file "Initial commit" in
                   glog "INFO" ("Uploaded " +:+ file)
                 else gret tt) in
     glift (subscript repo "html_url"))
    (fun e =>
       let+ _ := glog "ERROR" ("Error publishing to GitHub: " +:+ exn_msg e) in
       graise e).

End WithEnvironment.

End GitHubPublisher.

(** ** Vocabulary of the statements *)

(** [c] does not occur in [s]. *)
Definition no_char (c : ascii) (s : string) : bool :=
  Py.all_chars (fun x => negb (Ascii.eqb x c)) s.

(** The number a string of decimal digits writes. *)
Fixpoint decimal_from (acc : Z) (ds : string) : Z :=
  match ds with
  | EmptyString => acc
  | String c r => decimal_from (10 * acc + (Py.ord c - 48)) r
  end.

Definition decimal_value (ds : string) : Z := decimal_from 0 ds.

(** A text of ASCII characters none of which is a digit. *)
Definition ascii_without_digit (s : string) : bool :=
  Py.all_chars (fun c => (Py.ord c <? 128) && negb (Py.is_digit c)) s.

(** The delays and requests of a trace, without the log lines. *)
Definition timeline (t : list event) : list event :=
  List.filter (fun ev => match ev with
                         | Sleep _ | ApiCall _ => true
                         | _ => false
                         end) t.

(** The lines logged of a trace, in their order. *)
Definition logged (t : list event) : list event :=
  List.filter (fun ev => match ev with
                         | Log _ _ => true
                         | _ => false
                         end) t.

(** The exception of a reply is a quota failure, as the code tests it. *)
Definition is_quota (e : exn) : bool := Py.contains "insufficient_quota" (exn_msg e).

(** The world after more events. *)
Definition with_events (evs : list event) (w : world) : world :=
  World (files w) (archives w) (trace w ++ evs).

(** Every reply of the inference API is a quota failure. *)
Definition always_quota (X : externals) : Prop :=
  forall k, exists e, openai X k = Raise e /\ is_quota e = true.

(** The delay and the request of each attempt, in order. *)
Definition attempts_timeline (attempts : list nat) : list event :=
  flat_map (fun attempt => [Sleep (5 * 2 ^ Z.of_nat attempt); ApiCall "gpt-4o"])
           attempts.

(** The two log lines of [attempts_loop]. *)
Definition waiting_line (attempt max_retries : nat) : event :=
  Log "INFO" ("Waiting " +:+ Py.str_int (5 * 2 ^ Z.of_nat attempt)
              +:+ " seconds before API call (attempt "
              +:+ Py.str_int (Z.of_nat attempt + 1) +:+ "/"
              +:+ Py.str_int (Z.of_nat max_retries) +:+ ")").

Definition failed_line (attempt max_retries : nat) (e : exn) : event :=
  Log "WARNING" ("API call failed (attempt "
                 +:+ Py.str_int (Z.of_nat attempt + 1) +:+ "/"
                 +:+ Py.str_int (Z.of_nat max_retries) +:+ "): "
                 +:+ exn_msg e).

(** A key frame as it would be without a vision payload. *)
Definition without_vision (frame : frame_analysis) : frame_analysis :=
  FrameAnalysis (fa_timestamp frame) (fa_ocr_text frame) None.

(** The member of the archive that a file below the frame directory becomes. *)
Definition frame_member (fs : gmap string string) (p : string) : string * string :=
  (Py.join "all_frames" (Py.basename p), default EmptyString (fs !! p)).

(** What [os.path.join] puts before a relative second argument. *)
Definition dir_prefix (a : string) : string :=
  if String.eqb a EmptyString || Py.endswith_char a "/" then a else a +:+ "/".

(** The summary that [generate_summary] makes of a reply. *)
Definition summary_of_reply (L : pylib) (reply : outcome string) : string :=
  match reply with
  | Return content => content
  | Raise e =>
      json_dumps L (if is_quota e then AIAnalyzer.summary_quota_error
                    else AIAnalyzer.summary_failed_error (exn_msg e))
  end.

(** A computation that only adds events: files and archives stay. *)
Definition events_only {A : Type} (m : M A) : Prop :=
  forall w, exists evs, snd (m w) = with_events evs w.

(** The line that opens the report on the console. *)
Definition report_header : event :=
  Print (nl +:+ "=== ДЕТАЛЬНЫЙ АНАЛИЗ ВИДЕО ===" +:+ nl).

(** The seconds slept in a trace. *)
Definition total_sleep (t : list event) : Z :=
  foldr (fun ev acc => match ev with
                       | Sleep seconds => seconds + acc
                       | _ => acc
                       end) 0 t.

(** A computation that, from any world, adds events with at most [calls]
    requests to the inference API and at most [seconds] of sleep. *)
Definition costs {A : Type} (m : M A) (calls : nat) (seconds : Z) : Prop :=
  forall w, exists evs,
    trace (snd (m w)) = (trace w ++ evs)%list
    /\ (AIAnalyzer.api_calls evs <= calls)%nat
    /\ 0 <= total_sleep evs <= seconds.

(** The frame files of a listing all carry a number of [width] digits, as the
    pattern [frame_%04d.jpg] gives for [width = 4] while the numbers stay
    below 10000. *)
Definition numbered_frames (width : nat) (listing : list string) : Prop :=
  forall name,
    In name listing -> Py.startswith name "frame_" = true ->
    exists ds,
      name = "frame_" +:+ ds +:+ ".jpg"
      /\ Py.all_chars Py.is_digit ds = true
      /\ String.length ds = width.

(** A request that a publication with this token and repository name can
    send: the creation of the repository, a look at the user, or the upload of
    one of the project files. *)
Definition publisher_request (token repo_name : string)
    (r : GitHubPublisher.request) : Prop :=
  match r with
  | GitHubPublisher.Post url tk _ =>
      url = GitHubPublisher.api_base +:+ "/user/repos" /\ tk = token
  | GitHubPublisher.Get url tk =>
      url = GitHubPublisher.api_base +:+ "/user" /\ tk = token
  | GitHubPublisher.Put url tk _ =>
      tk = token
      /\ exists login file,
           In file GitHubPublisher.project_file_names
           /\ url = GitHubPublisher.api_base +:+ "/repos/" +:+ login +:+ "/"
                    +:+ repo_name +:+ "/contents/" +:+ file
  end.

(** A publishing step that, from any events, adds events with at most [n]
    requests, each of them satisfying [P]. *)
Definition sends {A : Type} (m : GitHubPublisher.G A) (n : nat)
    (P : GitHubPublisher.request -> Prop) : Prop :=
  forall t, exists evs,
    snd (m t) = (t ++ evs)%list
    /\ (length (GitHubPublisher.requests_sent evs) <= n)%nat
    /\ Forall P (GitHubPublisher.requests_sent evs).

(** The two requests of one upload. *)
Definition upload_requests (E : GitHubPublisher.environment)
    (token repo_name login file : string) : list GitHubPublisher.request :=
  [GitHubPublisher.Get (GitHubPublisher.api_base +:+ "/user") token;
   GitHubPublisher.Put
     (GitHubPublisher.api_base +:+ "/repos/" +:+ login +:+ "/" +:+ repo_name
      +:+ "/contents/" +:+ file)
     token
     (JDict [("message", JStr "Initial commit");
             ("content",
               JStr (GitHubPublisher.b64encode E
                       (default EmptyString
                          (GitHubPublisher.project_files E !! file))))])].

(** The exception that leaves the [except] clauses of an extraction method
    that caught [e]: [e] itself, unless [e] is a [CalledProcessError] whose
    stderr does not decode. *)
Definition reraised (X : externals) (e : exn) : exn :=
  if String.eqb (exn_class e) "CalledProcessError" then
    match stderr_decode X e with
    | Return _ => e
    | Raise e' => e'
    end
  else e.

(** The three command lines of ffmpeg in a run. *)
Definition dense_frames_cmd (video_path output_dir : string) (fps : Z) : list string :=
  ["ffmpeg"; "-i"; video_path; "-vf"; "fps=" +:+ Py.str_int fps;
   "-frame_pts"; "1"; "-vsync"; "0";
   Py.join (Py.join output_dir "all_frames") "frame_%04d.jpg"].

Definition key_frames_cmd (video_path temp_dir : string) : list string :=
  ["ffmpeg"; "-i"; video_path; "-vf"; "select=gt(scene\,0.4)";
   "-vsync"; "0"; "-frame_pts"; "1"; Py.join temp_dir "frame_%04d.jpg"].

Definition audio_cmd (video_path temp_dir : string) : list string :=
  ["ffmpeg"; "-i"; video_path; "-ac"; "1"; "-ar"; "16000"; "-y";
   Py.join temp_dir "audio.wav"].





(** What the audio analysis adds to the summary prompt. *)
Definition audio_prompt (a : option audio_analysis) : string :=
  match a with
  | Some a =>
      (nl +:+ "Аудио содержание:" +:+ nl +:+ transcription a +:+ nl)
      +:+ (if VideoProcessor.has_music (music_detection a)
           then "В видео обнаружена музыка." +:+ nl
           else EmptyString)
  | None => EmptyString
  end.

(** The summary prompt of results whose key frames are [pre], then a frame
    that shows as [frame_text], then [post]. *)
Definition prompt_with_frame (L : pylib) (pre post : list frame_analysis)
    (a : option audio_analysis) (frame_text : string) : string :=
  ("Проанализируйте следующее содержание видео для создания JSON-анализа:"
     +:+ nl +:+ nl)
  +:+ (("Ключевые кадры:" +:+ nl)
       +:+ (AIAnalyzer.frames_prompt L pre +:+ frame_text
            +:+ AIAnalyzer.frames_prompt L post))
  +:+ audio_prompt a.

(** ** Concrete collaborators for the closed examples *)

Module Sample.

Definition dq : ascii := ascii_of_nat 34.

Definition quote (s : string) : string := String dq (s +:+ String dq EmptyString).

(** A small JSON library: objects whose values are strings without quotes or
    backslashes, written and read back in the layout of [json.dumps]. *)
Fixpoint dumps_items (items : list (string * json)) : string :=
  match items with
  | [] => EmptyString
  | (k, JStr v) :: rest =>
      quote k +:+ ": " +:+ quote v
      +:+ match rest with
          | [] => EmptyString
          | _ :: _ => ", " +:+ dumps_items rest
          end
  | _ :: _ => "null"
  end.

Definition dumps (v : json) : string :=
  match v with
  | JDict items => "{" +:+ dumps_items items +:+ "}"
  | JStr s => quote s
  | _ => "null"
  end.

Fixpoint loads_items (pieces : list string) : option (list (string * json)) :=
  match pieces with
  | k :: ": " :: v :: "}" :: [] => Some [(k, JStr v)]
  | k :: ": " :: v :: ", " :: rest =>
      option_map (cons (k, JStr v)) (loads_items rest)
  | _ => None
  end.

Definition loads (s : string) : outcome json :=
  match Py.split dq s with
  | "{" :: pieces =>
      match loads_items pieces with
      | Some items => Return (JDict items)
      | None => Raise (Exn "JSONDecodeError" "Expecting value")
      end
  | _ => Raise (Exn "JSONDecodeError" "Expecting value")
  end.

(** [str_float] writes one decimal, as [str] does for the durations used
    below. *)
Definition lib : pylib := {|
  json_loads := loads;
  json_dumps := dumps;
  json_dumps_indent := dumps;
  str_float := Py.format_1f;
  print_summary_fields := fun _ => ([], None)
|}.

(** An ffmpeg that writes the given files and never fails. *)
Definition ffmpeg_writing (written : list string)
  : list string -> gmap string string -> outcome (gmap string string) :=
  fun _ fs => Return (foldr (fun p fs => <[p := "jpeg"]> fs) fs written).

(** Collaborators that only differ in what ffmpeg writes and what the
    inference API replies. *)
Definition collaborators (written : list string) (api : nat -> outcome string)
  : externals := {|
  yt_dlp := fun _ => Return ("mp4", "video");
  yt_dlp_leftovers := fun _ fs => fs;
  ffprobe := fun _ => Return (Metadata (PFloat 10) "mov,mp4" "640x360");
  ffmpeg := ffmpeg_writing written;
  ffmpeg_leftovers := fun _ fs => fs;
  stderr_decode := fun _ => Return "Invalid data found when processing input";
  rmtree := fun _ _ => None;
  tesseract := fun _ => Return EmptyString;
  openai := api;
  strftime_stamp := "20240101_120000";
  datetime_now := "2024-01-01 12:00:00";
  publish_to_github := Return "https://github.com/"
|}.

Definition no_api : nat -> outcome string :=
  fun _ => Raise (Exn "APIConnectionError" "Connection error.").

(** The replies of a script, then connection errors. *)
Definition scripted (replies : list (outcome string)) : nat -> outcome string :=
  fun k => default (Raise (Exn "APIConnectionError" "Connection error.")) (replies !! k).

(** A failure that may pass, and the failure of an exhausted quota. *)
Definition timed_out : exn := Exn "APITimeoutError" "Request timed out.".

Definition quota_exceeded : exn :=
  Exn "RateLimitError" "Error code: 429 - insufficient_quota".

Definition quota_api : nat -> outcome string := fun _ => Raise quota_exceeded.

Definition empty_world : world := World ∅ ∅ [].

(** The results of a run without frames, before the summary. *)
Definition results_without_frames : results :=
  Results [] (Some (AudioAnalysis "hello" (VideoProcessor.Music true []))) [] None.

(** A world where the given files exist. *)
Definition world_with (paths : list string) : world :=
  World (foldr (fun p fs => <[p := "bytes"]> fs) ∅ paths) ∅ [].

(** The dense frames ffmpeg writes for a 10-second video at [fps=1] with
    [-frame_pts 1]: one file per second, numbered by its presentation
    timestamp, which counts the seconds. *)
Definition dense_frames_10s : list string :=
  map (fun n =>
         "output/20240101_120000/all_frames/frame_000" +:+ Py.str_int n +:+ ".jpg")
      [0; 1; 2; 3; 4; 5; 6; 7; 8; 9].

(** The key frames ffmpeg writes for a video with scene changes at the
    presentation timestamps 3000, 9000, 12000 and 15000 ([-frame_pts 1] puts
    the timestamp of a key frame in its name, and [%04d] pads it to four
    digits and no further). *)
Definition key_frames_long_video : list string :=
  ["temp/frame_3000.jpg"; "temp/frame_9000.jpg";
   "temp/frame_12000.jpg"; "temp/frame_15000.jpg"].

(** A GitHub that accepts everything, seen from a working directory with two
    of the project files; [b64encode] is a stand-in that marks its argument. *)
Definition github (token : option string) : GitHubPublisher.environment := {|
  GitHubPublisher.github_token := token;
  GitHubPublisher.project_files :=
    <["main.py" := "print()"]> (<["README.md" := "# readme"]> ∅);
  GitHubPublisher.http :=
    fun _ _ => Return (JDict [("html_url", JStr "https://github.com/u/r");
                              ("login", JStr "u")]);
  GitHubPublisher.b64encode := fun content => "base64:" +:+ content;
  GitHubPublisher.str_json := fun v => match v with
                                       | JStr s => s
                                       | _ => "None"
                                       end;
  GitHubPublisher.subscript_error :=
    fun _ => Exn "TypeError" "object is not subscriptable"
|}.

(** A machine without network: the download, the probe, the OCR engine, the
    inference API and the publication all fail. *)
Definition without_network : externals := {|
  yt_dlp := fun _ => Raise timed_out;
  yt_dlp_leftovers := fun _ fs => fs;
  ffprobe := fun _ => Raise timed_out;
  ffmpeg := ffmpeg_writing [];
  ffmpeg_leftovers := fun _ fs => fs;
  stderr_decode := fun _ => Return EmptyString;
  rmtree := fun _ _ => None;
  tesseract := fun _ => Raise timed_out;
  openai := no_api;
  strftime_stamp := "20240101_120000";
  datetime_now := "2024-01-01 12:00:00";
  publish_to_github := Raise timed_out
|}.

(** A machine whose ffmpeg cannot be started. *)
Definition without_ffmpeg : externals := {|
  yt_dlp := fun _ => Return ("mp4", "video");
  yt_dlp_leftovers := fun _ fs => fs;
  ffprobe := fun _ => Raise timed_out;
  ffmpeg := fun _ _ => Raise (Exn "FileNotFoundError" "ffmpeg");
  ffmpeg_leftovers := fun _ fs => fs;
  stderr_decode := fun _ => Return EmptyString;
  rmtree := fun _ _ => None;
  tesseract := fun _ => Return EmptyString;
  openai := no_api;
  strftime_stamp := "20240101_120000";
  datetime_now := "2024-01-01 12:00:00";
  publish_to_github := Raise timed_out
|}.

(** A video without an audio stream: ffmpeg writes a frame for the commands
    with a video filter and fails on the sound. *)
Definition no_audio_stream : exn :=
  Exn "CalledProcessError"
      "Command '['ffmpeg', ...]' returned non-zero exit status 1.".

Definition silent_video : externals := {|
  yt_dlp := fun _ => Return ("mp4", "video");
  yt_dlp_leftovers := fun _ fs => fs;
  ffprobe := fun _ => Return (Metadata (PFloat 10) "mov,mp4" "640x360");
  ffmpeg := fun cmd fs =>
              if bool_decide (cmd !! 3%nat = Some "-vf")
              then ffmpeg_writing ["temp/frame_0001.jpg"] cmd fs
              else Raise no_audio_stream;
  ffmpeg_leftovers := fun _ fs => fs;
  stderr_decode := fun _ => Return "Output file does not contain any stream";
  rmtree := fun _ _ => None;
  tesseract := fun _ => Return EmptyString;
  openai := fun _ => Return "{}";
  strftime_stamp := "20240101_120000";
  datetime_now := "2024-01-01 12:00:00";
  publish_to_github := Return "https://github.com/"
|}.

(** A machine on which the temporary directory cannot be removed. *)
Definition locked_temp : externals := {|
  yt_dlp := fun _ => Return ("mp4", "video");
  yt_dlp_leftovers := fun _ fs => fs;
  ffprobe := fun _ => Return (Metadata (PFloat 10) "mov,mp4" "640x360");
  ffmpeg := ffmpeg_writing ["temp/frame_0001.jpg"; "temp/audio.wav"];
  ffmpeg_leftovers := fun _ fs => fs;
  stderr_decode := fun _ => Return EmptyString;
  rmtree := fun _ fs => Some (Exn "PermissionError" "[Errno 13] Permission denied", fs);
  tesseract := fun _ => Return EmptyString;
  openai := fun _ => Return "{}";
  strftime_stamp := "20240101_120000";
  datetime_now := "2024-01-01 12:00:00";
  publish_to_github := Return "https://github.com/"
|}.

End Sample.

(** * Properties *)

(** ** Strings *)

Lemma string_app_nil_l (b : string) : EmptyString +:+ b = b.
Proof. reflexivity. Qed.

Lemma string_app_cons (c : ascii) (a b : string) : String c a +:+ b = String c (a +:+ b).
Proof. reflexivity. Qed.

(** [simpl] leaves [+:+] alone; this unfolds it on a constructor. *)
Ltac app_step := rewrite ?string_app_cons, ?string_app_nil_l; cbn [String.length].

Lemma string_length_app (a b : string) :
  String.length (a +:+ b) = (String.length a + String.length b)%nat.
Proof. induction a as [|c a IH]; app_step; [reflexivity | now rewrite IH]. Qed.

Lemma string_app_assoc (a b c : string) : (a +:+ b) +:+ c = a +:+ (b +:+ c).
Proof. induction a as [|x a IH]; app_step; [reflexivity | now rewrite IH]. Qed.


Lemma substring_all (s : string) : String.substring 0 (String.length s) s = s.
Proof. induction s as [|c s IH]; simpl; [reflexivity | now rewrite IH]. Qed.

Lemma substring_app_l (a b : string) :
  String.substring 0 (String.length a) (a +:+ b) = a.
Proof.
  induction a as [|c a IH]; app_step; cbn [String.substring].
  - now destruct b.
  - now rewrite IH.
Qed.

Lemma substring_app_r (a b : string) (n : nat) :
  String.substring (String.length a) n (a +:+ b) = String.substring 0 n b.
Proof.
  induction a as [|c a IH]; app_step; cbn [String.substring];
    [reflexivity | exact IH].
Qed.

Lemma all_chars_app (p : ascii -> bool) (a b : string) :
  Py.all_chars p (a +:+ b) = Py.all_chars p a && Py.all_chars p b.
Proof.
  induction a as [|c a IH]; app_step; cbn [Py.all_chars]; [reflexivity |].
  rewrite IH. now rewrite andb_assoc.
Qed.

Lemma no_char_app (c : ascii) (a b : string) :
  no_char c (a +:+ b) = no_char c a && no_char c b.
Proof. apply all_chars_app. Qed.

Lemma rfind_from_app (c : ascii) (a b : string) (i best : Z) :
  Py.rfind_from c (a +:+ b) i best
  = Py.rfind_from c b (i + Z.of_nat (String.length a)) (Py.rfind_from c a i best).
Proof.
  revert i best. induction a as [|x a IH]; intros i best; app_step.
  - cbn [Py.rfind_from]. f_equal. lia.
  - cbn [Py.rfind_from]. rewrite IH. f_equal. lia.
Qed.

Lemma rfind_from_absent (c : ascii) (s : string) (i best : Z) :
  no_char c s = true -> Py.rfind_from c s i best = best.
Proof.
  revert i best. induction s as [|x s IH]; intros i best H; simpl in *.
  - reflexivity.
  - apply andb_true_iff in H as [Hx Hs].
    apply negb_true_iff in Hx. rewrite Hx. now apply IH.
Qed.

(** The last occurrence: nothing of [c] after it. *)
Lemma rfind_last (c : ascii) (a b : string) :
  no_char c b = true ->
  Py.rfind c (a +:+ String c b) = Z.of_nat (String.length a).
Proof.
  intros Hb. unfold Py.rfind. rewrite rfind_from_app.
  cbn [Py.rfind_from]. rewrite Ascii.eqb_refl.
  rewrite rfind_from_absent by exact Hb. lia.
Qed.

Lemma rfind_absent (c : ascii) (s : string) :
  no_char c s = true -> Py.rfind c s = -1.
Proof. intros H. unfold Py.rfind. now apply rfind_from_absent. Qed.

Lemma slice_from_app (a b : string) :
  Py.slice_from (a +:+ b) (Z.of_nat (String.length a)) = b.
Proof.
  unfold Py.slice_from. rewrite Nat2Z.id, string_length_app.
  replace (String.length a + String.length b - String.length a)%nat
    with (String.length b) by lia.
  rewrite substring_app_r. apply substring_all.
Qed.

Lemma slice_app (a b : string) :
  Py.slice (a +:+ b) 0 (Z.of_nat (String.length a)) = a.
Proof.
  unfold Py.slice. rewrite Z.sub_0_r, Nat2Z.id. apply substring_app_l.
Qed.

Lemma split_absent (sep : ascii) (s : string) :
  no_char sep s = true -> Py.split sep s = [s].
Proof.
  induction s as [|x s IH]; intros H; simpl in *; [reflexivity |].
  apply andb_true_iff in H as [Hx Hs]. apply negb_true_iff in Hx.
  rewrite Hx, (IH Hs). reflexivity.
Qed.

Lemma split_app (sep : ascii) (a b : string) :
  no_char sep a = true ->
  Py.split sep (a +:+ String sep b) = a :: Py.split sep b.
Proof.
  induction a as [|x a IH]; intros H; app_step; cbn [Py.split].
  - now rewrite Ascii.eqb_refl.
  - cbn [no_char Py.all_chars] in H.
    apply andb_true_iff in H as [Hx Ha]. apply negb_true_iff in Hx.
    rewrite Hx, (IH Ha). reflexivity.
Qed.

Lemma all_chars_substring (p : ascii -> bool) (s : string) (i n : nat) :
  Py.all_chars p s = true -> Py.all_chars p (String.substring i n s) = true.
Proof.
  revert i n. induction s as [|c s IH]; intros i n H.
  - now destruct i, n.
  - cbn [Py.all_chars] in H. apply andb_true_iff in H as [Hc Hs].
    destruct i as [|i]; destruct n as [|n]; cbn [String.substring Py.all_chars];
      auto.
    rewrite Hc. cbn. now apply IH.
Qed.

Lemma endswith_char_inv (s : string) (c : ascii) :
  Py.endswith_char s c = true -> exists s', s = s' +:+ String c EmptyString.
Proof.
  induction s as [|x s IH]; cbn [Py.endswith_char]; [discriminate |].
  destruct s as [|y s].
  - intros H. apply Ascii.eqb_eq in H as ->. now exists EmptyString.
  - intros H. destruct (IH H) as [s' Hs']. exists (String x s').
    rewrite string_app_cons. now f_equal.
Qed.

(** ** Paths *)

Lemma basename_after_slash (d name : string) :
  no_char "/" name = true ->
  Py.basename (d +:+ String "/" name) = name.
Proof.
  intros H. unfold Py.basename. rewrite (rfind_last "/" d name H).
  replace (d +:+ String "/" name) with ((d +:+ String "/" EmptyString) +:+ name)
    by (rewrite string_app_assoc; now app_step).
  replace (Z.of_nat (String.length d) + 1)
    with (Z.of_nat (String.length (d +:+ String "/" EmptyString)))
    by (rewrite string_length_app; cbn [String.length]; lia).
  apply slice_from_app.
Qed.

Lemma basename_plain (name : string) :
  no_char "/" name = true -> Py.basename name = name.
Proof.
  intros H. unfold Py.basename. rewrite (rfind_absent "/" name H).
  change (-1 + 1) with (Z.of_nat (String.length EmptyString)).
  exact (slice_from_app EmptyString name).
Qed.

Lemma startswith_slash_absent (name : string) :
  no_char "/" name = true -> Py.startswith name "/" = false.
Proof.
  destruct name as [|c name]; [reflexivity |].
  unfold no_char. cbn [Py.all_chars]. intros H.
  apply andb_true_iff in H as [Hc _]. apply negb_true_iff in Hc.
  unfold Py.startswith. cbn [String.prefix].
  destruct (ascii_dec "/" c) as [E|Hne]; [| reflexivity].
  subst c. now rewrite Ascii.eqb_refl in Hc.
Qed.

(** A name joined to a directory is the base name of the result. *)
Lemma basename_join (dir name : string) :
  no_char "/" name = true -> Py.basename (Py.join dir name) = name.
Proof.
  intros H. unfold Py.join. rewrite (startswith_slash_absent name H).
  destruct (String.eqb dir EmptyString) eqn:Hd.
  - apply String.eqb_eq in Hd as ->. cbn [orb]. rewrite string_app_nil_l.
    now apply basename_plain.
  - cbn [orb]. destruct (Py.endswith_char dir "/") eqn:He.
    + destruct (endswith_char_inv _ _ He) as [d' ->].
      rewrite string_app_assoc. app_step. now apply basename_after_slash.
    + app_step. now apply basename_after_slash.
Qed.

(** The stem of [a.ext], when [a] is not made of dots only. *)
Lemma splitext_stem (a ext : string) :
  no_char "/" a = true -> no_char "/" ext = true -> no_char "." ext = true ->
  Py.all_chars (Ascii.eqb ".") a = false ->
  fst (Py.splitext (a +:+ String "." ext)) = a.
Proof.
  intros Ha He Hd Hdots. unfold Py.splitext.
  rewrite (rfind_last "." a ext Hd).
  rewrite rfind_absent.
  2:{ rewrite no_char_app, Ha. cbn [no_char Py.all_chars andb].
      exact He. }
  change (-1 + 1) with 0. rewrite slice_app, Hdots.
  replace (-1 <? Z.of_nat (String.length a)) with true
    by (symmetry; apply Z.ltb_lt; lia).
  reflexivity.
Qed.

(** The stem of a name is a piece of it. *)
Lemma splitext_stem_chars (p : ascii -> bool) (s : string) :
  Py.all_chars p s = true -> Py.all_chars p (fst (Py.splitext s)) = true.
Proof.
  intros H. unfold Py.splitext.
  destruct (_ && _); cbn [fst]; [| exact H].
  unfold Py.slice. now apply all_chars_substring.
Qed.

(** ** Integer literals *)

Lemma is_digit_range (c : ascii) :
  Py.is_digit c = true -> 48 <= Py.ord c <= 57.
Proof. unfold Py.is_digit. intros H. apply andb_true_iff in H. lia. Qed.

Lemma digit_not_space (c : ascii) : Py.is_digit c = true -> Py.is_space c = false.
Proof.
  intros H%is_digit_range. unfold Py.is_space.
  apply orb_false_iff. split; [apply andb_false_iff | apply Z.eqb_neq]; lia.
Qed.

Lemma digit_not_char (c x : ascii) :
  Py.is_digit c = true -> Py.is_digit x = false -> Ascii.eqb c x = false.
Proof.
  intros Hc Hx. destruct (Ascii.eqb_spec c x) as [->|]; [congruence | reflexivity].
Qed.

Lemma digits_no_char (x : ascii) (ds : string) :
  Py.is_digit x = false -> Py.all_chars Py.is_digit ds = true -> no_char x ds = true.
Proof.
  intros Hx. induction ds as [|c ds IH]; cbn [Py.all_chars no_char]; [reflexivity |].
  intros H. apply andb_true_iff in H as [Hc Hds].
  rewrite (digit_not_char c x Hc Hx). cbn. now apply IH.
Qed.

Lemma int_body_digits (ds : string) (after_digit : bool) (acc : Z) :
  Py.all_chars Py.is_digit ds = true ->
  after_digit = true \/ ds <> EmptyString ->
  Py.int_body after_digit acc ds = Some (decimal_from acc ds).
Proof.
  revert after_digit acc. induction ds as [|c ds IH]; intros b acc Hd Hne.
  - destruct Hne as [-> | Hne]; [reflexivity | congruence].
  - cbn [Py.all_chars] in Hd. apply andb_true_iff in Hd as [Hc Hds].
    cbn [Py.int_body decimal_from]. rewrite Hc. apply IH; auto.
Qed.

(** [int] of a string of digits is the number it writes. *)
Lemma int_digits (ds : string) :
  Py.all_chars Py.is_digit ds = true -> ds <> EmptyString ->
  Py.int ds = Return (decimal_value ds).
Proof.
  intros Hd Hne. destruct ds as [|c ds]; [congruence |].
  assert (Hd' := Hd). cbn [Py.all_chars] in Hd'.
  apply andb_true_iff in Hd' as [Hc _].
  unfold Py.int. cbn [Py.lstrip]. rewrite (digit_not_space c Hc).
  unfold Py.int_signed.
  rewrite (digit_not_char c "+" Hc eq_refl), (digit_not_char c "-" Hc eq_refl).
  rewrite (int_body_digits (String c ds) false 0 Hd); [reflexivity |].
  right. congruence.
Qed.

Lemma int_body_no_digit (s : string) (acc : Z) :
  Py.all_chars (fun c => negb (Py.is_digit c)) s = true ->
  Py.int_body false acc s = None.
Proof.
  destruct s as [|c s]; [reflexivity |].
  cbn [Py.all_chars Py.int_body]. intros H.
  apply andb_true_iff in H as [Hc _]. apply negb_true_iff in Hc. rewrite Hc.
  destruct (Ascii.eqb c "_"); [reflexivity |].
  now destruct (Py.is_space c).
Qed.

Lemma lstrip_chars (p : ascii -> bool) (s : string) :
  Py.all_chars p s = true -> Py.all_chars p (Py.lstrip s) = true.
Proof.
  induction s as [|c s IH]; [reflexivity |].
  intros H. cbn [Py.lstrip]. destruct (Py.is_space c); [| exact H].
  cbn [Py.all_chars] in H. apply andb_true_iff in H as [_ Hs]. now apply IH.
Qed.

(** [int] of a string without any digit raises. *)
Lemma int_no_digit (s : string) :
  Py.all_chars (fun c => negb (Py.is_digit c)) s = true ->
  exists e, Py.int s = Raise e.
Proof.
  intros H%lstrip_chars. unfold Py.int, Py.int_signed.
  destruct (Py.lstrip s) as [|c r] eqn:E.
  - cbn. eauto.
  - assert (Hr : Py.all_chars (fun c => negb (Py.is_digit c)) r = true).
    { cbn [Py.all_chars] in H. now apply andb_true_iff in H as [_ Hr]. }
    rewrite (int_body_no_digit r 0 Hr), (int_body_no_digit (String c r) 0 H).
    destruct (Ascii.eqb c "+"), (Ascii.eqb c "-"); cbn; eauto.
Qed.

(** ** Frame timestamps *)

Import VideoProcessor.

Lemma float_neq (a b : float) :
  PrimFloat.eqb a a = true -> PrimFloat.eqb a b = false -> a <> b.
Proof. intros Haa Hab E. subst b. congruence. Qed.

(** The frame number of [<pre>_<digits>.<ext>] in any directory. *)
Lemma frame_number_numbered (dir pre ds ext : string) :
  no_char "/" pre = true -> no_char "_" pre = true ->
  Py.all_chars Py.is_digit ds = true -> ds <> EmptyString ->
  no_char "/" ext = true -> no_char "." ext = true ->
  frame_number (Py.join dir (pre +:+ "_" +:+ ds +:+ "." +:+ ext))
  = Return (decimal_value ds).
Proof.
  intros Hp1 Hp2 Hd Hne He1 He2.
  assert (Hds : no_char "/" ds = true) by now apply digits_no_char.
  assert (Hdu : no_char "_" ds = true) by now apply digits_no_char.
  app_step.
  replace (pre +:+ String "_" (ds +:+ String "." ext))
    with ((pre +:+ String "_" ds) +:+ String "." ext)
    by (rewrite string_app_assoc; now app_step).
  unfold frame_number. rewrite basename_join.
  2:{ rewrite !no_char_app, Hp1. cbn [no_char Py.all_chars].
      fold (no_char "/" ds). fold (no_char "/" ext). now rewrite Hds, He1. }
  rewrite splitext_stem; try assumption.
  - rewrite (split_app "_" pre ds Hp2), (split_absent "_" ds Hdu).
    cbn [Py.getitem lookup list_lookup obind]. now apply int_digits.
  - rewrite no_char_app, Hp1. cbn [no_char Py.all_chars].
    fold (no_char "/" ds). now rewrite Hds.
  - rewrite all_chars_app. cbn [Py.all_chars]. apply andb_false_iff. now right.
Qed.

Lemma timestamp_numbered (dir pre ds ext : string) :
  no_char "/" pre = true -> no_char "_" pre = true ->
  Py.all_chars Py.is_digit ds = true -> ds <> EmptyString ->
  no_char "/" ext = true -> no_char "." ext = true ->
  _get_frame_timestamp (Py.join dir (pre +:+ "_" +:+ ds +:+ "." +:+ ext))
  = catch (Py.truediv (decimal_value ds) 30%float) (fun _ => Return 0%float).
Proof.
  intros. unfold _get_frame_timestamp, _get_frame_timestamp_try.
  now rewrite frame_number_numbered.
Qed.

Lemma timestamp_total (frame_path : string) :
  exists t, _get_frame_timestamp frame_path = Return t.
Proof.
  unfold _get_frame_timestamp.
  destruct (_get_frame_timestamp_try frame_path); cbn; eauto.
Qed.

Lemma timestamp_no_underscore (frame_path : string) :
  no_char "_" (Py.basename frame_path) = true ->
  _get_frame_timestamp frame_path = Return 0%float.
Proof.
  intros H. apply splitext_stem_chars in H.
  unfold _get_frame_timestamp, _get_frame_timestamp_try, frame_number.
  now rewrite (split_absent "_" _ H).
Qed.

Lemma ascii_without_digit_chars (s : string) :
  ascii_without_digit s = true ->
  Py.all_chars (fun c => negb (Py.is_digit c)) s = true.
Proof.
  unfold ascii_without_digit.
  induction s as [|c s IH]; cbn [Py.all_chars]; [reflexivity |].
  intros H. apply andb_true_iff in H as [Hc Hs].
  apply andb_true_iff in Hc as [_ Hc]. rewrite Hc. now apply IH.
Qed.

Lemma timestamp_no_digit (dir pre field ext : string) :
  no_char "/" pre = true -> no_char "_" pre = true ->
  no_char "/" field = true -> no_char "_" field = true ->
  ascii_without_digit field = true ->
  no_char "/" ext = true -> no_char "." ext = true ->
  _get_frame_timestamp (Py.join dir (pre +:+ "_" +:+ field +:+ "." +:+ ext))
  = Return 0%float.
Proof.
  intros Hp1 Hp2 Hf1 Hf2 Hf3 He1 He2.
  app_step.
  replace (pre +:+ String "_" (field +:+ String "." ext))
    with ((pre +:+ String "_" field) +:+ String "." ext)
    by (rewrite string_app_assoc; now app_step).
  unfold _get_frame_timestamp, _get_frame_timestamp_try, frame_number.
  rewrite basename_join.
  2:{ rewrite !no_char_app, Hp1. cbn [no_char Py.all_chars].
      fold (no_char "/" field). fold (no_char "/" ext). now rewrite Hf1, He1. }
  rewrite splitext_stem; try assumption.
  - rewrite (split_app "_" pre field Hp2), (split_absent "_" field Hf2).
    cbn [Py.getitem lookup list_lookup obind].
    destruct (int_no_digit field (ascii_without_digit_chars field Hf3)) as [e ->].
    reflexivity.
  - rewrite no_char_app, Hp1. cbn [no_char Py.all_chars].
    fold (no_char "/" field). now rewrite Hf1.
  - rewrite all_chars_app. cbn [Py.all_chars]. apply andb_false_iff. now right.
Qed.
















(** A frame number too large for a float: the division raises and the
    default is returned. *)
Example timestamp_of_huge_number :
  _get_frame_timestamp
    ("frame_1" +:+ String.concat EmptyString (repeat "0000000000" 31) +:+ ".jpg")
  = Return 0%float.
Proof. vm_compute. reflexivity. Qed.

(** ** Frame extraction *)

Lemma mapM_length {A B : Type} (f : A -> M B) (l : list A) (w w' : world) (ys : list B) :
  mapM f l w = (Return ys, w') -> length ys = length l.
Proof.
  revert w ys. induction l as [|x l IH]; intros w ys; cbn [mapM].
  - unfold ret. intros [= <- _]. reflexivity.
  - unfold bind at 1. destruct (f x w) as [[y|e] w1]; [| discriminate].
    unfold bind at 1. destruct (mapM f l w1) as [[ys'|e] w2] eqn:E; [| discriminate].
    unfold ret. intros [= <- <-]. cbn [length]. f_equal. exact (IH _ _ E).
Qed.

(** The [except] clauses of the extraction methods always raise. *)
Lemma log_and_reraise_raises {A : Type} (X : externals)
    (ffmpeg_msg other_msg : string) (e : exn) (w : world) :
  exists e' w', @log_and_reraise X A ffmpeg_msg other_msg e w = (Raise e', w').
Proof.
  unfold log_and_reraise, bind, lift, log, emit, raise.
  destruct (String.eqb _ _); [destruct (stderr_decode X e) |]; eauto.
Qed.

(** X1: the key frames are never more than three, whatever ffmpeg wrote. *)
Lemma extract_frames_at_most_three (X : externals) (temp_dir video_path : string)
    (w : world) :
  match fst (extract_frames X temp_dir video_path w) with
  | Return key_frames => (length key_frames <= 3)%nat
  | Raise _ => True
  end.
Proof.
  unfold extract_frames, try_except.
  unfold bind at 1. destruct (subprocess_run X _ w) as [[[]|e] w1].
  2:{ match goal with
      | |- context [log_and_reraise X ?a ?b e w1] =>
          destruct (log_and_reraise_raises (A := list frame) X a b e w1)
            as (e' & w' & ->)
      end. exact I. }
  unfold bind at 1, os_listdir at 1.
  unfold bind at 1, log at 1, emit at 1.
  match goal with
  | |- context [mapM ?f ?l ?w] => destruct (mapM f l w) as [[ys|e] w2] eqn:E
  end.
  - cbn [fst]. rewrite (mapM_length _ _ _ _ _ E), length_take. lia.
  - match goal with
    | |- context [log_and_reraise X ?a ?b e w2] =>
        destruct (log_and_reraise_raises (A := list frame) X a b e w2)
          as (e' & w' & ->)
    end. exact I.
Qed.

(** C1 on the dense frames of a 10-second video at 1 Hz: the files are
    numbered 0 to 9, one per second, and the timestamps are the numbers divided
    by 30.0: 0, 0.033, ... 0.3, not 0 to 9 seconds. *)
Theorem dense_timestamps_assume_30fps :
  exists frames_info,
    fst (extract_all_frames
           (Sample.collaborators Sample.dense_frames_10s Sample.no_api)
           "temp/video.mp4" "output/20240101_120000" 1 Sample.empty_world)
    = Return frames_info
    /\ map fi_filename frames_info
       = ["frame_0000.jpg"; "frame_0001.jpg"; "frame_0002.jpg"; "frame_0003.jpg";
          "frame_0004.jpg"; "frame_0005.jpg"; "frame_0006.jpg"; "frame_0007.jpg";
          "frame_0008.jpg"; "frame_0009.jpg"]
    /\ map fi_timestamp frames_info
       = [0 / 30; 1 / 30; 2 / 30; 3 / 30; 4 / 30;
          5 / 30; 6 / 30; 7 / 30; 8 / 30; 9 / 30]%float
    /\ map fi_timestamp frames_info <> [0; 1; 2; 3; 4; 5; 6; 7; 8; 9]%float.
Proof.
  eexists. split; [vm_compute; reflexivity |].
  split; [reflexivity |]. split; [reflexivity |].
  cbn [map fi_timestamp]. intros E.
  apply (f_equal (fun l => default 0%float (l !! 1%nat))) in E.
  cbn [lookup list_lookup default] in E. revert E.
  apply float_neq; reflexivity.
Qed.

(** C2 on a video whose scene changes are numbered 3000, 9000, 12000 and
    15000: the names are sorted as text, so the frames returned are 12000,
    15000 and 3000, in that order, and frame 9000 is dropped. *)
Theorem key_frames_sorted_as_text :
  fst (extract_frames
         (Sample.collaborators Sample.key_frames_long_video Sample.no_api)
         "temp" "temp/video.mp4" Sample.empty_world)
  = Return [Frame "temp/frame_12000.jpg" 400%float;
            Frame "temp/frame_15000.jpg" 500%float;
            Frame "temp/frame_3000.jpg" 100%float].
Proof. vm_compute. reflexivity. Qed.

(** ** Steps of the world *)

Import AIAnalyzer.

Lemma with_events_nil (w : world) : with_events [] w = w.
Proof. destruct w. unfold with_events. cbn. now rewrite app_nil_r. Qed.

Lemma with_event_events (ev : event) (evs : list event) (w : world) :
  with_event ev (with_events evs w) = with_events (evs ++ [ev]) w.
Proof. unfold with_event, with_events. cbn. now rewrite <- app_assoc. Qed.

Lemma with_events_events (evs evs' : list event) (w : world) :
  with_events evs' (with_events evs w) = with_events (evs ++ evs') w.
Proof. unfold with_events. cbn. now rewrite <- app_assoc. Qed.

Lemma with_event_one (ev : event) (w : world) : with_event ev w = with_events [ev] w.
Proof. reflexivity. Qed.

Lemma api_calls_app (t t' : list event) :
  api_calls (t ++ t') = (api_calls t + api_calls t')%nat.
Proof. unfold api_calls. now rewrite List.filter_app, length_app. Qed.

Lemma read_file_some (path bytes : string) (w : world) :
  files w !! path = Some bytes -> read_file path w = (Return bytes, w).
Proof. intros H. unfold read_file. now rewrite H. Qed.

Lemma read_file_events (path : string) (evs : list event) (w : world) :
  read_file path (with_events evs w)
  = (fst (read_file path w), with_events evs w).
Proof. unfold read_file. cbn [files with_events]. now destruct (_ !! _). Qed.

(** Nested single events as one list of events. *)
Ltac merge_events :=
  rewrite ?with_event_one, ?with_events_events; cbn [app].

(** One attempt: the delay is logged and slept, then the request is sent. *)
Lemma attempt_success (L : pylib) (X : externals) (max_retries attempt : nat)
    (rest : list nat) (w : world) (content : string) :
  openai X (api_calls (trace w)) = Return content ->
  attempts_loop L X max_retries (attempt :: rest) w
  = (Return (Some content),
     with_events [waiting_line attempt max_retries;
                  Sleep (5 * 2 ^ Z.of_nat attempt); ApiCall "gpt-4o"] w).
Proof.
  intros H. cbn [attempts_loop]. unfold try_except, bind, log, sleep, emit, call_api, ret.
  cbn [trace with_event]. rewrite !api_calls_app. cbn [api_calls List.filter is_api_call length].
  rewrite !Nat.add_0_r, H. merge_events. reflexivity.
Qed.

Lemma attempt_quota (L : pylib) (X : externals) (max_retries attempt : nat)
    (rest : list nat) (w : world) (e : exn) :
  openai X (api_calls (trace w)) = Raise e -> is_quota e = true ->
  attempts_loop L X max_retries (attempt :: rest) w
  = (Return (Some (json_dumps L (image_quota_error (exn_msg e)))),
     with_events [waiting_line attempt max_retries;
                  Sleep (5 * 2 ^ Z.of_nat attempt); ApiCall "gpt-4o"] w).
Proof.
  intros H Hq. cbn [attempts_loop]. unfold try_except, bind, log, sleep, emit, call_api, ret.
  cbn [trace with_event]. rewrite !api_calls_app. cbn [api_calls List.filter is_api_call length].
  rewrite !Nat.add_0_r, H. unfold is_quota in Hq. rewrite Hq.
  merge_events. reflexivity.
Qed.

Lemma attempt_retry (L : pylib) (X : externals) (max_retries attempt : nat)
    (rest : list nat) (w : world) (e : exn) :
  openai X (api_calls (trace w)) = Raise e -> is_quota e = false ->
  attempt <> (max_retries - 1)%nat ->
  attempts_loop L X max_retries (attempt :: rest) w
  = attempts_loop L X max_retries rest
      (with_events [waiting_line attempt max_retries;
                    Sleep (5 * 2 ^ Z.of_nat attempt); ApiCall "gpt-4o";
                    failed_line attempt max_retries e] w).
Proof.
  intros H Hq Hne. cbn [attempts_loop]. unfold try_except, bind, log, sleep, emit, call_api, ret.
  cbn [trace with_event]. rewrite !api_calls_app. cbn [api_calls List.filter is_api_call length].
  rewrite !Nat.add_0_r, H. unfold is_quota in Hq. rewrite Hq.
  apply Nat.eqb_neq in Hne. rewrite Hne.
  unfold bind, log, emit. merge_events. reflexivity.
Qed.

Lemma attempt_last (L : pylib) (X : externals) (max_retries attempt : nat)
    (rest : list nat) (w : world) (e : exn) :
  openai X (api_calls (trace w)) = Raise e -> is_quota e = false ->
  attempt = (max_retries - 1)%nat ->
  attempts_loop L X max_retries (attempt :: rest) w
  = (Raise e,
     with_events [waiting_line attempt max_retries;
                  Sleep (5 * 2 ^ Z.of_nat attempt); ApiCall "gpt-4o";
                  failed_line attempt max_retries e] w).
Proof.
  intros H Hq He. cbn [attempts_loop]. unfold try_except, bind, log, sleep, emit, call_api, ret.
  cbn [trace with_event]. rewrite !api_calls_app. cbn [api_calls List.filter is_api_call length].
  rewrite !Nat.add_0_r, H. unfold is_quota in Hq. rewrite Hq.
  apply Nat.eqb_eq in He. rewrite He.
  unfold bind, log, emit, raise. merge_events. reflexivity.
Qed.

Lemma api_calls_with_events (evs : list event) (w : world) :
  api_calls (trace (with_events evs w)) = (api_calls (trace w) + api_calls evs)%nat.
Proof. cbn [with_events trace]. apply api_calls_app. Qed.

Lemma timeline_app (t t' : list event) : timeline (t ++ t') = timeline t ++ timeline t'.
Proof. apply List.filter_app. Qed.

(** ** analyze_image *)

(** With a readable image, [analyze_image] is its loop under the outer
    handler. *)
Lemma analyze_image_readable (L : pylib) (X : externals) (image_path image : string)
    (w : world) :
  files w !! image_path = Some image ->
  analyze_image L X image_path w
  = match attempts_loop L X 3 [0; 1; 2]%nat w with
    | (Return v, w') => (Return v, w')
    | (Raise e, w') =>
        (Return (Some (json_dumps L (image_failed_error (exn_msg e)))),
         with_events [Log "ERROR" ("Error analyzing image: " +:+ exn_msg e)] w')
    end.
Proof.
  intros H. unfold analyze_image, try_except. unfold bind at 1.
  rewrite (read_file_some _ _ _ H). cbn [seq].
  destruct (attempts_loop L X 3 [0; 1; 2]%nat w) as [[v|e] w']; [reflexivity |].
  unfold bind, log, emit, ret. now rewrite with_event_one.
Qed.

Lemma analyze_image_unreadable (L : pylib) (X : externals) (image_path : string)
    (w : world) :
  files w !! image_path = None ->
  analyze_image L X image_path w
  = (Return (Some (json_dumps L (image_failed_error
                                   (exn_msg (file_not_found image_path))))),
     with_events [Log "ERROR" ("Error analyzing image: "
                               +:+ exn_msg (file_not_found image_path))] w).
Proof.
  intros H. unfold analyze_image, try_except. unfold bind at 1.
  unfold read_file. rewrite H. unfold bind, log, emit, ret.
  now rewrite with_event_one.
Qed.

(** Two transient failures, then a reply. *)
Lemma analyze_image_third_attempt (L : pylib) (X : externals)
    (image_path image : string) (w : world) (e1 e2 : exn) (content : string) :
  files w !! image_path = Some image ->
  openai X (api_calls (trace w)) = Raise e1 -> is_quota e1 = false ->
  openai X (S (api_calls (trace w))) = Raise e2 -> is_quota e2 = false ->
  openai X (S (S (api_calls (trace w)))) = Return content ->
  analyze_image L X image_path w
  = (Return (Some content),
     with_events [waiting_line 0 3; Sleep 5; ApiCall "gpt-4o"; failed_line 0 3 e1;
                  waiting_line 1 3; Sleep 10; ApiCall "gpt-4o"; failed_line 1 3 e2;
                  waiting_line 2 3; Sleep 20; ApiCall "gpt-4o"] w).
Proof.
  intros Himg H1 Hq1 H2 Hq2 H3.
  rewrite (analyze_image_readable _ _ _ _ _ Himg).
  rewrite (attempt_retry L X 3 0 _ w e1 H1 Hq1) by discriminate.
  rewrite (attempt_retry L X 3 1 _ _ e2); [| | exact Hq2 | discriminate].
  2:{ rewrite api_calls_with_events. cbn. now rewrite Nat.add_1_r. }
  rewrite (attempt_success L X 3 2 _ _ content).
  2:{ rewrite !api_calls_with_events. cbn.
      now replace (api_calls (trace w) + 1 + 1)%nat with (S (S (api_calls (trace w))))
        by lia. }
  now rewrite !with_events_events.
Qed.

(** Three transient failures: the last error comes back as a payload. *)
Lemma analyze_image_three_failures (L : pylib) (X : externals)
    (image_path image : string) (w : world) (e1 e2 e3 : exn) :
  files w !! image_path = Some image ->
  openai X (api_calls (trace w)) = Raise e1 -> is_quota e1 = false ->
  openai X (S (api_calls (trace w))) = Raise e2 -> is_quota e2 = false ->
  openai X (S (S (api_calls (trace w)))) = Raise e3 -> is_quota e3 = false ->
  analyze_image L X image_path w
  = (Return (Some (json_dumps L (image_failed_error (exn_msg e3)))),
     with_events [waiting_line 0 3; Sleep 5; ApiCall "gpt-4o"; failed_line 0 3 e1;
                  waiting_line 1 3; Sleep 10; ApiCall "gpt-4o"; failed_line 1 3 e2;
                  waiting_line 2 3; Sleep 20; ApiCall "gpt-4o"; failed_line 2 3 e3;
                  Log "ERROR" ("Error analyzing image: " +:+ exn_msg e3)] w).
Proof.
  intros Himg H1 Hq1 H2 Hq2 H3 Hq3.
  rewrite (analyze_image_readable _ _ _ _ _ Himg).
  rewrite (attempt_retry L X 3 0 _ w e1 H1 Hq1) by discriminate.
  rewrite (attempt_retry L X 3 1 _ _ e2); [| | exact Hq2 | discriminate].
  2:{ rewrite api_calls_with_events. cbn. now rewrite Nat.add_1_r. }
  rewrite (attempt_last L X 3 2 _ _ e3); [| | exact Hq3 | reflexivity].
  2:{ rewrite !api_calls_with_events. cbn.
      now replace (api_calls (trace w) + 1 + 1)%nat with (S (S (api_calls (trace w))))
        by lia. }
  now rewrite !with_events_events.
Qed.

(** A quota failure at the first attempt ends the call. *)
Lemma analyze_image_quota (L : pylib) (X : externals)
    (image_path image : string) (w : world) (e : exn) :
  files w !! image_path = Some image ->
  openai X (api_calls (trace w)) = Raise e -> is_quota e = true ->
  analyze_image L X image_path w
  = (Return (Some (json_dumps L (image_quota_error (exn_msg e)))),
     with_events [waiting_line 0 3; Sleep 5; ApiCall "gpt-4o"] w).
Proof.
  intros Himg H Hq. rewrite (analyze_image_readable _ _ _ _ _ Himg).
  now rewrite (attempt_quota L X 3 0 _ w e H Hq).
Qed.

(** Every attempt of the loop is a delay followed by a request, and the
    delays follow the attempts made. *)
Lemma attempts_loop_timeline (L : pylib) (X : externals) (max_retries : nat)
    (attempts : list nat) (w : world) :
  exists (n : nat) (evs : list event),
    (n <= length attempts)%nat
    /\ (attempts <> [] -> (1 <= n)%nat)
    /\ snd (attempts_loop L X max_retries attempts w) = with_events evs w
    /\ timeline evs = attempts_timeline (take n attempts).
Proof.
  revert w. induction attempts as [|attempt rest IH]; intros w.
  - exists 0%nat, []. rewrite with_events_nil.
    repeat split; [cbn; lia | intros []; reflexivity].
  - destruct (openai X (api_calls (trace w))) as [content|e] eqn:Hreply.
    + exists 1%nat. eexists. rewrite (attempt_success _ _ _ _ _ _ _ Hreply).
      cbn [snd length take]. repeat split; [lia | reflexivity].
    + destruct (is_quota e) eqn:Hq.
      * exists 1%nat. eexists. rewrite (attempt_quota _ _ _ _ _ _ _ Hreply Hq).
        cbn [snd length take]. repeat split; [lia | reflexivity].
      * destruct (Nat.eq_dec attempt (max_retries - 1)%nat) as [Hlast|Hmore].
        -- exists 1%nat. eexists. rewrite (attempt_last _ _ _ _ _ _ _ Hreply Hq Hlast).
           cbn [snd length take]. repeat split; [lia | reflexivity].
        -- rewrite (attempt_retry _ _ _ _ _ _ _ Hreply Hq Hmore).
           match goal with
           | |- context [attempts_loop _ _ _ _ ?w'] =>
               destruct (IH w') as (n & evs & Hn & _ & Hsnd & Htl)
           end.
           exists (S n). eexists. rewrite Hsnd, with_events_events.
           cbn [length take]. repeat split; [lia | lia |].
           rewrite timeline_app, Htl. reflexivity.
Qed.

Lemma analyze_image_timeline (L : pylib) (X : externals) (image_path : string)
    (w : world) :
  exists (n : nat) (evs : list event),
    (n <= 3)%nat
    /\ (is_Some (files w !! image_path) -> (1 <= n)%nat)
    /\ snd (analyze_image L X image_path w) = with_events evs w
    /\ timeline evs = attempts_timeline (seq 0 n).
Proof.
  destruct (files w !! image_path) as [image|] eqn:Himg.
  - rewrite (analyze_image_readable _ _ _ _ _ Himg).
    destruct (attempts_loop_timeline L X 3 [0; 1; 2]%nat w)
      as (n & evs & Hn & Hpos & Hsnd & Htl).
    assert (Hseq : take n [0; 1; 2]%nat = seq 0 n).
    { cbn [length] in Hn. destruct n as [|[|[|[|n]]]]; try reflexivity. lia. }
    rewrite Hseq in Htl.
    destruct (attempts_loop L X 3 [0; 1; 2]%nat w) as [[v|e] w']; cbn [snd] in *.
    + exists n, evs. repeat split; auto.
    + exists n. eexists. rewrite Hsnd, with_events_events.
      repeat split; [exact Hn | auto |].
      rewrite timeline_app, Htl. cbn. now rewrite app_nil_r.
  - rewrite (analyze_image_unreadable _ _ _ _ Himg).
    exists 0%nat. eexists. cbn [snd].
    repeat split; [lia | intros [? [=]]].
Qed.

(** The loop over [0, 1, 2] with three retries never ends without a value:
    its last attempt returns or raises. *)
Lemma attempts_loop_result (L : pylib) (X : externals) (max_retries : nat)
    (attempts : list nat) (w : world) :
  last attempts = Some (max_retries - 1)%nat ->
  (exists v w', attempts_loop L X max_retries attempts w = (Return (Some v), w'))
  \/ (exists e w', attempts_loop L X max_retries attempts w = (Raise e, w')).
Proof.
  revert w. induction attempts as [|attempt rest IH]; intros w Hlast; [discriminate |].
  destruct (openai X (api_calls (trace w))) as [content|e] eqn:Hreply.
  - left. rewrite (attempt_success _ _ _ _ _ _ _ Hreply). eauto.
  - destruct (is_quota e) eqn:Hq.
    + left. rewrite (attempt_quota _ _ _ _ _ _ _ Hreply Hq). eauto.
    + destruct (Nat.eq_dec attempt (max_retries - 1)%nat) as [Heq|Hne].
      * right. rewrite (attempt_last _ _ _ _ _ _ _ Hreply Hq Heq). eauto.
      * rewrite (attempt_retry _ _ _ _ _ _ _ Hreply Hq Hne). apply IH.
        destruct rest as [|a rest']; [| exact Hlast].
        cbn in Hlast. congruence.
Qed.

Lemma analyze_image_returns (L : pylib) (X : externals) (image_path : string)
    (w : world) :
  exists v, fst (analyze_image L X image_path w) = Return (Some v).
Proof.
  destruct (files w !! image_path) as [image|] eqn:Himg.
  - rewrite (analyze_image_readable _ _ _ _ _ Himg).
    destruct (attempts_loop_result L X 3 [0; 1; 2]%nat w eq_refl)
      as [(v & w' & ->) | (e & w' & ->)]; cbn [fst]; eauto.
  - rewrite (analyze_image_unreadable _ _ _ _ Himg). cbn [fst]. eauto.
Qed.

(** ** transcribe_audio and generate_summary *)

Lemma transcribe_audio_readable (X : externals) (audio_path audio : string) (w : world) :
  files w !! audio_path = Some audio ->
  transcribe_audio X audio_path w
  = match openai X (api_calls (trace w)) with
    | Return response =>
        (Return response, with_events [Sleep 5; ApiCall "whisper-1"] w)
    | Raise e =>
        if is_quota e
        then (Return transcription_quota_error,
              with_events [Sleep 5; ApiCall "whisper-1"] w)
        else (Return transcription_failed_error,
              with_events [Sleep 5; ApiCall "whisper-1";
                           Log "ERROR" ("Error transcribing audio: " +:+ exn_msg e)] w)
    end.
Proof.
  intros H. unfold transcribe_audio, try_except.
  unfold bind at 1, sleep at 1, emit at 1. unfold bind at 1.
  rewrite with_event_one, read_file_events, (read_file_some _ _ _ H). cbn [fst].
  unfold bind at 1, call_api at 1. rewrite api_calls_with_events.
  cbn [api_calls List.filter is_api_call length]. rewrite Nat.add_0_r.
  destruct (openai X (api_calls (trace w))) as [response|e].
  - unfold ret. merge_events. reflexivity.
  - unfold is_quota. destruct (Py.contains _ _).
    + unfold ret. merge_events. reflexivity.
    + unfold bind, log, emit, ret. merge_events. reflexivity.
Qed.

Lemma transcribe_audio_unreadable (X : externals) (audio_path : string) (w : world) :
  files w !! audio_path = None ->
  exists v evs,
    transcribe_audio X audio_path w = (Return v, with_events evs w)
    /\ api_calls evs = 0%nat.
Proof.
  intros H. unfold transcribe_audio, try_except.
  unfold bind at 1, sleep at 1, emit at 1. unfold bind at 1.
  rewrite with_event_one, read_file_events. unfold read_file. rewrite H.
  cbn [fst]. destruct (Py.contains _ _).
  - unfold ret. eexists. eexists. split; reflexivity.
  - unfold bind, log, emit, ret. merge_events. eexists. eexists.
    split; reflexivity.
Qed.

Lemma generate_summary_reply (L : pylib) (X : externals) (r : results) (w : world) :
  generate_summary L X r w
  = (match openai X (api_calls (trace w)) with
     | Return content => Return content
     | Raise e =>
         Return (json_dumps L (if is_quota e then summary_quota_error
                               else summary_failed_error (exn_msg e)))
     end,
     with_events [Sleep 5; ApiCall "gpt-4o"] w).
Proof.
  unfold generate_summary, try_except.
  unfold bind at 1, sleep at 1, emit at 1.
  unfold bind at 1, call_api at 1. rewrite with_event_one, api_calls_with_events.
  cbn [api_calls List.filter is_api_call length]. rewrite Nat.add_0_r.
  destruct (openai X (api_calls (trace w))) as [content|e].
  - unfold ret. merge_events. reflexivity.
  - unfold is_quota. destruct (Py.contains _ _); unfold ret; merge_events; reflexivity.
Qed.

(** ** Failures of the inference API *)

(** C3, as the code has it: [analyze_image] never raises.  The error that the
    retry loop raises after its last attempt is caught inside the function and
    comes back as the payload with the error "Analysis failed" and the text of
    that last error. *)
Theorem analyze_image_catches_last_error (L : pylib) (X : externals)
    (image_path : string) (w : world) :
  (exists v, fst (analyze_image L X image_path w) = Return (Some v))
  /\ (forall image e1 e2 e3,
        files w !! image_path = Some image ->
        openai X (api_calls (trace w)) = Raise e1 -> is_quota e1 = false ->
        openai X (S (api_calls (trace w))) = Raise e2 -> is_quota e2 = false ->
        openai X (S (S (api_calls (trace w)))) = Raise e3 -> is_quota e3 = false ->
        fst (analyze_image L X image_path w)
        = Return (Some (json_dumps L (image_failed_error (exn_msg e3))))).
Proof.
  split; [apply analyze_image_returns |].
  intros image e1 e2 e3 Himg H1 Hq1 H2 Hq2 H3 Hq3.
  now rewrite (analyze_image_three_failures L X _ _ w e1 e2 e3 Himg H1 Hq1 H2 Hq2 H3 Hq3).
Qed.

(** Three time-outs in a row. *)
Lemma analyze_image_catches_last_error_witness :
  fst (analyze_image Sample.lib
         (Sample.collaborators [] (fun _ => Raise Sample.timed_out))
         "temp/frame_0001.jpg" (Sample.world_with ["temp/frame_0001.jpg"]))
  = Return (Some (json_dumps Sample.lib (image_failed_error "Request timed out."))).
Proof.
  exact (proj2 (analyze_image_catches_last_error Sample.lib
                  (Sample.collaborators [] (fun _ => Raise Sample.timed_out))
                  "temp/frame_0001.jpg" (Sample.world_with ["temp/frame_0001.jpg"]))
               "bytes" Sample.timed_out Sample.timed_out Sample.timed_out
               eq_refl eq_refl eq_refl eq_refl eq_refl eq_refl eq_refl).
Defined.

(** C3 as stated fails: with an API that cannot be reached, a failure that is
    no quota failure and lasts through the three attempts, [analyze_image]
    returns a value and raises nothing. *)
Lemma analyze_image_returns_after_three_failures :
  fst (analyze_image Sample.lib (Sample.collaborators [] Sample.no_api)
         "temp/frame_0001.jpg" (Sample.world_with ["temp/frame_0001.jpg"]))
  = Return (Some (json_dumps Sample.lib (image_failed_error "Connection error.")))
  /\ api_calls (trace (snd (analyze_image Sample.lib
                              (Sample.collaborators [] Sample.no_api)
                              "temp/frame_0001.jpg"
                              (Sample.world_with ["temp/frame_0001.jpg"])))) = 3%nat.
Proof. split; vm_compute; reflexivity. Qed.

(** A payload with the key "error" that the library reads back is not the
    text of any reply that reads as a value without that marker. *)
Lemma error_payload_differs (L : pylib) (payload v : json) (content : string) :
  json_loads L (json_dumps L payload) = Return payload ->
  error_in payload = Return true ->
  json_loads L content = Return v ->
  error_in v = Return false ->
  content <> json_dumps L payload.
Proof. intros Hback Herr Hloads Hok ->. congruence. Qed.

(** C4, as the code has it: when every reply is a quota failure, each of the
    three operations sends one request and returns its fixed error value: the
    dump of an object with the key "error" for the image and the summary, a
    fixed sentence for the transcription.  The two dumps differ from every
    reply that reads as a value without the key "error", when the library reads
    back what it dumps. *)
Theorem quota_failure_single_request (L : pylib) (X : externals) :
  always_quota X ->
  (forall image_path image w,
      files w !! image_path = Some image ->
      exists e,
        openai X (api_calls (trace w)) = Raise e
        /\ analyze_image L X image_path w
           = (Return (Some (json_dumps L (image_quota_error (exn_msg e)))),
              with_events [waiting_line 0 3; Sleep 5; ApiCall "gpt-4o"] w))
  /\ (forall audio_path audio w,
        files w !! audio_path = Some audio ->
        transcribe_audio X audio_path w
        = (Return transcription_quota_error,
           with_events [Sleep 5; ApiCall "whisper-1"] w))
  /\ (forall r w,
        generate_summary L X r w
        = (Return (json_dumps L summary_quota_error),
           with_events [Sleep 5; ApiCall "gpt-4o"] w))
  /\ (forall error_msg, error_in (image_quota_error error_msg) = Return true)
  /\ error_in summary_quota_error = Return true
  /\ (forall payload content v,
        json_loads L (json_dumps L payload) = Return payload ->
        error_in payload = Return true ->
        json_loads L content = Return v ->
        error_in v = Return false ->
        content <> json_dumps L payload).
Proof.
  intros Hquota.
  split; [| split; [| split; [| split; [| split]]]].
  - intros image_path image w Himg.
    destruct (Hquota (api_calls (trace w))) as (e & He & Hq).
    exists e. split; [exact He |]. now apply analyze_image_quota with (image := image).
  - intros audio_path audio w Haudio.
    rewrite (transcribe_audio_readable X _ _ w Haudio).
    destruct (Hquota (api_calls (trace w))) as (e & -> & ->). reflexivity.
  - intros r w. rewrite generate_summary_reply.
    destruct (Hquota (api_calls (trace w))) as (e & -> & ->). reflexivity.
  - reflexivity.
  - reflexivity.
  - intros payload content v. apply error_payload_differs.
Qed.

(** The summary under an exhausted quota. *)
Lemma quota_failure_single_request_witness :
  generate_summary Sample.lib (Sample.collaborators [] Sample.quota_api)
    (Results [] None [] None) Sample.empty_world
  = (Return (json_dumps Sample.lib summary_quota_error),
     with_events [Sleep 5; ApiCall "gpt-4o"] Sample.empty_world).
Proof.
  exact (proj1 (proj2 (proj2
           (quota_failure_single_request Sample.lib
              (Sample.collaborators [] Sample.quota_api)
              (fun _ => ex_intro _ Sample.quota_exceeded (conj eq_refl eq_refl)))))
           (Results [] None [] None) Sample.empty_world).
Defined.

(** C4 as stated fails: a successful transcription of a recording in which
    that sentence is spoken is the same value as the quota error. *)
Lemma quota_error_equals_a_transcript :
  fst (transcribe_audio (Sample.collaborators [] Sample.quota_api)
         "temp/audio.wav" (Sample.world_with ["temp/audio.wav"]))
  = Return transcription_quota_error
  /\ fst (transcribe_audio
            (Sample.collaborators [] (fun _ => Return transcription_quota_error))
            "temp/audio.wav" (Sample.world_with ["temp/audio.wav"]))
     = Return transcription_quota_error.
Proof. split; vm_compute; reflexivity. Qed.

(** C5, as the code has it: only [analyze_image] retries.  After three
    failures that are no quota failures it has sent three requests.
    [transcribe_audio] and [generate_summary] never send more than one
    request, and after one such failure they return their error value. *)
Theorem retry_only_in_analyze_image (L : pylib) (X : externals) :
  (forall image_path image w e1 e2 e3,
      files w !! image_path = Some image ->
      openai X (api_calls (trace w)) = Raise e1 -> is_quota e1 = false ->
      openai X (S (api_calls (trace w))) = Raise e2 -> is_quota e2 = false ->
      openai X (S (S (api_calls (trace w)))) = Raise e3 -> is_quota e3 = false ->
      timeline (trace (snd (analyze_image L X image_path w)))
      = timeline (trace w)
        ++ [Sleep 5; ApiCall "gpt-4o"; Sleep 10; ApiCall "gpt-4o";
            Sleep 20; ApiCall "gpt-4o"])
  /\ (forall audio_path w,
        (api_calls (trace (snd (transcribe_audio X audio_path w)))
         <= S (api_calls (trace w)))%nat)
  /\ (forall audio_path audio w e,
        files w !! audio_path = Some audio ->
        openai X (api_calls (trace w)) = Raise e -> is_quota e = false ->
        transcribe_audio X audio_path w
        = (Return transcription_failed_error,
           with_events [Sleep 5; ApiCall "whisper-1";
                        Log "ERROR" ("Error transcribing audio: " +:+ exn_msg e)] w))
  /\ (forall r w,
        api_calls (trace (snd (generate_summary L X r w))) = S (api_calls (trace w)))
  /\ (forall r w e,
        openai X (api_calls (trace w)) = Raise e -> is_quota e = false ->
        generate_summary L X r w
        = (Return (json_dumps L (summary_failed_error (exn_msg e))),
           with_events [Sleep 5; ApiCall "gpt-4o"] w)).
Proof.
  repeat split.
  - intros image_path image w e1 e2 e3 Himg H1 Hq1 H2 Hq2 H3 Hq3.
    rewrite (analyze_image_three_failures L X _ _ w e1 e2 e3 Himg H1 Hq1 H2 Hq2 H3 Hq3).
    cbn [snd with_events trace]. rewrite timeline_app. reflexivity.
  - intros audio_path w.
    destruct (files w !! audio_path) as [audio|] eqn:Haudio.
    + rewrite (transcribe_audio_readable X _ _ w Haudio).
      destruct (openai X (api_calls (trace w))) as [response|e];
        [| destruct (is_quota e)];
        cbn [snd]; rewrite api_calls_with_events; cbn; lia.
    + destruct (transcribe_audio_unreadable X _ w Haudio) as (v & evs & -> & Hcalls).
      cbn [snd]. rewrite api_calls_with_events, Hcalls. lia.
  - intros audio_path audio w e Haudio He Hq.
    now rewrite (transcribe_audio_readable X _ _ w Haudio), He, Hq.
  - intros r w. rewrite generate_summary_reply. cbn [snd].
    rewrite api_calls_with_events. cbn. lia.
  - intros r w e He Hq. now rewrite generate_summary_reply, He, Hq.
Qed.

(** The transcription after one time-out. *)
Lemma retry_only_in_analyze_image_witness :
  transcribe_audio (Sample.collaborators [] (fun _ => Raise Sample.timed_out))
    "temp/audio.wav" (Sample.world_with ["temp/audio.wav"])
  = (Return transcription_failed_error,
     with_events [Sleep 5; ApiCall "whisper-1";
                  Log "ERROR" ("Error transcribing audio: "
                               +:+ exn_msg Sample.timed_out)]
                 (Sample.world_with ["temp/audio.wav"])).
Proof.
  exact (proj1 (proj2 (proj2
           (retry_only_in_analyze_image Sample.lib
              (Sample.collaborators [] (fun _ => Raise Sample.timed_out)))))
           "temp/audio.wav" "bytes" (Sample.world_with ["temp/audio.wav"])
           Sample.timed_out eq_refl eq_refl eq_refl).
Defined.

(** C5 as stated fails: the first request of [transcribe_audio] times out, a
    second one would be answered, and no second one is sent. *)
Lemma transcribe_audio_does_not_retry :
  fst (transcribe_audio
         (Sample.collaborators []
            (Sample.scripted [Raise Sample.timed_out; Return "hello"]))
         "temp/audio.wav" (Sample.world_with ["temp/audio.wav"]))
  = Return transcription_failed_error
  /\ timeline (trace (snd (transcribe_audio
                             (Sample.collaborators []
                                (Sample.scripted [Raise Sample.timed_out; Return "hello"]))
                             "temp/audio.wav" (Sample.world_with ["temp/audio.wav"]))))
     = [Sleep 5; ApiCall "whisper-1"].
Proof. split; vm_compute; reflexivity. Qed.

(** C6: [analyze_image] waits 5 * 2^i seconds before attempt i, the first
    included, for each of its at most three attempts; and when the first two
    replies are failures that are no quota failures and the third is an answer,
    it returns that answer. *)
Theorem analyze_image_waits_before_each_attempt (L : pylib) (X : externals)
    (image_path : string) (w : world) :
  (exists (n : nat) (evs : list event),
      (n <= 3)%nat
      /\ (is_Some (files w !! image_path) -> (1 <= n)%nat)
      /\ snd (analyze_image L X image_path w) = with_events evs w
      /\ timeline evs = attempts_timeline (seq 0 n))
  /\ (forall image e1 e2 content,
        files w !! image_path = Some image ->
        openai X (api_calls (trace w)) = Raise e1 -> is_quota e1 = false ->
        openai X (S (api_calls (trace w))) = Raise e2 -> is_quota e2 = false ->
        openai X (S (S (api_calls (trace w)))) = Return content ->
        fst (analyze_image L X image_path w) = Return (Some content)
        /\ timeline (trace (snd (analyze_image L X image_path w)))
           = timeline (trace w)
             ++ [Sleep 5; ApiCall "gpt-4o"; Sleep 10; ApiCall "gpt-4o";
                 Sleep 20; ApiCall "gpt-4o"]).
Proof.
  split; [apply analyze_image_timeline |].
  intros image e1 e2 content Himg H1 Hq1 H2 Hq2 H3.
  rewrite (analyze_image_third_attempt L X _ _ w e1 e2 content Himg H1 Hq1 H2 Hq2 H3).
  split; [reflexivity |].
  cbn [snd with_events trace]. rewrite timeline_app. reflexivity.
Qed.

(** Two time-outs, then an answer. *)
Lemma analyze_image_waits_before_each_attempt_witness :
  fst (analyze_image Sample.lib
         (Sample.collaborators []
            (Sample.scripted [Raise Sample.timed_out; Raise Sample.timed_out;
                              Return "a street at night"]))
         "temp/frame_0001.jpg" (Sample.world_with ["temp/frame_0001.jpg"]))
  = Return (Some "a street at night")
  /\ timeline (trace (snd (analyze_image Sample.lib
                             (Sample.collaborators []
                                (Sample.scripted [Raise Sample.timed_out;
                                                  Raise Sample.timed_out;
                                                  Return "a street at night"]))
                             "temp/frame_0001.jpg"
                             (Sample.world_with ["temp/frame_0001.jpg"]))))
     = timeline (trace (Sample.world_with ["temp/frame_0001.jpg"]))
       ++ [Sleep 5; ApiCall "gpt-4o"; Sleep 10; ApiCall "gpt-4o";
           Sleep 20; ApiCall "gpt-4o"].
Proof.
  exact (proj2 (analyze_image_waits_before_each_attempt Sample.lib
                  (Sample.collaborators []
                     (Sample.scripted [Raise Sample.timed_out; Raise Sample.timed_out;
                                       Return "a street at night"]))
                  "temp/frame_0001.jpg" (Sample.world_with ["temp/frame_0001.jpg"]))
               "bytes" Sample.timed_out Sample.timed_out "a street at night"
               eq_refl eq_refl eq_refl eq_refl eq_refl eq_refl).
Defined.

(** ** The summary prompt *)

Lemma error_in_dict (items : list (string * json)) :
  In "error" (map fst items) -> error_in (JDict items) = Return true.
Proof.
  intros H. cbn [error_in]. f_equal. apply existsb_exists.
  apply in_map_iff in H as ((k & v) & Hk & Hin). cbn in Hk. subst k.
  exists ("error", v). split; [exact Hin | reflexivity].
Qed.

Lemma frames_prompt_app (L : pylib) (pre post : list frame_analysis) :
  frames_prompt L (pre ++ post) = frames_prompt L pre +:+ frames_prompt L post.
Proof.
  induction pre as [|frame pre IH]; cbn [app frames_prompt foldr].
  - reflexivity.
  - fold (frames_prompt L (pre ++ post)). fold (frames_prompt L pre).
    now rewrite IH, string_app_assoc.
Qed.

(** A payload that reads as an object with the key "error" adds nothing. *)
Lemma vision_text_error (L : pylib) (frame : frame_analysis) (payload : string)
    (items : list (string * json)) :
  fa_vision_analysis frame = Some payload ->
  json_loads L payload = Return (JDict items) ->
  In "error" (map fst items) ->
  vision_text L frame = EmptyString.
Proof.
  intros Hv Hloads Herr. unfold vision_text. rewrite Hv, Hloads.
  cbn [obind]. now rewrite (error_in_dict items Herr).
Qed.

(** A payload that does not read as JSON is added as it is. *)
Lemma vision_text_unreadable (L : pylib) (frame : frame_analysis) (payload : string)
    (e : exn) :
  fa_vision_analysis frame = Some payload ->
  json_loads L payload = Raise e ->
  vision_text L frame = payload +:+ nl.
Proof. intros Hv Hloads. unfold vision_text. now rewrite Hv, Hloads. Qed.

(** The summary prompt around one key frame. *)
Lemma prompt_around (L : pylib) (frame : frame_analysis)
    (pre post : list frame_analysis) (a : option audio_analysis)
    (i : list frame_data) (s : option string) :
  _create_summary_prompt L (Results (pre ++ frame :: post) a i s)
  = prompt_with_frame L pre post a
      (frame_header frame +:+ vision_text L frame +:+ ocr_line frame).
Proof.
  unfold _create_summary_prompt, prompt_with_frame, audio_prompt.
  cbn [frames audio]. f_equal. f_equal.
  assert (Hframes : frames_prompt L (pre ++ frame :: post)
                    = frames_prompt L pre
                      +:+ (frame_header frame +:+ vision_text L frame
                           +:+ ocr_line frame)
                      +:+ frames_prompt L post).
  { rewrite frames_prompt_app. reflexivity. }
  destruct pre; cbn [app]; cbn [app] in Hframes; now rewrite Hframes.
Qed.

(** A payload whose parsed value carries the marker adds nothing. *)
Lemma vision_text_marked (L : pylib) (frame : frame_analysis) (payload : string)
    (v : json) :
  fa_vision_analysis frame = Some payload ->
  json_loads L payload = Return v ->
  error_in v = Return true ->
  vision_text L frame = EmptyString.
Proof.
  intros Hv Hloads Herr. unfold vision_text. now rewrite Hv, Hloads; cbn [obind]; rewrite Herr.
Qed.

(** C8: the whole text of the prompt around one key frame with a vision
    payload.  When the payload parses to a value that carries the error marker
    (an object with the key "error" is one), the key frame shows with its
    header and its OCR line only, and the prompt is the one of the same results
    without that payload.  When the payload does not parse, its raw text and a
    line break stand between the header and the OCR line.  When it parses to a
    value without the marker, that value is written again in its place; when
    looking for the marker raises, the raw text stands there as well. *)
Theorem error_payloads_left_out_of_prompt (L : pylib) (frame : frame_analysis)
    (payload : string) (pre post : list frame_analysis)
    (a : option audio_analysis) (i : list frame_data) (s : option string) :
  fa_vision_analysis frame = Some payload ->
  (forall v,
      json_loads L payload = Return v ->
      error_in v = Return true ->
      _create_summary_prompt L (Results (pre ++ frame :: post) a i s)
      = prompt_with_frame L pre post a (frame_header frame +:+ ocr_line frame)
      /\ _create_summary_prompt L (Results (pre ++ frame :: post) a i s)
         = _create_summary_prompt L
             (Results (pre ++ without_vision frame :: post) a i s))
  /\ (forall items,
        json_loads L payload = Return (JDict items) ->
        In "error" (map fst items) ->
        _create_summary_prompt L (Results (pre ++ frame :: post) a i s)
        = prompt_with_frame L pre post a (frame_header frame +:+ ocr_line frame))
  /\ (forall e,
        json_loads L payload = Raise e ->
        _create_summary_prompt L (Results (pre ++ frame :: post) a i s)
        = prompt_with_frame L pre post a
            (frame_header frame +:+ payload +:+ nl +:+ ocr_line frame))
  /\ (forall v,
        json_loads L payload = Return v ->
        error_in v = Return false ->
        _create_summary_prompt L (Results (pre ++ frame :: post) a i s)
        = prompt_with_frame L pre post a
            (frame_header frame +:+ json_dumps_indent L v +:+ nl
             +:+ ocr_line frame))
  /\ (forall v e,
        json_loads L payload = Return v ->
        error_in v = Raise e ->
        _create_summary_prompt L (Results (pre ++ frame :: post) a i s)
        = prompt_with_frame L pre post a
            (frame_header frame +:+ payload +:+ nl +:+ ocr_line frame)).
Proof.
  intros Hv.
  assert (Hmarked : forall v,
             json_loads L payload = Return v -> error_in v = Return true ->
             _create_summary_prompt L (Results (pre ++ frame :: post) a i s)
             = prompt_with_frame L pre post a
                 (frame_header frame +:+ ocr_line frame)).
  { intros v Hloads Herr. rewrite prompt_around.
    rewrite (vision_text_marked L frame payload v Hv Hloads Herr).
    now rewrite string_app_nil_l. }
  split; [| split; [| split; [| split]]].
  - intros v Hloads Herr. split; [now apply (Hmarked v) |].
    rewrite (Hmarked v Hloads Herr), prompt_around.
    unfold without_vision, vision_text, frame_header, ocr_line.
    cbn [fa_vision_analysis fa_timestamp fa_ocr_text].
    now rewrite string_app_nil_l.
  - intros items Hloads Herr.
    exact (Hmarked _ Hloads (error_in_dict items Herr)).
  - intros e Hloads. rewrite prompt_around.
    rewrite (vision_text_unreadable L frame payload e Hv Hloads).
    now rewrite !string_app_assoc.
  - intros v Hloads Herr. rewrite prompt_around. unfold vision_text.
    rewrite Hv, Hloads. cbn [obind]. rewrite Herr. cbn [obind negb].
    now rewrite !string_app_assoc.
  - intros v e Hloads Herr. rewrite prompt_around. unfold vision_text.
    rewrite Hv, Hloads. cbn [obind]. rewrite Herr. cbn [obind].
    now rewrite !string_app_assoc.
Qed.

(** ** The archive *)

Import Main.

Lemma zip_write_some (zip_path file_path arcname bytes : string)
    (members : list (string * string)) (w : world) :
  files w !! file_path = Some bytes ->
  archives w !! zip_path = Some members ->
  zip_write zip_path file_path arcname w
  = (Return tt,
     World (files w) (<[zip_path := members ++ [(arcname, bytes)]]> (archives w))
           (trace w)).
Proof.
  intros Hf Ha. unfold zip_write, bind. rewrite (read_file_some _ _ _ Hf).
  now rewrite (alter_alt_Some _ _ _ _ Ha).
Qed.

(** The loop over the walked files adds one member per file, in order. *)
Lemma for_each_zip_frames (zip_path : string) (paths : list string)
    (members : list (string * string)) (w : world) :
  (forall p, In p paths -> is_Some (files w !! p)) ->
  archives w !! zip_path = Some members ->
  for_each paths
    (fun file_path =>
       zip_write zip_path file_path (Py.join "all_frames" (Py.basename file_path))) w
  = (Return tt,
     World (files w)
           (<[zip_path := members ++ map (frame_member (files w)) paths]> (archives w))
           (trace w)).
Proof.
  revert members w. induction paths as [|p rest IH]; intros members w Hall Ha.
  - cbn [for_each map]. unfold ret. rewrite app_nil_r.
    rewrite (insert_id _ _ _ Ha). now destruct w.
  - cbn [for_each]. unfold bind at 1.
    destruct (Hall p (or_introl eq_refl)) as [bytes Hp].
    rewrite (zip_write_some _ _ _ bytes members w Hp Ha).
    rewrite (IH (members ++ [(Py.join "all_frames" (Py.basename p), bytes)])).
    + cbn [files archives trace map]. rewrite insert_insert_eq.
      unfold frame_member at 2. rewrite Hp. cbn [default].
      now rewrite <- app_assoc.
    + intros q Hq. cbn [files]. apply Hall. now right.
    + cbn [archives]. apply lookup_insert_eq.
Qed.

Lemma paths_under_In (d p : string) (fs : gmap string string) :
  In p (paths_under d fs)
  <-> is_Some (fs !! p) /\ is_Some (strip_prefix (d +:+ "/") p).
Proof.
  unfold paths_under. rewrite filter_In, in_map_iff. split.
  - intros [((q & bytes) & Hq & Hin) Hpre]. cbn in Hq. subst q.
    apply list_elem_of_In, elem_of_map_to_list in Hin.
    split; [eauto | now apply bool_decide_eq_true in Hpre].
  - intros [[bytes Hp] Hpre]. split; [| now apply bool_decide_eq_true].
    exists (p, bytes). split; [reflexivity |].
    now apply list_elem_of_In, elem_of_map_to_list.
Qed.

Lemma join_relative (a x : string) :
  Py.startswith x "/" = false -> Py.join a x = dir_prefix a +:+ x.
Proof.
  intros H. unfold Py.join, dir_prefix. rewrite H.
  destruct (String.eqb a EmptyString || Py.endswith_char a "/");
    [reflexivity | now rewrite string_app_assoc].
Qed.

Lemma strip_prefix_app (a b c : string) :
  strip_prefix (a +:+ b) (a +:+ c) = strip_prefix b c.
Proof.
  induction a as [|x a IH]; app_step; [reflexivity |].
  cbn [strip_prefix]. now rewrite Ascii.eqb_refl.
Qed.

(** The two report files are not below the frame directory. *)
Lemma report_file_outside_frames (output_dir name : string) :
  Py.startswith name "/" = false ->
  strip_prefix (Py.join output_dir "all_frames" +:+ "/")
               (Py.join (Py.join output_dir "analysis_results") name)
  = None.
Proof.
  intros Hname.
  rewrite (join_relative output_dir "all_frames") by reflexivity.
  rewrite (join_relative _ name Hname).
  rewrite (join_relative output_dir "analysis_results") by reflexivity.
  rewrite !string_app_assoc.
  unfold dir_prefix at 2.
  destruct (String.eqb _ _ || Py.endswith_char _ _);
    rewrite ?string_app_assoc, strip_prefix_app; reflexivity.
Qed.

Lemma report_files_differ (archive_dir : string) :
  Py.join archive_dir "analysis.json" <> Py.join archive_dir "README.md".
Proof.
  rewrite !join_relative by reflexivity.
  intros H. apply String.app_inj in H. discriminate.
Qed.

(** What [create_results_archive] leaves behind once the audio analysis is
    set: the two report files on disk, and an archive whose members are the
    files below the frame directory, each under [all_frames/] with its base
    name, then [analysis.json] and [README.md]. *)
Lemma create_results_archive_result (L : pylib) (X : externals) (r : results)
    (a : audio_analysis) (output_dir : string) (md : video_metadata) (w : world) :
  let results_file := Py.join (Py.join output_dir "analysis_results") "analysis.json" in
  let readme_file := Py.join (Py.join output_dir "analysis_results") "README.md" in
  let zip_path := Py.join output_dir "video_analysis.zip" in
  let frames_dir := Py.join output_dir "all_frames" in
  let fs := <[readme_file := readme_text L X r a md]>
              (<[results_file := json_dumps_indent L (results_json r)]> (files w)) in
  audio r = Some a ->
  create_results_archive L X r output_dir md w
  = (Return zip_path,
     World fs
           (<[zip_path := map (frame_member fs) (paths_under frames_dir fs)
                          ++ [("analysis.json", json_dumps_indent L (results_json r));
                              ("README.md", readme_text L X r a md)]]> (archives w))
           (trace w)).
Proof.
  intros results_file readme_file zip_path frames_dir fs Haudio.
  unfold create_results_archive, try_except. cbv zeta.
  fold results_file readme_file zip_path frames_dir.
  unfold bind at 1, write_file at 1.
  unfold bind at 1, lift at 1, readme_content at 1. rewrite Haudio.
  unfold bind at 1, write_file at 1.
  unfold bind at 1, zip_open at 1. unfold bind at 1, os_walk_files at 1.
  cbn [files archives trace with_files]. fold fs.
  unfold bind at 1.
  rewrite (for_each_zip_frames zip_path (paths_under frames_dir fs) []).
  2:{ cbn [files]. intros p Hp. now apply paths_under_In in Hp as [Hp _]. }
  2:{ cbn [archives]. apply lookup_insert_eq. }
  cbn [files archives trace app]. rewrite insert_insert_eq.
  assert (Hresults : fs !! results_file = Some (json_dumps_indent L (results_json r))).
  { unfold fs. rewrite lookup_insert_ne; [apply lookup_insert_eq |].
    intros H. symmetry in H. revert H. apply report_files_differ. }
  assert (Hreadme : fs !! readme_file = Some (readme_text L X r a md))
    by apply lookup_insert_eq.
  unfold bind at 1.
  erewrite zip_write_some; [| exact Hresults | apply lookup_insert_eq].
  cbn [files archives trace]. rewrite insert_insert_eq.
  unfold bind at 1.
  erewrite zip_write_some; [| exact Hreadme | apply lookup_insert_eq].
  cbn [files archives trace]. rewrite insert_insert_eq, <- app_assoc.
  reflexivity.
Qed.

(** Without the audio analysis the readme cannot be written: the call raises
    after the report file is on disk, and no archive is made. *)
Lemma create_results_archive_without_audio (L : pylib) (X : externals) (r : results)
    (output_dir : string) (md : video_metadata) (w : world) :
  audio r = None ->
  exists e w',
    create_results_archive L X r output_dir md w = (Raise e, w')
    /\ archives w' = archives w.
Proof.
  intros Haudio. unfold create_results_archive, try_except. cbv zeta.
  unfold bind at 1, write_file at 1.
  unfold bind at 1, lift at 1, readme_content at 1. rewrite Haudio.
  unfold bind, log, emit, raise. eexists. eexists. split; reflexivity.
Qed.

(** Writing the two report files changes no file below the frame
    directory. *)
Lemma frames_unchanged_by_report (output_dir report readme : string)
    (fs0 : gmap string string) (p : string) :
  let results_file := Py.join (Py.join output_dir "analysis_results") "analysis.json" in
  let readme_file := Py.join (Py.join output_dir "analysis_results") "README.md" in
  let frames_dir := Py.join output_dir "all_frames" in
  let fs := <[readme_file := readme]> (<[results_file := report]> fs0) in
  (In p (paths_under frames_dir fs) <-> In p (paths_under frames_dir fs0))
  /\ (In p (paths_under frames_dir fs0) -> fs !! p = fs0 !! p).
Proof.
  intros results_file readme_file frames_dir fs.
  assert (Hout : is_Some (strip_prefix (frames_dir +:+ "/") p) ->
                 p <> readme_file /\ p <> results_file).
  { intros [rest Hrest]. split; intros ->.
    - unfold frames_dir, readme_file in Hrest.
      now rewrite report_file_outside_frames in Hrest.
    - unfold frames_dir, results_file in Hrest.
      now rewrite report_file_outside_frames in Hrest. }
  assert (Hsame : is_Some (strip_prefix (frames_dir +:+ "/") p) -> fs !! p = fs0 !! p).
  { intros Hpre. destruct (Hout Hpre) as [Hne1 Hne2]. unfold fs.
    rewrite lookup_insert_ne by congruence. now rewrite lookup_insert_ne by congruence. }
  split.
  - rewrite !paths_under_In. split; intros [Hp Hpre]; split; try exact Hpre.
    + now rewrite <- (Hsame Hpre).
    + now rewrite (Hsame Hpre).
  - intros Hp%paths_under_In. now apply Hsame.
Qed.

(** C9, as the code has it: in the archive the report is [analysis.json] and
    the readme is [README.md], both at the top, after one member
    [all_frames/<base name>] for each file below the frame directory; the
    directory [analysis_results] is where the two files are on disk. *)
Theorem archive_members (L : pylib) (X : externals) (r : results)
    (a : audio_analysis) (output_dir : string) (md : video_metadata) (w : world) :
  let results_file := Py.join (Py.join output_dir "analysis_results") "analysis.json" in
  let readme_file := Py.join (Py.join output_dir "analysis_results") "README.md" in
  let zip_path := Py.join output_dir "video_analysis.zip" in
  let frames_dir := Py.join output_dir "all_frames" in
  let w' := snd (create_results_archive L X r output_dir md w) in
  audio r = Some a ->
  fst (create_results_archive L X r output_dir md w) = Return zip_path
  /\ files w' !! results_file = Some (json_dumps_indent L (results_json r))
  /\ files w' !! readme_file = Some (readme_text L X r a md)
  /\ archives w' !! zip_path
     = Some (map (frame_member (files w')) (paths_under frames_dir (files w'))
             ++ [("analysis.json", json_dumps_indent L (results_json r));
                 ("README.md", readme_text L X r a md)])
  /\ (forall p, In p (paths_under frames_dir (files w'))
                <-> In p (paths_under frames_dir (files w)))
  /\ (forall p, In p (paths_under frames_dir (files w))
                -> frame_member (files w') p = frame_member (files w) p).
Proof.
  intros results_file readme_file zip_path frames_dir w' Haudio.
  pose proof (create_results_archive_result L X r a output_dir md w) as Hrun.
  cbv zeta in Hrun. unfold w'. rewrite (Hrun Haudio). cbn [fst snd files archives].
  fold results_file readme_file zip_path frames_dir.
  split; [reflexivity |]. split.
  { rewrite lookup_insert_ne; [apply lookup_insert_eq |].
    intros H. symmetry in H. revert H. apply report_files_differ. }
  split; [apply lookup_insert_eq |].
  split; [apply lookup_insert_eq |].
  split.
  - intros p. apply (frames_unchanged_by_report output_dir _ _ (files w) p).
  - intros p Hp. unfold frame_member. f_equal. f_equal.
    now apply (frames_unchanged_by_report output_dir _ _ (files w) p).
Qed.

(** C9 as stated fails: the archive of a run with two dense frames has four
    members, none of them below [analysis_results/]. *)
Lemma archive_without_analysis_results_folder :
  Py.sorted
    (map fst
       (default []
          (archives
             (snd (create_results_archive Sample.lib
                     (Sample.collaborators [] Sample.no_api)
                     Sample.results_without_frames "output/20240101_120000"
                     (Metadata (PFloat 10) "mov,mp4" "640x360")
                     (Sample.world_with
                        ["output/20240101_120000/all_frames/frame_0000.jpg";
                         "output/20240101_120000/all_frames/frame_0001.jpg"])))
           !! "output/20240101_120000/video_analysis.zip")))
  = ["README.md"; "all_frames/frame_0000.jpg"; "all_frames/frame_0001.jpg";
     "analysis.json"].
Proof. vm_compute. reflexivity. Qed.

(** ** The summary and what follows it *)

Lemma events_only_ret {A : Type} (a : A) : events_only (ret a).
Proof. intros w. exists []. cbn. now rewrite with_events_nil. Qed.

Lemma events_only_raise {A : Type} (e : exn) : events_only (@raise A e).
Proof. intros w. exists []. cbn. now rewrite with_events_nil. Qed.

Lemma events_only_lift {A : Type} (o : outcome A) : events_only (lift o).
Proof. intros w. exists []. cbn. now rewrite with_events_nil. Qed.

Lemma events_only_emit (ev : event) : events_only (emit ev).
Proof. intros w. exists [ev]. reflexivity. Qed.

Lemma events_only_bind {A B : Type} (m : M A) (k : A -> M B) :
  events_only m -> (forall a, events_only (k a)) -> events_only (bind m k).
Proof.
  intros Hm Hk w. unfold bind. destruct (Hm w) as [evs Hevs].
  destruct (m w) as [[a|e] w1]; cbn [snd] in Hevs; subst w1.
  - destruct (Hk a (with_events evs w)) as [evs' ->].
    exists (evs ++ evs'). apply with_events_events.
  - exists evs. reflexivity.
Qed.

Lemma events_only_try_except {A : Type} (body : M A) (handler : exn -> M A) :
  events_only body -> (forall e, events_only (handler e)) ->
  events_only (try_except body handler).
Proof.
  intros Hm Hk w. unfold try_except. destruct (Hm w) as [evs Hevs].
  destruct (body w) as [[a|e] w1]; cbn [snd] in Hevs; subst w1.
  - exists evs. reflexivity.
  - destruct (Hk e (with_events evs w)) as [evs' ->].
    exists (evs ++ evs'). apply with_events_events.
Qed.

Lemma events_only_for_each {A : Type} (l : list A) (body : A -> M unit) :
  (forall x, events_only (body x)) -> events_only (for_each l body).
Proof.
  intros Hbody. induction l as [|x l IH]; cbn [for_each].
  - apply events_only_ret.
  - apply events_only_bind; [apply Hbody | intros _; exact IH].
Qed.

(** The handler of a [try] that itself returns makes the [try] return. *)
Lemma try_except_returns {A : Type} (body : M A) (handler : exn -> M A) (w : world) :
  (forall e w1, exists a, fst (handler e w1) = Return a) ->
  exists a, fst (try_except body handler w) = Return a.
Proof.
  intros Hh. unfold try_except. destruct (body w) as [[a|e] w1]; cbn [fst]; eauto.
Qed.

(** The report on the console: it opens with its header and never raises,
    whatever the summary text is. *)
Lemma render_report_result (L : pylib) (summary_text : string) (w : world) :
  exists evs,
    render_report L summary_text w = (Return tt, with_events (report_header :: evs) w).
Proof.
  unfold render_report. unfold bind at 1, print at 1, emit at 1.
  rewrite with_event_one.
  match goal with
  | |- context [try_except ?b ?h _] =>
      assert (Hev : events_only (try_except b h));
      [| assert (Hret : forall w1, exists a, fst (try_except b h w1) = Return a) ]
  end.
  - apply events_only_try_except.
    + apply events_only_bind; [apply events_only_lift | intros summary].
      apply events_only_bind; [apply events_only_lift | intros has_error].
      destruct (negb has_error).
      * apply events_only_bind.
        -- apply events_only_for_each. intros line. apply events_only_emit.
        -- intros _. destruct (print_summary_fields L summary).2;
             [apply events_only_raise | apply events_only_ret].
      * apply events_only_bind; [apply events_only_emit | intros _].
        apply events_only_emit.
    + intros e. apply events_only_bind; [apply events_only_emit | intros _].
      apply events_only_emit.
  - intros w1. apply try_except_returns. intros e w2. exists tt. reflexivity.
  - destruct (Hev (with_events [report_header] w)) as [evs Hevs].
    destruct (Hret (with_events [report_header] w)) as [[] Hfst].
    exists evs. fold report_header.
    match goal with
    | |- ?run = _ => destruct run as [o w2] eqn:E
    end.
    cbn [fst snd] in Hevs, Hfst. subst o w2.
    now rewrite with_events_events.
Qed.

Lemma generate_summary_result (L : pylib) (X : externals) (r : results) (w : world) :
  generate_summary L X r w
  = (Return (summary_of_reply L (openai X (api_calls (trace w)))),
     with_events [Sleep 5; ApiCall "gpt-4o"] w).
Proof.
  rewrite generate_summary_reply. unfold summary_of_reply.
  now destruct (openai X (api_calls (trace w))).
Qed.

(** An error of the summary call comes back as an object with the key
    "error". *)
Lemma summary_of_failure (L : pylib) (e : exn) :
  exists payload,
    summary_of_reply L (Raise e) = json_dumps L payload
    /\ error_in payload = Return true.
Proof.
  cbn [summary_of_reply]. destruct (is_quota e); eexists; split; reflexivity.
Qed.

(** C7: [generate_summary] never raises, and a failed call gives the dump of
    an object with the key "error".  From the summary on (the audio analysis
    is set by then), the run prints the report, writes the archive and returns
    its path; the report in the archive is the results with the summary text
    under the key "summary". *)
Theorem summary_never_stops_the_run (L : pylib) (X : externals)
    (temp_dir output_dir : string) (md : video_metadata) (r : results)
    (a : audio_analysis) (w : world) :
  let reply := openai X (api_calls (trace w)) in
  let summary_text := summary_of_reply L reply in
  let report := Results (frames r) (audio r) (all_frames_info r) (Some summary_text) in
  let run := summarize_and_archive L X temp_dir output_dir md r w in
  audio r = Some a ->
  fst (generate_summary L X r w) = Return summary_text
  /\ (forall e, reply = Raise e ->
                exists payload,
                  summary_text = json_dumps L payload
                  /\ error_in payload = Return true)
  /\ fst run = Return (Py.join output_dir "video_analysis.zip")
  /\ (exists evs,
         trace (snd run)
         = trace w ++ [Sleep 5; ApiCall "gpt-4o"; report_header] ++ evs)
  /\ (exists frame_members,
         archives (snd run) !! Py.join output_dir "video_analysis.zip"
         = Some (frame_members
                 ++ [("analysis.json", json_dumps_indent L (results_json report));
                     ("README.md", readme_text L X report a md)]))
  /\ results_json report
     = JDict [("frames", JList (map frame_analysis_json (frames r)));
              ("audio_analysis",
                JDict [("transcription", JStr (transcription a));
                       ("music_detection", music_json (music_detection a))]);
              ("all_frames_info", JList (map frame_data_json (all_frames_info r)));
              ("summary", JStr summary_text)].
Proof.
  intros reply summary_text report run Haudio.
  split; [unfold summary_text, reply; now rewrite generate_summary_result |].
  split.
  { intros e He. unfold summary_text. rewrite He. apply summary_of_failure. }
  destruct run as [o w'] eqn:Hrun.
  unfold run, summarize_and_archive in Hrun. unfold bind at 1 in Hrun.
  rewrite generate_summary_result in Hrun.
  fold reply in Hrun. fold summary_text in Hrun. fold report in Hrun.
  unfold bind at 1 in Hrun.
  destruct (render_report_result L summary_text
              (with_events [Sleep 5; ApiCall "gpt-4o"] w)) as [evs Hreport].
  rewrite Hreport in Hrun. unfold bind at 1 in Hrun.
  pose proof (create_results_archive_result L X report a output_dir md
                (with_events (report_header :: evs)
                   (with_events [Sleep 5; ApiCall "gpt-4o"] w))) as Harch.
  cbv zeta in Harch. rewrite (Harch Haudio) in Hrun.
  unfold bind, cleanup, ret, log, emit, with_event, with_files in Hrun.
  cbn [files archives trace with_events] in Hrun.
  destruct (rmtree X temp_dir _) as [[e fs]|];
    injection Hrun as <- <-; cbn [fst snd files archives trace];
    (split; [reflexivity |]);
    (split; [eexists; rewrite <- !app_assoc; reflexivity |]);
    (split; [eexists; apply lookup_insert_eq |]);
    unfold results_json, report; cbn [frames audio all_frames_info summary];
    now rewrite Haudio.
Qed.

(** The last stage of a run whose quota is exhausted. *)
Lemma summary_never_stops_the_run_witness :
  fst (summarize_and_archive Sample.lib (Sample.collaborators [] Sample.quota_api)
         "temp" "output/20240101_120000" (Metadata (PFloat 10) "mov,mp4" "640x360")
         Sample.results_without_frames Sample.empty_world)
  = Return (Py.join "output/20240101_120000" "video_analysis.zip").
Proof.
  exact (proj1 (proj2 (proj2
           (summary_never_stops_the_run Sample.lib
              (Sample.collaborators [] Sample.quota_api)
              "temp" "output/20240101_120000"
              (Metadata (PFloat 10) "mov,mp4" "640x360")
              Sample.results_without_frames
              (AudioAnalysis "hello" (VideoProcessor.Music true []))
              Sample.empty_world eq_refl)))).
Defined.

(** A key frame whose analysis failed after three time-outs, between two key
    frames without payload. *)
Lemma error_payloads_left_out_of_prompt_witness :
  _create_summary_prompt Sample.lib
    (Results
       ([FrameAnalysis 50%float "" None]
          ++ FrameAnalysis 100%float "EXIT"
               (Some (json_dumps Sample.lib (image_failed_error "Request timed out.")))
          :: [FrameAnalysis 150%float "" None])
       None [] None)
  = "Проанализируйте следующее содержание видео для создания JSON-анализа:"
    +:+ nl +:+ nl +:+ "Ключевые кадры:" +:+ nl
    +:+ "Момент 50.0с:" +:+ nl
    +:+ "Момент 100.0с:" +:+ nl
    +:+ "Найденный текст: EXIT" +:+ nl
    +:+ "Момент 150.0с:" +:+ nl.
Proof.
  rewrite (proj1 (proj2 (error_payloads_left_out_of_prompt Sample.lib
                  (FrameAnalysis 100%float "EXIT"
                     (Some (json_dumps Sample.lib
                              (image_failed_error "Request timed out."))))
                  (json_dumps Sample.lib (image_failed_error "Request timed out."))
                  [FrameAnalysis 50%float "" None]
                  [FrameAnalysis 150%float "" None] None [] None eq_refl))
               [("error", JStr "Analysis failed");
                ("message", JStr "Не удалось проанализировать изображение");
                ("technical_details", JStr "Request timed out.")]).
  - vm_compute. reflexivity.
  - vm_compute. reflexivity.
  - left. reflexivity.
Defined.

(** The frames of a run with two dense frames keep their bytes. *)
Lemma archive_members_witness :
  fst (create_results_archive Sample.lib (Sample.collaborators [] Sample.no_api)
         Sample.results_without_frames "output/20240101_120000"
         (Metadata (PFloat 10) "mov,mp4" "640x360")
         (Sample.world_with
            ["output/20240101_120000/all_frames/frame_0000.jpg";
             "output/20240101_120000/all_frames/frame_0001.jpg"]))
  = Return "output/20240101_120000/video_analysis.zip".
Proof.
  exact (proj1 (archive_members Sample.lib (Sample.collaborators [] Sample.no_api)
                  Sample.results_without_frames
                  (AudioAnalysis "hello" (VideoProcessor.Music true []))
                  "output/20240101_120000"
                  (Metadata (PFloat 10) "mov,mp4" "640x360")
                  (Sample.world_with
                     ["output/20240101_120000/all_frames/frame_0000.jpg";
                      "output/20240101_120000/all_frames/frame_0001.jpg"])
                  eq_refl)).
Defined.

(** A summary prompt as it is sent. *)
Example prompt_of_one_frame :
  _create_summary_prompt Sample.lib
    (Results [FrameAnalysis 100%float "EXIT" (Some "not json")] None [] None)
  = "Проанализируйте следующее содержание видео для создания JSON-анализа:"
    +:+ nl +:+ nl +:+ "Ключевые кадры:" +:+ nl
    +:+ "Момент 100.0с:" +:+ nl
    +:+ "not json" +:+ nl
    +:+ "Найденный текст: EXIT" +:+ nl.
Proof. vm_compute. reflexivity. Qed.

(** ** Failures that do not stop the run, and failures that do *)

(** X2: metadata is best effort: [get_video_metadata] never raises, and when
    the probe fails it returns the record of unknowns. *)
Theorem metadata_is_best_effort (X : externals) (video_path : string) (w : world) :
  exists md,
    fst (get_video_metadata X video_path w) = Return md
    /\ (forall e, ffprobe X video_path = Raise e ->
                  md = Metadata (PInt 0) "Unknown" "Unknown").
Proof.
  unfold get_video_metadata, try_except, lift.
  destruct (ffprobe X video_path) as [md|e].
  - exists md. split; [reflexivity | discriminate].
  - eexists. split; [reflexivity | reflexivity].
Qed.

(** X3: OCR is best effort: [perform_ocr] never raises, and when the engine
    fails it returns the empty string. *)
Theorem ocr_is_best_effort (X : externals) (image_path : string) (w : world) :
  exists text,
    fst (perform_ocr X image_path w) = Return text
    /\ (forall e, tesseract X image_path = Raise e -> text = EmptyString).
Proof.
  unfold perform_ocr, try_except, lift.
  destruct (tesseract X image_path) as [text|e].
  - exists text. split; [reflexivity | discriminate].
  - eexists. split; [reflexivity | reflexivity].
Qed.

Lemma perform_ocr_returns (X : externals) (image_path : string) (w : world) :
  exists text w', perform_ocr X image_path w = (Return text, w').
Proof.
  unfold perform_ocr, try_except, lift.
  destruct (tesseract X image_path); unfold bind, log, emit, ret; eauto.
Qed.

Lemma analyze_image_run (L : pylib) (X : externals) (image_path : string) (w : world) :
  exists v w', analyze_image L X image_path w = (Return (Some v), w').
Proof.
  destruct (analyze_image_returns L X image_path w) as [v Hv].
  destruct (analyze_image L X image_path w) as [o w'] eqn:E.
  cbn [fst] in Hv. subst o. eauto.
Qed.

(** X4: every key frame gets its analysis, whatever the inference API and the
    OCR engine do: the loop over the key frames returns one entry per key
    frame, with the timestamp of the frame and a vision payload. *)
Theorem key_frames_all_analyzed (L : pylib) (X : externals)
    (key_frames : list frame) (w : world) :
  exists analyses w',
    process_key_frames L X key_frames w = (Return analyses, w')
    /\ map fa_timestamp analyses = map timestamp key_frames
    /\ Forall (fun analysis => is_Some (fa_vision_analysis analysis)) analyses.
Proof.
  revert w. induction key_frames as [|frame rest IH]; intros w.
  - exists [], w. repeat split. constructor.
  - unfold process_key_frames. cbn [mapM]. fold (process_key_frames L X rest).
    unfold bind at 1. unfold bind at 1.
    destruct (perform_ocr_returns X (path frame) w) as (text & w1 & ->).
    unfold bind at 1.
    destruct (analyze_image_run L X (path frame) w1) as (v & w2 & ->).
    unfold ret at 1. unfold bind at 1.
    destruct (IH w2) as (analyses & w3 & -> & Hts & Hvision).
    eexists. eexists. split; [reflexivity |]. split.
    + cbn [map fa_timestamp]. now rewrite Hts.
    + constructor; [cbn; eauto | exact Hvision].
Qed.

(** X5: a failed download is fatal: the run ends with [sys.exit(1)], sends no
    request and makes no archive.  The lines it logs are, in this order, the
    attempt, the failure in [download_video] and the failure in
    [analyze_video], both with [str(e)]; the last thing it prints is the line
    that shows the error. *)
Theorem failed_download_exits (L : pylib) (X : externals) (url : string)
    (publish : bool) (w : world) (e : exn) :
  yt_dlp X url = Raise e ->
  fst (analyze_video L X url publish w) = Return (SysExit 1)
  /\ api_calls (trace (snd (analyze_video L X url publish w))) = api_calls (trace w)
  /\ (exists evs,
         trace (snd (analyze_video L X url publish w)) = trace w ++ evs
         /\ logged evs
            = [Log "INFO" ("Attempting to download video from: " +:+ url);
               Log "ERROR" ("Error downloading video: " +:+ exn_msg e);
               Log "ERROR" ("Ошибка при анализе видео: " +:+ exn_msg e)]
         /\ last evs = Some (Print (nl +:+ "❌ Ошибка: " +:+ exn_msg e)))
  /\ archives (snd (analyze_video L X url publish w)) = archives w.
Proof.
  intros H.
  assert (Hrun : analyze_video L X url publish w
                 = (Return (SysExit 1),
                    World (yt_dlp_leftovers X url (files w)) (archives w)
                      (trace w
                       ++ [Log "INFO" ("Attempting to download video from: " +:+ url);
                           Log "ERROR" ("Error downloading video: " +:+ exn_msg e);
                           Log "ERROR" ("Ошибка при анализе видео: " +:+ exn_msg e);
                           Print (nl +:+ "❌ Ошибка: " +:+ exn_msg e)]))).
  { unfold analyze_video, try_except. cbv zeta. unfold bind at 1.
    unfold download_video, try_except. unfold bind at 1, log at 1, emit at 1.
    unfold bind at 1, run_yt_dlp at 1. rewrite H.
    unfold bind, log, emit, raise, ret, print, emit, with_event, with_files.
    cbn [files archives trace]. rewrite <- !app_assoc. reflexivity. }
  rewrite Hrun. cbn [fst snd trace archives].
  split; [reflexivity |]. split; [| split; [| reflexivity]].
  - rewrite api_calls_app. cbn. lia.
  - eexists. split; [reflexivity |]. split; reflexivity.
Qed.

(** A download that fails with a time-out. *)
Lemma failed_download_exits_witness :
  fst (analyze_video Sample.lib Sample.without_network
         "https://example.org/video" false Sample.empty_world)
  = Return (SysExit 1).
Proof.
  exact (proj1 (failed_download_exits Sample.lib Sample.without_network
                  "https://example.org/video" false Sample.empty_world
                  Sample.timed_out eq_refl)).
Defined.

(** ** What a call to the inference API can cost and return *)

Lemma total_sleep_app (t t' : list event) :
  total_sleep (t ++ t') = total_sleep t + total_sleep t'.
Proof.
  induction t as [|ev t IH]; [reflexivity |].
  change (total_sleep ((ev :: t) ++ t'))
    with (match ev with Sleep seconds => seconds + total_sleep (t ++ t')
                   | _ => total_sleep (t ++ t') end).
  change (total_sleep (ev :: t))
    with (match ev with Sleep seconds => seconds + total_sleep t
                   | _ => total_sleep t end).
  destruct ev; lia.
Qed.

Lemma total_sleep_timeline (t : list event) : total_sleep (timeline t) = total_sleep t.
Proof.
  induction t as [|ev t IH]; [reflexivity |].
  destruct ev;
    [ change (timeline (Run cmd :: t)) with (timeline t)
    | change (timeline (Sleep seconds :: t)) with (Sleep seconds :: timeline t)
    | change (timeline (ApiCall model :: t)) with (ApiCall model :: timeline t)
    | change (timeline (Log level msg :: t)) with (timeline t)
    | change (timeline (Print line :: t)) with (timeline t) ];
    try exact IH.
  change (seconds + total_sleep (timeline t) = seconds + total_sleep t). lia.
Qed.

Lemma api_calls_timeline (t : list event) : api_calls (timeline t) = api_calls t.
Proof.
  unfold api_calls. induction t as [|ev t IH]; [reflexivity |].
  destruct ev;
    [ change (timeline (Run cmd :: t)) with (timeline t)
    | change (timeline (Sleep seconds :: t)) with (Sleep seconds :: timeline t)
    | change (timeline (ApiCall model :: t)) with (ApiCall model :: timeline t)
    | change (timeline (Log level msg :: t)) with (timeline t)
    | change (timeline (Print line :: t)) with (timeline t) ];
    cbn [List.filter is_api_call length]; lia.
Qed.

(** X6: one call of [analyze_image] sends at most three requests and sleeps at
    most 35 seconds, whatever the API replies; it changes no file and no
    archive. *)
Theorem analyze_image_bounded (L : pylib) (X : externals) (image_path : string)
    (w : world) :
  exists evs,
    snd (analyze_image L X image_path w) = with_events evs w
    /\ (api_calls evs <= 3)%nat
    /\ 0 <= total_sleep evs <= 35.
Proof.
  destruct (analyze_image_timeline L X image_path w) as (n & evs & Hn & _ & Hsnd & Htl).
  exists evs. split; [exact Hsnd |].
  rewrite <- (api_calls_timeline evs), <- (total_sleep_timeline evs), Htl.
  destruct n as [|[|[|[|n]]]]; try lia; vm_compute; repeat split; try lia;
    discriminate.
Qed.

(** What the loop hands back: a reply of the API, the quota payload of a
    quota failure, or the exception of a failure that is none. *)
Lemma attempts_loop_outcome (L : pylib) (X : externals) (max_retries : nat)
    (attempts : list nat) (w : world) :
  last attempts = Some (max_retries - 1)%nat ->
  match fst (attempts_loop L X max_retries attempts w) with
  | Return (Some v) =>
      (exists k, openai X k = Return v)
      \/ (exists k e, openai X k = Raise e /\ is_quota e = true
                      /\ v = json_dumps L (image_quota_error (exn_msg e)))
  | Return None => False
  | Raise e => exists k, openai X k = Raise e /\ is_quota e = false
  end.
Proof.
  revert w. induction attempts as [|attempt rest IH]; intros w Hlast; [discriminate |].
  destruct (openai X (api_calls (trace w))) as [content|e] eqn:Hreply.
  - rewrite (attempt_success _ _ _ _ _ _ _ Hreply). cbn [fst]. left. eauto.
  - destruct (is_quota e) eqn:Hq.
    + rewrite (attempt_quota _ _ _ _ _ _ _ Hreply Hq). cbn [fst]. right. eauto.
    + destruct (Nat.eq_dec attempt (max_retries - 1)%nat) as [Heq|Hne].
      * rewrite (attempt_last _ _ _ _ _ _ _ Hreply Hq Heq). cbn [fst]. eauto.
      * rewrite (attempt_retry _ _ _ _ _ _ _ Hreply Hq Hne). apply IH.
        destruct rest as [|a rest']; [| exact Hlast].
        cbn in Hlast. congruence.
Qed.

(** X7: what [analyze_image] returns is a reply of the inference API, or the
    dump of one of its two error objects, each of which carries the key
    "error": the quota object after a quota failure, the "Analysis failed"
    object otherwise. *)
Theorem analyze_image_reply_or_error (L : pylib) (X : externals)
    (image_path : string) (w : world) :
  (exists v,
      fst (analyze_image L X image_path w) = Return (Some v)
      /\ ((exists k, openai X k = Return v)
          \/ (exists k e, openai X k = Raise e /\ is_quota e = true
                          /\ v = json_dumps L (image_quota_error (exn_msg e)))
          \/ (exists error_msg, v = json_dumps L (image_failed_error error_msg))))
  /\ (forall error_msg,
        error_in (image_quota_error error_msg) = Return true
        /\ error_in (image_failed_error error_msg) = Return true).
Proof.
  split; [| intros error_msg; split; reflexivity].
  destruct (files w !! image_path) as [image|] eqn:Himg.
  - rewrite (analyze_image_readable _ _ _ _ _ Himg).
    pose proof (attempts_loop_outcome L X 3 [0; 1; 2]%nat w eq_refl) as Hout.
    destruct (attempts_loop L X 3 [0; 1; 2]%nat w) as [[[v|]|e] w'];
      cbn [fst] in *.
    + exists v. split; [reflexivity |]. destruct Hout as [Hreply | Hquota]; auto.
    + contradiction.
    + eexists. split; [reflexivity |]. right. right. eauto.
  - rewrite (analyze_image_unreadable _ _ _ _ Himg). cbn [fst].
    eexists. split; [reflexivity |]. right. right. eauto.
Qed.

(** X8: [transcribe_audio] never raises and changes no file.  It sleeps the
    base delay once, sends at most one request, and returns the reply of the
    API unchanged or one of its two error sentences. *)
Theorem transcribe_audio_reply_or_error (X : externals) (audio_path : string)
    (w : world) :
  exists v evs,
    transcribe_audio X audio_path w = (Return v, with_events evs w)
    /\ (api_calls evs <= 1)%nat
    /\ total_sleep evs = 5
    /\ ((exists audio,
            files w !! audio_path = Some audio
            /\ openai X (api_calls (trace w)) = Return v)
        \/ v = transcription_quota_error
        \/ v = transcription_failed_error).
Proof.
  destruct (files w !! audio_path) as [audio|] eqn:Haudio.
  - rewrite (transcribe_audio_readable X _ _ w Haudio).
    destruct (openai X (api_calls (trace w))) as [response|e] eqn:Hreply.
    + eexists. eexists. split; [reflexivity |].
      repeat split; [cbn; lia | left; eauto].
    + destruct (is_quota e); eexists; eexists; (split; [reflexivity |]);
        repeat split; try (cbn; lia); auto.
  - unfold transcribe_audio, try_except.
    unfold bind at 1, sleep at 1, emit at 1. unfold bind at 1.
    rewrite with_event_one, read_file_events. unfold read_file. rewrite Haudio.
    cbn [fst]. destruct (Py.contains _ _).
    + unfold ret. eexists. eexists. split; [reflexivity |].
      repeat split; [cbn; lia | auto].
    + unfold bind, log, emit, ret. merge_events. eexists. eexists.
      split; [reflexivity |]. repeat split; [cbn; lia | auto].
Qed.

(** X9: [analyze_image] and [_create_summary_prompt] together: when every
    request for a key frame fails with the same exception, [analyze_image]
    returns the quota payload or, after three requests, the failure payload,
    with the message of the exception; and, provided [json.loads] reads that
    payload back, the summary prompt of results that hold it shows the key
    frame with its header and its OCR line only. *)
Theorem failed_analysis_left_out_of_prompt (L : pylib) (X : externals)
    (image_path image : string) (w : world) (e0 : exn) (ts : float) (ocr : string)
    (pre post : list frame_analysis) (a : option audio_analysis)
    (i : list frame_data) (s : option string) :
  let payload := if is_quota e0 then image_quota_error (exn_msg e0)
                 else image_failed_error (exn_msg e0) in
  let frame := FrameAnalysis ts ocr (Some (json_dumps L payload)) in
  files w !! image_path = Some image ->
  (forall k, openai X k = Raise e0) ->
  json_loads L (json_dumps L payload) = Return payload ->
  fst (analyze_image L X image_path w) = Return (Some (json_dumps L payload))
  /\ api_calls (trace (snd (analyze_image L X image_path w)))
     = (api_calls (trace w) + (if is_quota e0 then 1 else 3))%nat
  /\ _create_summary_prompt L (Results (pre ++ frame :: post) a i s)
     = prompt_with_frame L pre post a
         ("Момент " +:+ Py.format_1f ts +:+ "с:" +:+ nl
          +:+ (if String.eqb ocr EmptyString then EmptyString
               else "Найденный текст: " +:+ ocr +:+ nl)).
Proof.
  intros payload frame Himg Hfail Hback.
  assert (Hprompt : _create_summary_prompt L (Results (pre ++ frame :: post) a i s)
                    = prompt_with_frame L pre post a
                        (frame_header frame +:+ ocr_line frame)).
  { rewrite prompt_around.
    rewrite (vision_text_marked L frame _ payload eq_refl Hback).
    - now rewrite string_app_nil_l.
    - subst payload. destruct (is_quota e0); reflexivity. }
  assert (Htext : frame_header frame +:+ ocr_line frame
                  = "Момент " +:+ Py.format_1f ts +:+ "с:" +:+ nl
                    +:+ (if String.eqb ocr EmptyString then EmptyString
                         else "Найденный текст: " +:+ ocr +:+ nl)).
  { unfold frame_header, ocr_line, frame. cbn [fa_timestamp fa_ocr_text].
    now rewrite !string_app_assoc. }
  rewrite Hprompt, Htext. subst payload frame.
  destruct (is_quota e0) eqn:Hq.
  - rewrite (analyze_image_quota L X _ _ w e0 Himg (Hfail _) Hq).
    cbn [fst snd]. split; [reflexivity |]. split; [| reflexivity].
    rewrite api_calls_with_events. cbn. lia.
  - rewrite (analyze_image_three_failures L X _ _ w e0 e0 e0 Himg
               (Hfail _) Hq (Hfail _) Hq (Hfail _) Hq).
    cbn [fst snd]. split; [reflexivity |]. split; [| reflexivity].
    rewrite api_calls_with_events. cbn. lia.
Qed.

(** A key frame of an API that always times out. *)
Lemma failed_analysis_left_out_of_prompt_witness :
  fst (analyze_image Sample.lib
         (Sample.collaborators [] (fun _ => Raise Sample.timed_out))
         "temp/frame_0001.jpg" (Sample.world_with ["temp/frame_0001.jpg"]))
  = Return (Some (json_dumps Sample.lib (image_failed_error "Request timed out.")))
  /\ _create_summary_prompt Sample.lib
       (Results
          [FrameAnalysis 100%float "EXIT"
             (Some (json_dumps Sample.lib (image_failed_error "Request timed out.")))]
          None [] None)
     = "Проанализируйте следующее содержание видео для создания JSON-анализа:"
       +:+ nl +:+ nl +:+ "Ключевые кадры:" +:+ nl
       +:+ "Момент 100.0с:" +:+ nl
       +:+ "Найденный текст: EXIT" +:+ nl.
Proof.
  destruct (failed_analysis_left_out_of_prompt Sample.lib
              (Sample.collaborators [] (fun _ => Raise Sample.timed_out))
              "temp/frame_0001.jpg" "bytes" (Sample.world_with ["temp/frame_0001.jpg"])
              Sample.timed_out 100%float "EXIT" [] [] None [] None)
    as (Hreturned & _ & Hprompt).
  - reflexivity.
  - intros k. reflexivity.
  - vm_compute. reflexivity.
  - split; [exact Hreturned |]. etransitivity; [exact Hprompt |].
    vm_compute. reflexivity.
Defined.

(** ** The cost of a run *)

Lemma costs_le {A : Type} (m : M A) (c c' : nat) (s s' : Z) :
  costs m c s -> (c <= c')%nat -> s <= s' -> costs m c' s'.
Proof.
  intros Hm Hc Hs w. destruct (Hm w) as (evs & Htr & Hcalls & Hsleep).
  exists evs. split; [exact Htr |]. split; lia.
Qed.

(** A step that leaves the trace as it is costs nothing. *)
Lemma costs_same_trace {A : Type} (m : M A) :
  (forall w, trace (snd (m w)) = trace w) -> costs m 0 0.
Proof.
  intros Hm w. exists []. rewrite Hm, app_nil_r. repeat split; cbn; lia.
Qed.

Lemma costs_ret {A : Type} (a : A) : costs (ret a) 0 0.
Proof. now apply costs_same_trace. Qed.

Lemma costs_raise {A : Type} (e : exn) : costs (@raise A e) 0 0.
Proof. now apply costs_same_trace. Qed.

Lemma costs_lift {A : Type} (o : outcome A) : costs (lift o) 0 0.
Proof. now apply costs_same_trace. Qed.

Lemma costs_read_file (path : string) : costs (read_file path) 0 0.
Proof.
  apply costs_same_trace. intros w. unfold read_file.
  now destruct (files w !! path).
Qed.

Lemma costs_write_file (path content : string) : costs (write_file path content) 0 0.
Proof. now apply costs_same_trace. Qed.

Lemma costs_log (level msg : string) : costs (log level msg) 0 0.
Proof. intros w. exists [Log level msg]. repeat split; cbn; lia. Qed.

Lemma costs_print (line : string) : costs (print line) 0 0.
Proof. intros w. exists [Print line]. repeat split; cbn; lia. Qed.

Lemma costs_sleep (seconds : Z) : 0 <= seconds -> costs (sleep seconds) 0 seconds.
Proof.
  intros H w. exists [Sleep seconds]. split; [reflexivity |].
  split; [cbn; lia |].
  change (total_sleep [Sleep seconds]) with (seconds + 0). lia.
Qed.

Lemma costs_call_api (X : externals) (model : string) : costs (call_api X model) 1 0.
Proof. intros w. exists [ApiCall model]. repeat split; cbn; lia. Qed.

Lemma costs_subprocess_run (X : externals) (cmd : list string) :
  costs (subprocess_run X cmd) 0 0.
Proof.
  intros w. exists [Run cmd]. unfold subprocess_run.
  destruct (ffmpeg X cmd (files w)); repeat split; cbn; lia.
Qed.

Lemma costs_bind {A B : Type} (m : M A) (k : A -> M B) (P : A -> Prop)
    (c1 c2 c : nat) (s1 s2 s : Z) :
  costs m c1 s1 ->
  (forall w a, fst (m w) = Return a -> P a) ->
  (forall a, P a -> costs (k a) c2 s2) ->
  (c1 + c2 <= c)%nat -> s1 + s2 <= s -> 0 <= s2 ->
  costs (bind m k) c s.
Proof.
  intros Hm HP Hk Hc Hs Hs2 w. unfold bind.
  destruct (Hm w) as (evs & Htr & Hcalls & Hsleep). specialize (HP w).
  destruct (m w) as [[a|e] w1]; cbn [fst snd] in *.
  - destruct (Hk a (HP a eq_refl) w1) as (evs' & Htr' & Hcalls' & Hsleep').
    exists (evs ++ evs'). rewrite Htr', Htr, <- app_assoc.
    split; [reflexivity |]. rewrite api_calls_app, total_sleep_app. lia.
  - exists evs. split; [exact Htr |]. lia.
Qed.

(** After a step that costs nothing. *)
Lemma costs_then {A B : Type} (m : M A) (k : A -> M B) (c : nat) (s : Z) :
  costs m 0 0 -> (forall a, costs (k a) c s) -> 0 <= s -> costs (bind m k) c s.
Proof.
  intros Hm Hk Hs.
  apply (costs_bind m k (fun _ => True) 0 c c 0 s s); auto; lia.
Qed.

Lemma costs_try_except {A : Type} (body : M A) (handler : exn -> M A)
    (c : nat) (s : Z) :
  costs body c s -> (forall e, costs (handler e) 0 0) ->
  costs (try_except body handler) c s.
Proof.
  intros Hm Hk w. unfold try_except.
  destruct (Hm w) as (evs & Htr & Hcalls & Hsleep).
  destruct (body w) as [[a|e] w1]; cbn [fst snd] in *.
  - exists evs. split; [exact Htr |]. lia.
  - destruct (Hk e w1) as (evs' & Htr' & Hcalls' & Hsleep').
    exists (evs ++ evs'). rewrite Htr', Htr, <- app_assoc.
    split; [reflexivity |]. rewrite api_calls_app, total_sleep_app. lia.
Qed.

Lemma costs_mapM {A B : Type} (f : A -> M B) (l : list A) (c : nat) (s : Z) :
  (forall x, costs (f x) c s) ->
  costs (mapM f l) (length l * c) (Z.of_nat (length l) * s).
Proof.
  intros Hf. induction l as [|x l IH]; cbn [mapM].
  - apply costs_ret.
  - destruct (Hf x (World ∅ ∅ [])) as (evs & _ & _ & Hs).
    apply (costs_bind _ _ (fun _ => True) c (length l * c) _ s (Z.of_nat (length l) * s));
      [apply Hf | auto | | cbn [length]; lia | cbn [length]; lia | nia].
    intros y _.
    apply (costs_bind _ _ (fun _ => True) (length l * c) 0 _ (Z.of_nat (length l) * s) 0);
      [exact IH | auto | | lia | lia | lia].
    intros ys _. apply costs_ret.
Qed.

Lemma costs_for_each {A : Type} (l : list A) (body : A -> M unit) :
  (forall x, costs (body x) 0 0) -> costs (for_each l body) 0 0.
Proof.
  intros Hbody. induction l as [|x l IH]; cbn [for_each].
  - apply costs_ret.
  - apply costs_then; [apply Hbody | intros _; exact IH | lia].
Qed.

Lemma costs_mapM_free {A B : Type} (f : A -> M B) (l : list A) :
  (forall x, costs (f x) 0 0) -> costs (mapM f l) 0 0.
Proof.
  intros Hf.
  apply (costs_le _ (length l * 0) 0 (Z.of_nat (length l) * 0));
    [now apply costs_mapM | lia | lia].
Qed.

Lemma run_yt_dlp_costs (X : externals) (temp_dir url : string) :
  costs (run_yt_dlp X temp_dir url) 0 0.
Proof.
  apply costs_same_trace. intros w. unfold run_yt_dlp.
  now destruct (yt_dlp X url) as [[ext video]|e].
Qed.

Lemma cleanup_costs (X : externals) (temp_dir : string) :
  costs (cleanup X temp_dir) 0 0.
Proof.
  intros w. unfold cleanup. destruct (rmtree X temp_dir (files w)) as [[e fs]|].
  - exists [Log "ERROR" ("Error cleaning up: " +:+ exn_msg e)].
    repeat split; cbn; lia.
  - exists []. cbn [snd with_files trace]. rewrite app_nil_r.
    repeat split; cbn; lia.
Qed.

(** The steps that cost nothing, taken apart. *)
Ltac free :=
  repeat first
    [ apply costs_ret | apply costs_raise | apply costs_lift | apply costs_log
    | apply costs_print | apply costs_read_file | apply costs_write_file
    | apply costs_subprocess_run
    | apply run_yt_dlp_costs
    | apply cleanup_costs
    | apply costs_same_trace; intros ?; reflexivity
    | apply costs_mapM_free; intros ?
    | apply costs_for_each; intros ?
    | apply costs_then; [ | intros ? | lia ]
    | apply costs_try_except; [ | intros ? ]
    | match goal with
      | |- costs (if ?b then _ else _) _ _ => destruct b
      | |- costs (match ?o with Some _ => _ | None => _ end) _ _ => destruct o
      end ].

Lemma log_and_reraise_costs {A : Type} (X : externals)
    (ffmpeg_msg other_msg : string) (e : exn) :
  costs (@log_and_reraise X A ffmpeg_msg other_msg e) 0 0.
Proof. unfold log_and_reraise. free. Qed.

Lemma download_video_costs (X : externals) (temp_dir url : string) :
  costs (download_video X temp_dir url) 0 0.
Proof. unfold download_video. cbv zeta. free. Qed.

Lemma get_video_metadata_costs (X : externals) (video_path : string) :
  costs (get_video_metadata X video_path) 0 0.
Proof. unfold get_video_metadata. free. Qed.

Lemma extract_all_frames_costs (X : externals) (video_path output_dir : string)
    (fps : Z) :
  costs (extract_all_frames X video_path output_dir fps) 0 0.
Proof.
  unfold extract_all_frames. cbv zeta.
  apply costs_try_except; [| intros e; apply log_and_reraise_costs]. free.
Qed.

Lemma extract_frames_costs (X : externals) (temp_dir video_path : string) :
  costs (extract_frames X temp_dir video_path) 0 0.
Proof.
  unfold extract_frames. cbv zeta.
  apply costs_try_except; [| intros e; apply log_and_reraise_costs]. free.
Qed.

Lemma extract_audio_costs (X : externals) (temp_dir video_path : string) :
  costs (extract_audio X temp_dir video_path) 0 0.
Proof.
  unfold extract_audio. cbv zeta.
  apply costs_try_except; [| intros e; apply log_and_reraise_costs]. free.
Qed.

Lemma perform_ocr_costs (X : externals) (image_path : string) :
  costs (perform_ocr X image_path) 0 0.
Proof. unfold perform_ocr. free. Qed.

Lemma analyze_image_costs (L : pylib) (X : externals) (image_path : string) :
  costs (analyze_image L X image_path) 3 35.
Proof.
  intros w.
  destruct (analyze_image_timeline L X image_path w) as (n & evs & Hn & _ & Hsnd & Htl).
  exists evs. rewrite Hsnd. split; [reflexivity |].
  rewrite <- (api_calls_timeline evs), <- (total_sleep_timeline evs), Htl.
  destruct n as [|[|[|[|n]]]]; try lia; vm_compute; repeat split; try lia;
    discriminate.
Qed.

Lemma transcribe_audio_costs (X : externals) (audio_path : string) :
  costs (transcribe_audio X audio_path) 1 5.
Proof.
  unfold transcribe_audio. apply costs_try_except; [| intros e; free].
  apply (costs_bind _ _ (fun _ => True) 0 1 1 5 0 5);
    [apply costs_sleep; unfold base_delay; lia | auto | | lia | lia | lia].
  intros _ _. apply costs_then; [apply costs_read_file | intros audio | lia].
  apply (costs_bind _ _ (fun _ => True) 1 0 1 0 0 0);
    [apply costs_call_api | auto | | lia | lia | lia].
  intros response _. apply costs_ret.
Qed.

Lemma generate_summary_costs (L : pylib) (X : externals) (r : results) :
  costs (generate_summary L X r) 1 5.
Proof.
  unfold generate_summary. apply costs_try_except; [| intros e; free].
  apply (costs_bind _ _ (fun _ => True) 0 1 1 5 0 5);
    [apply costs_sleep; unfold base_delay; lia | auto | | lia | lia | lia].
  intros _ _. cbv zeta.
  apply (costs_bind _ _ (fun _ => True) 1 0 1 0 0 0);
    [apply costs_call_api | auto | | lia | lia | lia].
  intros response _. apply costs_ret.
Qed.

Lemma render_report_costs (L : pylib) (summary_text : string) :
  costs (render_report L summary_text) 0 0.
Proof. unfold render_report. free. Qed.

Lemma zip_write_costs (zip_path file_path arcname : string) :
  costs (zip_write zip_path file_path arcname) 0 0.
Proof. unfold zip_write. free. Qed.

Lemma create_results_archive_costs (L : pylib) (X : externals) (r : results)
    (output_dir : string) (md : video_metadata) :
  costs (create_results_archive L X r output_dir md) 0 0.
Proof.
  unfold create_results_archive. cbv zeta.
  apply costs_try_except; [| intros e; free].
  repeat first [ apply zip_write_costs
               | apply costs_for_each; intros ?
               | apply costs_then; [ | intros ? | lia ]
               | apply costs_write_file | apply costs_lift | apply costs_ret
               | apply costs_same_trace; intros ?; reflexivity ].
Qed.

Lemma summarize_and_archive_costs (L : pylib) (X : externals)
    (temp_dir output_dir : string) (md : video_metadata) (r : results) :
  costs (summarize_and_archive L X temp_dir output_dir md r) 1 5.
Proof.
  unfold summarize_and_archive.
  apply (costs_bind _ _ (fun _ => True) 1 0 1 5 0 5);
    [apply generate_summary_costs | auto | | lia | lia | lia].
  intros summary_text _. cbv zeta.
  apply costs_then; [apply render_report_costs | intros _ | lia].
  apply costs_then; [apply create_results_archive_costs | intros zip_path | lia].
  free.
Qed.

Lemma process_all_frames_costs (X : externals) (all_frames : list frame_info) :
  costs (process_all_frames X all_frames) 0 0.
Proof.
  unfold process_all_frames. apply costs_mapM_free. intros frame_info.
  apply costs_then; [apply perform_ocr_costs | intros ocr_text | lia].
  apply costs_ret.
Qed.

Lemma process_key_frames_costs (L : pylib) (X : externals) (key_frames : list frame) :
  costs (process_key_frames L X key_frames)
        (length key_frames * 3) (Z.of_nat (length key_frames) * 35).
Proof.
  unfold process_key_frames. apply costs_mapM. intros frame.
  apply costs_then; [apply perform_ocr_costs | intros ocr_text | lia].
  apply (costs_bind _ _ (fun _ => True) 3 0 3 35 0 35);
    [apply analyze_image_costs | auto | | lia | lia | lia].
  intros vision_analysis _. apply costs_ret.
Qed.

(** The key frames are never more than three. *)
Lemma extract_frames_length (X : externals) (temp_dir video_path : string)
    (w : world) (key_frames : list frame) :
  fst (extract_frames X temp_dir video_path w) = Return key_frames ->
  (length key_frames <= 3)%nat.
Proof.
  unfold extract_frames, try_except. cbv zeta.
  unfold bind at 1. destruct (subprocess_run X _ w) as [[[]|e] w1].
  2:{ match goal with
      | |- context [log_and_reraise X ?a ?b e w1] =>
          destruct (log_and_reraise_raises (A := list frame) X a b e w1)
            as (e' & w' & ->)
      end. discriminate. }
  unfold bind at 1, os_listdir at 1.
  unfold bind at 1, log at 1, emit at 1.
  match goal with
  | |- context [mapM ?f ?l ?w] => destruct (mapM f l w) as [[ys|e] w2] eqn:E
  end.
  - cbn [fst]. intros [= <-]. rewrite (mapM_length _ _ _ _ _ E), length_take. lia.
  - match goal with
    | |- context [log_and_reraise X ?a ?b e w2] =>
        destruct (log_and_reraise_raises (A := list frame) X a b e w2)
          as (e' & w' & ->)
    end. discriminate.
Qed.

(** X10: a run is bounded in what it asks of the inference API, whatever the
    video, the tools and the API do: at most eleven requests (three attempts
    for each of at most three key frames, one transcription, one summary) and
    at most 115 seconds of sleep before them. *)
Theorem run_cost (L : pylib) (X : externals) (url : string) (publish : bool)
    (w : world) :
  exists evs,
    trace (snd (analyze_video L X url publish w)) = trace w ++ evs
    /\ (api_calls evs <= 11)%nat
    /\ 0 <= total_sleep evs <= 115.
Proof.
  revert w. change (costs (analyze_video L X url publish) 11 115).
  unfold analyze_video. cbv zeta.
  apply costs_try_except; [| intros e; free].
  apply costs_then; [apply download_video_costs | intros video_path | lia].
  apply costs_then; [apply get_video_metadata_costs | intros video_metadata | lia].
  apply costs_then; [apply extract_all_frames_costs | intros all_frames | lia].
  apply (costs_bind _ _ (fun key_frames => (length key_frames <= 3)%nat)
           0 11 11 0 115 115);
    [apply extract_frames_costs | apply extract_frames_length | | lia | lia | lia].
  intros key_frames Hkey.
  apply costs_then; [apply process_all_frames_costs | intros all_frames_info | lia].
  apply (costs_bind _ _ (fun _ => True) 9 2 11 105 10 115);
    [| auto | | lia | lia | lia].
  { apply (costs_le _ _ _ _ _ (process_key_frames_costs L X key_frames)); lia. }
  intros frame_analyses _.
  apply costs_then; [apply extract_audio_costs | intros audio_path | lia].
  apply (costs_bind _ _ (fun _ => True) 1 1 2 5 5 10);
    [apply transcribe_audio_costs | auto | | lia | lia | lia].
  intros transcription _.
  apply costs_then; [unfold detect_music; apply costs_ret | intros music_detection | lia].
  apply (costs_bind _ _ (fun _ => True) 1 0 1 5 0 5);
    [apply summarize_and_archive_costs | auto | | lia | lia | lia].
  intros zip_path _. free.
Qed.

(** The bound is reached: three key frames and an API that always times out. *)
Example run_cost_reached :
  let run :=
    analyze_video Sample.lib
      (Sample.collaborators
         ["temp/frame_0001.jpg"; "temp/frame_0002.jpg"; "temp/frame_0003.jpg";
          "temp/audio.wav"]
         (fun _ => Raise Sample.timed_out))
      "https://example.org/video" false Sample.empty_world in
  fst run = Return Completed
  /\ api_calls (trace (snd run)) = 11%nat
  /\ total_sleep (trace (snd run)) = 115.
Proof. vm_compute. repeat split. Qed.

(** ** A run that completes *)

Lemma mapM_returns {A B : Type} (f : A -> M B) (l : list A) (w : world) :
  (forall x w1, exists y w2, f x w1 = (Return y, w2)) ->
  exists ys w', mapM f l w = (Return ys, w').
Proof.
  intros Hf. revert w. induction l as [|x l IH]; intros w; cbn [mapM].
  - unfold ret. eauto.
  - unfold bind at 1. destruct (Hf x w) as (y & w1 & ->).
    unfold bind at 1. destruct (IH w1) as (ys & w2 & ->).
    unfold ret. eauto.
Qed.

Lemma download_video_ok (X : externals) (temp_dir url ext video : string)
    (w : world) :
  yt_dlp X url = Return (ext, video) ->
  download_video X temp_dir url w
  = (Return (Py.join temp_dir ("video." +:+ ext)),
     World (<[Py.join temp_dir ("video." +:+ ext) := video]> (files w)) (archives w)
           (trace w ++ [Log "INFO" ("Attempting to download video from: " +:+ url);
                        Log "INFO" "Video download completed successfully"])).
Proof.
  intros H. unfold download_video, try_except. cbv zeta.
  unfold bind at 1, log at 1, emit at 1. unfold bind at 1, run_yt_dlp at 1.
  rewrite H. unfold bind, log, emit, ret, with_event, with_files.
  cbn [files archives trace]. now rewrite <- app_assoc.
Qed.

Lemma get_video_metadata_run (X : externals) (video_path : string) (w : world) :
  exists md w', get_video_metadata X video_path w = (Return md, w').
Proof.
  unfold get_video_metadata, try_except, lift.
  destruct (ffprobe X video_path); unfold bind, log, emit, ret; eauto.
Qed.

(** A loop whose body returns and leaves the world as it is. *)
Lemma mapM_pure {A B : Type} (f : A -> M B) (R : A -> B -> Prop) (l : list A)
    (w : world) :
  (forall x w1, exists y, f x w1 = (Return y, w1) /\ R x y) ->
  exists ys, mapM f l w = (Return ys, w) /\ Forall2 R l ys.
Proof.
  intros Hf. induction l as [|x l IH]; cbn [mapM].
  - unfold ret. eexists. split; [reflexivity | constructor].
  - unfold bind at 1. destruct (Hf x w) as (y & -> & Hy).
    unfold bind at 1. destruct IH as (ys & -> & Hys). unfold ret. eexists.
    split; [reflexivity |]. constructor; [exact Hy | exact Hys].
Qed.

Lemma extract_all_frames_ok (X : externals) (video_path output_dir : string)
    (fps : Z) (w : world) (fs : gmap string string) :
  ffmpeg X ["ffmpeg"; "-i"; video_path; "-vf"; "fps=" +:+ Py.str_int fps;
            "-frame_pts"; "1"; "-vsync"; "0";
            Py.join (Py.join output_dir "all_frames") "frame_%04d.jpg"] (files w)
  = Return fs ->
  exists frames_info evs,
    extract_all_frames X video_path output_dir fps w
    = (Return frames_info, World fs (archives w) (trace w ++ evs))
    /\ Forall2 (fun name info =>
                  exists t,
                    _get_frame_timestamp
                      (Py.join (Py.join output_dir "all_frames") name) = Return t
                    /\ info = FrameInfo (Py.join (Py.join output_dir "all_frames") name)
                                        t name)
               (Py.sorted
                  (List.filter (fun f => Py.startswith f "frame_")
                     (listdir (Py.join output_dir "all_frames") fs)))
               frames_info.
Proof.
  intros Hrun. unfold extract_all_frames, try_except. cbv zeta.
  unfold bind at 1, log at 1, emit at 1.
  unfold bind at 1, subprocess_run at 1. cbn [files with_event]. rewrite Hrun.
  unfold bind at 1, os_listdir at 1. cbn [files with_event with_files].
  unfold bind at 1.
  match goal with
  | |- context [mapM ?f ?names ?w1] =>
      destruct (mapM_pure f
                  (fun name info =>
                     exists t,
                       _get_frame_timestamp
                         (Py.join (Py.join output_dir "all_frames") name) = Return t
                       /\ info = FrameInfo
                                   (Py.join (Py.join output_dir "all_frames") name)
                                   t name)
                  names w1) as (ys & -> & Hall)
  end.
  { intros name w1. unfold bind, lift.
    destruct (timestamp_total (Py.join (Py.join output_dir "all_frames") name))
      as [t Ht].
    rewrite Ht. unfold ret. eauto. }
  unfold bind, log, emit, ret, with_event, with_files. cbn [files archives trace].
  eexists. eexists. split; [| exact Hall].
  rewrite <- !app_assoc. reflexivity.
Qed.

Lemma extract_frames_ok (X : externals) (temp_dir video_path : string)
    (w : world) (fs : gmap string string) :
  ffmpeg X ["ffmpeg"; "-i"; video_path; "-vf"; "select=gt(scene\,0.4)";
            "-vsync"; "0"; "-frame_pts"; "1";
            Py.join temp_dir "frame_%04d.jpg"] (files w)
  = Return fs ->
  exists key_frames evs,
    extract_frames X temp_dir video_path w
    = (Return key_frames, World fs (archives w) (trace w ++ evs))
    /\ Forall2 (fun name key_frame =>
                  exists t,
                    _get_frame_timestamp (Py.join temp_dir name) = Return t
                    /\ key_frame = Frame (Py.join temp_dir name) t)
               (take 3
                  (Py.sorted
                     (List.filter (fun f => Py.startswith f "frame_")
                        (listdir temp_dir fs))))
               key_frames.
Proof.
  intros Hrun. unfold extract_frames, try_except. cbv zeta.
  unfold bind at 1, subprocess_run at 1. rewrite Hrun.
  unfold bind at 1, os_listdir at 1. cbn [files with_event with_files].
  unfold bind at 1, log at 1, emit at 1.
  match goal with
  | |- context [mapM ?f ?names ?w1] =>
      destruct (mapM_pure f
                  (fun name key_frame =>
                     exists t,
                       _get_frame_timestamp (Py.join temp_dir name) = Return t
                       /\ key_frame = Frame (Py.join temp_dir name) t)
                  names w1) as (ys & -> & Hall)
  end.
  { intros name w1. unfold bind, lift.
    destruct (timestamp_total (Py.join temp_dir name)) as [t Ht].
    rewrite Ht. unfold ret. eauto. }
  unfold with_event, with_files. cbn [files archives trace].
  eexists. eexists. split; [| exact Hall].
  rewrite <- !app_assoc. reflexivity.
Qed.

Lemma extract_audio_ok (X : externals) (temp_dir video_path : string)
    (w : world) (fs : gmap string string) :
  ffmpeg X ["ffmpeg"; "-i"; video_path; "-ac"; "1"; "-ar"; "16000"; "-y";
            Py.join temp_dir "audio.wav"] (files w)
  = Return fs ->
  extract_audio X temp_dir video_path w
  = (Return (Py.join temp_dir "audio.wav"),
     World fs (archives w)
           (trace w ++ [Run ["ffmpeg"; "-i"; video_path; "-ac"; "1"; "-ar"; "16000";
                             "-y"; Py.join temp_dir "audio.wav"]])).
Proof.
  intros Hrun. unfold extract_audio, try_except. cbv zeta.
  unfold bind at 1, subprocess_run at 1. rewrite Hrun. reflexivity.
Qed.

Lemma process_all_frames_run (X : externals) (all_frames : list frame_info)
    (w : world) :
  exists all_frames_info w',
    process_all_frames X all_frames w = (Return all_frames_info, w').
Proof.
  apply mapM_returns. intros frame_info w1. unfold bind at 1.
  destruct (perform_ocr_returns X (fi_path frame_info) w1) as (text & w2 & ->).
  unfold ret. eauto.
Qed.

Lemma process_key_frames_run (L : pylib) (X : externals) (key_frames : list frame)
    (w : world) :
  exists frame_analyses w',
    process_key_frames L X key_frames w = (Return frame_analyses, w').
Proof.
  apply mapM_returns. intros frame w1. unfold bind at 1.
  destruct (perform_ocr_returns X (path frame) w1) as (text & w2 & ->).
  unfold bind at 1.
  destruct (analyze_image_run L X (path frame) w2) as (v & w3 & ->).
  unfold ret. eauto.
Qed.

Lemma transcribe_audio_run (X : externals) (audio_path : string) (w : world) :
  exists v w', transcribe_audio X audio_path w = (Return v, w').
Proof.
  destruct (files w !! audio_path) as [audio|] eqn:Haudio.
  - rewrite (transcribe_audio_readable X _ _ w Haudio).
    destruct (openai X (api_calls (trace w))) as [response|e]; [eauto |].
    destruct (is_quota e); eauto.
  - destruct (transcribe_audio_unreadable X _ w Haudio) as (v & evs & -> & _). eauto.
Qed.

(** After [cleanup] no file is left below the temporary directory. *)
Lemma cleanup_leaves_nothing (temp_dir : string) (fs : gmap string string) :
  paths_under temp_dir
    (filter (fun kv => strip_prefix (temp_dir +:+ "/") kv.1 = None) fs)
  = [].
Proof.
  match goal with
  | |- ?l = [] => destruct l as [|p rest] eqn:E; [reflexivity |]
  end.
  assert (Hin : In p (p :: rest)) by now left.
  rewrite <- E in Hin. apply paths_under_In in Hin as [[bytes Hp] [rest' Hpre]].
  apply map_lookup_filter_Some in Hp as [_ Hnone]. cbn in Hnone. congruence.
Qed.

(** What [cleanup] does to a world: the archives stay; when the directory is
    removed no file is left below it; when it is not, the failure is the last
    line logged. *)
Lemma cleanup_result (X : externals) (temp_dir : string) (w : world) :
  exists fs evs,
    cleanup X temp_dir w = (Return tt, World fs (archives w) (trace w ++ evs))
    /\ api_calls evs = 0%nat
    /\ (rmtree X temp_dir (files w) = None -> paths_under temp_dir fs = [])
    /\ (forall e fs', rmtree X temp_dir (files w) = Some (e, fs') ->
          fs = fs' /\ evs = [Log "ERROR" ("Error cleaning up: " +:+ exn_msg e)]).
Proof.
  unfold cleanup. destruct (rmtree X temp_dir (files w)) as [[e fs']|].
  - exists fs', [Log "ERROR" ("Error cleaning up: " +:+ exn_msg e)].
    split; [reflexivity |]. split; [reflexivity |].
    split; [discriminate |]. intros e0 fs0 [= <- <-]. now split.
  - eexists. exists []. unfold with_files. cbn [archives trace]. rewrite app_nil_r.
    split; [reflexivity |]. split; [reflexivity |].
    split; [intros _; apply cleanup_leaves_nothing | discriminate].
Qed.

(** The last stage of a run once the audio analysis is set: it returns the
    path of the archive, whose last two members are the report and the readme,
    and ends with [cleanup]. *)
Lemma summarize_and_archive_result (L : pylib) (X : externals)
    (temp_dir output_dir : string) (md : video_metadata) (r : results)
    (a : audio_analysis) (w : world) :
  audio r = Some a ->
  exists frame_members report readme fs0 fs evs0 evs,
    summarize_and_archive L X temp_dir output_dir md r w
    = (Return (Py.join output_dir "video_analysis.zip"),
       World fs
             (<[Py.join output_dir "video_analysis.zip"
                := frame_members ++ [("analysis.json", report); ("README.md", readme)]]>
                (archives w))
             (trace w ++ evs0 ++ evs))
    /\ (rmtree X temp_dir fs0 = None -> paths_under temp_dir fs = [])
    /\ (forall e fs', rmtree X temp_dir fs0 = Some (e, fs') ->
          evs = [Log "ERROR" ("Error cleaning up: " +:+ exn_msg e)]).
Proof.
  intros Haudio. unfold summarize_and_archive. unfold bind at 1.
  rewrite generate_summary_result. cbv zeta. unfold bind at 1.
  match goal with
  | |- context [render_report L ?text ?w1] =>
      destruct (render_report_result L text w1) as [evs ->]
  end.
  unfold bind at 1.
  match goal with
  | |- context [create_results_archive L X ?report output_dir md ?w1] =>
      pose proof (create_results_archive_result L X report a output_dir md w1) as Harch
  end.
  cbv zeta in Harch. rewrite (Harch Haudio).
  unfold bind at 1.
  match goal with
  | |- context [cleanup X temp_dir ?w1] =>
      destruct (cleanup_result X temp_dir w1) as (fs & evs1 & -> & _ & Hgone & Hkept)
  end.
  unfold ret, with_events. cbn [files archives trace] in *.
  rewrite <- !app_assoc.
  rewrite (app_assoc [Sleep 5; ApiCall "gpt-4o"] (report_header :: evs) evs1).
  eexists. eexists. eexists. eexists. exists fs. eexists. exists evs1.
  split; [reflexivity |].
  split; [exact Hgone |]. intros e fs' He. now destruct (Hkept e fs' He).
Qed.

(** The optional publication only prints and logs. *)
Lemma publish_step_result (X : externals) (publish : bool) (w : world) :
  exists evs,
    (if publish then
       try_except
         (let* repo_url := lift (publish_to_github X) in
          print ("✅ Код опубликован на GitHub: " +:+ repo_url))
         (fun e =>
            let* _ := log "ERROR" ("Ошибка при публикации на GitHub: " +:+ exn_msg e) in
            print "❌ Ошибка при публикации на GitHub")
     else ret tt) w
    = (Return tt, with_events evs w).
Proof.
  destruct publish.
  - unfold try_except, bind, lift.
    destruct (publish_to_github X) as [repo_url|e];
      unfold print, log, emit; merge_events; eauto.
  - exists []. now rewrite with_events_nil.
Qed.

(** X11: the only failures that stop a run are those of the download and of
    ffmpeg.  When the download succeeds and ffmpeg does not fail, the run ends
    normally whatever the probe, the OCR engine, the inference API, the
    removal of the temporary directory and the publication do, and it leaves
    the archive, whose last two members are the report and the readme.  When
    the temporary directory can be removed, no file is left below [temp];
    when it cannot, the run logs the failure of the cleanup and goes on. *)
Theorem run_completes (L : pylib) (X : externals) (url ext video : string)
    (publish : bool) (w : world) :
  let run := analyze_video L X url publish w in
  let zip_path := Py.join (Py.join "output" (strftime_stamp X)) "video_analysis.zip" in
  yt_dlp X url = Return (ext, video) ->
  (forall cmd fs, exists fs', ffmpeg X cmd fs = Return fs') ->
  fst run = Return Completed
  /\ (exists frame_members report readme,
         archives (snd run) !! zip_path
         = Some (frame_members ++ [("analysis.json", report); ("README.md", readme)]))
  /\ ((forall fs, rmtree X "temp" fs = None) ->
      paths_under "temp" (files (snd run)) = [])
  /\ (forall e,
        (forall fs, exists fs', rmtree X "temp" fs = Some (e, fs')) ->
        In (Log "ERROR" ("Error cleaning up: " +:+ exn_msg e)) (trace (snd run))).
Proof.
  intros run zip_path Hdl Hff.
  assert (Hrun : exists frame_members report readme fs0 fs ars tr evs evs',
             run = (Return Completed,
                    World fs
                      (<[zip_path := frame_members
                                     ++ [("analysis.json", report);
                                         ("README.md", readme)]]> ars)
                      (tr ++ evs ++ evs'))
             /\ (rmtree X "temp" fs0 = None -> paths_under "temp" fs = [])
             /\ (forall e fs', rmtree X "temp" fs0 = Some (e, fs') ->
                   evs = [Log "ERROR" ("Error cleaning up: " +:+ exn_msg e)])).
  2:{ destruct Hrun as (frame_members & report & readme & fs0 & fs & ars & tr
                        & evs & evs' & -> & Hgone & Hkept).
      cbn [fst snd files archives trace].
      split; [reflexivity |].
      split; [exists frame_members, report, readme; apply lookup_insert_eq |].
      split; [intros Hrm; apply Hgone, Hrm |].
      intros e Hrm. destruct (Hrm fs0) as [fs' Hfs'].
      rewrite (Hkept e fs' Hfs'). apply in_or_app. right.
      apply in_or_app. left. now left. }
  unfold run, zip_path, analyze_video. unfold try_except at 1. cbv zeta.
  unfold bind at 1. rewrite (download_video_ok X _ _ _ _ _ Hdl).
  unfold bind at 1.
  match goal with
  | |- context [get_video_metadata X ?p ?w1] =>
      destruct (get_video_metadata_run X p w1) as (md & w2 & ->)
  end.
  unfold bind at 1.
  match goal with
  | |- context [extract_all_frames X ?p ?o ?fps ?w1] =>
      destruct (Hff ["ffmpeg"; "-i"; p; "-vf"; "fps=" +:+ Py.str_int fps;
                     "-frame_pts"; "1"; "-vsync"; "0";
                     Py.join (Py.join o "all_frames") "frame_%04d.jpg"] (files w1))
        as [fs1 Hfs1];
      destruct (extract_all_frames_ok X p o fps w1 fs1 Hfs1)
        as (all_frames & evs1 & -> & _)
  end.
  unfold bind at 1.
  match goal with
  | |- context [extract_frames X ?t ?p ?w1] =>
      destruct (Hff ["ffmpeg"; "-i"; p; "-vf"; "select=gt(scene\,0.4)";
                     "-vsync"; "0"; "-frame_pts"; "1";
                     Py.join t "frame_%04d.jpg"] (files w1))
        as [fs2 Hfs2];
      destruct (extract_frames_ok X t p w1 fs2 Hfs2)
        as (key_frames & evs2 & -> & _)
  end.
  unfold bind at 1.
  match goal with
  | |- context [process_all_frames X ?l ?w1] =>
      destruct (process_all_frames_run X l w1) as (all_frames_info & w3 & ->)
  end.
  unfold bind at 1.
  match goal with
  | |- context [process_key_frames L X ?l ?w1] =>
      destruct (process_key_frames_run L X l w1) as (frame_analyses & w4 & ->)
  end.
  unfold bind at 1.
  match goal with
  | |- context [extract_audio X ?t ?p ?w1] =>
      destruct (Hff ["ffmpeg"; "-i"; p; "-ac"; "1"; "-ar"; "16000"; "-y";
                     Py.join t "audio.wav"] (files w1))
        as [fs3 Hfs3];
      rewrite (extract_audio_ok X t p w1 fs3 Hfs3)
  end.
  unfold bind at 1.
  match goal with
  | |- context [transcribe_audio X ?p ?w1] =>
      destruct (transcribe_audio_run X p w1) as (transcription & w5 & ->)
  end.
  unfold bind at 1, detect_music at 1, ret at 1.
  unfold bind at 1.
  match goal with
  | |- context [summarize_and_archive L X ?t ?o ?m ?r ?w1] =>
      destruct (summarize_and_archive_result L X t o m r _ w1 eq_refl)
        as (frame_members & report & readme & fs0 & fs4 & evs4 & evs5 & -> & Hgone
            & Hkept)
  end.
  unfold bind at 1.
  match goal with
  | |- context [(if publish then _ else _) ?w1] =>
      destruct (publish_step_result X publish w1) as [evs6 ->]
  end.
  unfold ret, with_events. cbn [files archives trace].
  exists frame_members, report, readme, fs0, fs4.
  eexists. exists (trace w5 ++ evs4), evs5, evs6.
  split; [now rewrite <- !app_assoc |]. split; [exact Hgone | exact Hkept].
Qed.

(** A run whose every request times out, with the publication asked for. *)
Lemma run_completes_witness :
  fst (analyze_video Sample.lib
         (Sample.collaborators
            ["output/20240101_120000/all_frames/frame_0000.jpg";
             "temp/frame_0001.jpg"; "temp/audio.wav"]
            (fun _ => Raise Sample.timed_out))
         "https://example.org/video" true Sample.empty_world)
  = Return Completed.
Proof.
  refine (proj1 (run_completes Sample.lib
                   (Sample.collaborators
                      ["output/20240101_120000/all_frames/frame_0000.jpg";
                       "temp/frame_0001.jpg"; "temp/audio.wav"]
                      (fun _ => Raise Sample.timed_out))
                   "https://example.org/video" "mp4" "video" true
                   Sample.empty_world eq_refl _)).
  intros cmd fs. eexists. reflexivity.
Defined.

(** A run on a machine where the temporary directory cannot be removed: it
    completes, and the files of [temp] are still there. *)
Example run_completes_without_cleanup :
  let run := analyze_video Sample.lib Sample.locked_temp
               "https://example.org/video" false Sample.empty_world in
  fst run = Return Completed
  /\ Py.sorted (paths_under "temp" (files (snd run)))
     = ["temp/audio.wav"; "temp/frame_0001.jpg"; "temp/video.mp4"]
  /\ In (Log "ERROR" "Error cleaning up: [Errno 13] Permission denied")
        (trace (snd run)).
Proof.
  vm_compute. split; [reflexivity |]. split; [reflexivity |].
  repeat (first [left; reflexivity | right]).
Qed.

Lemma get_video_metadata_events (X : externals) (video_path : string) (w : world) :
  exists md evs,
    get_video_metadata X video_path w = (Return md, with_events evs w)
    /\ api_calls evs = 0%nat.
Proof.
  unfold get_video_metadata, try_except, lift.
  destruct (ffprobe X video_path).
  - eexists. exists []. now rewrite with_events_nil.
  - unfold bind, log, emit, ret. merge_events. eexists. eexists.
    split; reflexivity.
Qed.

(** The [except] clauses of the extraction methods log one line at most, and
    raise. *)
Lemma log_and_reraise_result {A : Type} (X : externals)
    (ffmpeg_msg other_msg : string) (e : exn) (w : world) :
  exists evs,
    @log_and_reraise X A ffmpeg_msg other_msg e w
    = (Raise (reraised X e), with_events evs w)
    /\ api_calls evs = 0%nat.
Proof.
  unfold log_and_reraise, reraised.
  destruct (String.eqb _ _).
  - unfold bind at 1, lift at 1. destruct (stderr_decode X e) as [stderr|e'].
    + unfold bind, log, emit, raise. merge_events. eexists. split; reflexivity.
    + exists []. now rewrite with_events_nil.
  - unfold bind, log, emit, raise. merge_events. eexists. split; reflexivity.
Qed.

Lemma extract_all_frames_failed (X : externals) (video_path output_dir : string)
    (fps : Z) (w : world) (e : exn) :
  ffmpeg X (dense_frames_cmd video_path output_dir fps) (files w) = Raise e ->
  exists evs,
    extract_all_frames X video_path output_dir fps w
    = (Raise (reraised X e),
       World (ffmpeg_leftovers X (dense_frames_cmd video_path output_dir fps) (files w))
             (archives w) (trace w ++ evs))
    /\ api_calls evs = 0%nat.
Proof.
  intros Hrun. unfold extract_all_frames, try_except. cbv zeta.
  unfold bind at 1, log at 1, emit at 1.
  unfold bind at 1, subprocess_run at 1. cbn [files with_event].
  fold (dense_frames_cmd video_path output_dir fps). rewrite Hrun.
  match goal with
  | |- context [log_and_reraise X ?a ?b e ?w1] =>
      destruct (log_and_reraise_result (A := list frame_info) X a b e w1)
        as (evs & -> & Hevs)
  end.
  unfold with_events, with_event, with_files. cbn [files archives trace].
  rewrite <- !app_assoc. eexists. split; [reflexivity |].
  rewrite !api_calls_app, Hevs. reflexivity.
Qed.

(** X12: a failing ffmpeg is fatal before anything is spent: when the download
    succeeds and ffmpeg fails on the files as the download left them, the run
    ends with [sys.exit(1)], has sent no request and has made no archive; its
    last output is the line that shows the exception.  The cleanup is not run:
    the files are those the failed ffmpeg left. *)
Theorem failed_extraction_exits (L : pylib) (X : externals) (url ext video : string)
    (publish : bool) (w : world) (e : exn) :
  let run := analyze_video L X url publish w in
  let video_path := Py.join "temp" ("video." +:+ ext) in
  let cmd := dense_frames_cmd video_path (Py.join "output" (strftime_stamp X)) 1 in
  yt_dlp X url = Return (ext, video) ->
  ffmpeg X cmd (<[video_path := video]> (files w)) = Raise e ->
  fst run = Return (SysExit 1)
  /\ api_calls (trace (snd run)) = api_calls (trace w)
  /\ archives (snd run) = archives w
  /\ files (snd run) = ffmpeg_leftovers X cmd (<[video_path := video]> (files w))
  /\ last (trace (snd run))
     = Some (Print (nl +:+ "❌ Ошибка: " +:+ exn_msg (reraised X e))).
Proof.
  intros run video_path cmd Hdl Hff.
  assert (Hrun : exists evs,
             run = (Return (SysExit 1),
                    World (ffmpeg_leftovers X cmd (<[video_path := video]> (files w)))
                          (archives w)
                          (trace w
                           ++ evs
                           ++ [Print (nl +:+ "❌ Ошибка: "
                                      +:+ exn_msg (reraised X e))]))
             /\ api_calls evs = 0%nat).
  2:{ destruct Hrun as (evs & -> & Hcalls). cbn [fst snd files archives trace].
      split; [reflexivity |].
      split; [rewrite !api_calls_app, Hcalls; cbn; lia |].
      split; [reflexivity |]. split; [reflexivity |].
      rewrite !app_assoc. apply last_snoc. }
  unfold run, analyze_video. unfold try_except at 1. cbv zeta.
  unfold bind at 1. rewrite (download_video_ok X _ _ _ _ _ Hdl).
  unfold bind at 1.
  match goal with
  | |- context [get_video_metadata X ?p ?w1] =>
      destruct (get_video_metadata_events X p w1) as (md & evs1 & -> & Hevs1)
  end.
  unfold bind at 1. fold video_path.
  match goal with
  | |- context [extract_all_frames X ?p ?o ?fps ?w1] =>
      destruct (extract_all_frames_failed X p o fps w1 e Hff)
        as (evs2 & -> & Hevs2)
  end.
  unfold bind, log, print, emit, ret, with_event, with_events.
  cbn [files archives trace]. fold cmd.
  exists ([Log "INFO" ("Attempting to download video from: " +:+ url);
           Log "INFO" "Video download completed successfully"]
          ++ evs1 ++ evs2
          ++ [Log "ERROR" ("Ошибка при анализе видео: " +:+ exn_msg (reraised X e))]).
  split; [now rewrite <- !app_assoc |].
  rewrite !api_calls_app, Hevs1, Hevs2. reflexivity.
Qed.

(** A run on a machine whose ffmpeg cannot start. *)
Lemma failed_extraction_exits_witness :
  fst (analyze_video Sample.lib Sample.without_ffmpeg
         "https://example.org/video" false Sample.empty_world)
  = Return (SysExit 1).
Proof.
  exact (proj1 (failed_extraction_exits Sample.lib Sample.without_ffmpeg
                  "https://example.org/video" "mp4" "video" false
                  Sample.empty_world (Exn "FileNotFoundError" "ffmpeg")
                  eq_refl eq_refl)).
Defined.

(** ** The order of the frames *)

Lemma str_lt_irrefl (a : string) : Py.str_lt a a = false.
Proof.
  induction a as [|x a IH]; [reflexivity |].
  cbn [Py.str_lt]. now rewrite Z.ltb_irrefl.
Qed.

Lemma str_lt_asym (a b : string) : Py.str_lt a b = true -> Py.str_lt b a = false.
Proof.
  revert b. induction a as [|x a IH]; intros [|y b]; cbn [Py.str_lt]; try easy.
  destruct (Z.ltb_spec (Py.ord x) (Py.ord y)), (Z.ltb_spec (Py.ord y) (Py.ord x));
    try easy; try lia. apply IH.
Qed.

(** [a <= b] and [b <= c] give [a <= c], where [a <= b] is [not (b < a)]. *)
Lemma str_le_trans (a b c : string) :
  Py.str_lt b a = false -> Py.str_lt c b = false -> Py.str_lt c a = false.
Proof.
  revert b c. induction a as [|x a IH]; intros [|y b] [|z c];
    cbn [Py.str_lt]; try easy.
  destruct (Z.ltb_spec (Py.ord y) (Py.ord x)), (Z.ltb_spec (Py.ord x) (Py.ord y)),
           (Z.ltb_spec (Py.ord z) (Py.ord y)), (Z.ltb_spec (Py.ord y) (Py.ord z)),
           (Z.ltb_spec (Py.ord z) (Py.ord x)), (Z.ltb_spec (Py.ord x) (Py.ord z));
    try easy; try lia.
  apply IH.
Qed.

Lemma ord_inj (x y : ascii) : Py.ord x = Py.ord y -> x = y.
Proof.
  unfold Py.ord. intros H. apply N2Z.inj in H.
  rewrite <- (ascii_N_embedding x), <- (ascii_N_embedding y). now rewrite H.
Qed.

Lemma str_le_antisym (a b : string) :
  Py.str_lt a b = false -> Py.str_lt b a = false -> a = b.
Proof.
  revert b. induction a as [|x a IH]; intros [|y b]; cbn [Py.str_lt]; try easy.
  destruct (Z.ltb_spec (Py.ord x) (Py.ord y)), (Z.ltb_spec (Py.ord y) (Py.ord x));
    try easy; try lia.
  intros Hab Hba. rewrite (ord_inj x y) by lia. f_equal. now apply IH.
Qed.

Lemma str_lt_prefix (p a b : string) :
  Py.str_lt (p +:+ a) (p +:+ b) = Py.str_lt a b.
Proof.
  induction p as [|x p IH]; app_step; [reflexivity |].
  cbn [Py.str_lt]. now rewrite Z.ltb_irrefl.
Qed.

Lemma insert_sorted_perm (x : string) (l : list string) :
  Permutation (Py.insert_sorted x l) (x :: l).
Proof.
  induction l as [|y l IH]; cbn [Py.insert_sorted]; [reflexivity |].
  destruct (Py.str_lt y x); [| reflexivity].
  rewrite IH. apply perm_swap.
Qed.

Lemma sorted_perm (l : list string) : Permutation (Py.sorted l) l.
Proof.
  induction l as [|x l IH]; [reflexivity |].
  change (Py.sorted (x :: l)) with (Py.insert_sorted x (Py.sorted l)).
  now rewrite insert_sorted_perm, IH.
Qed.

Lemma insert_sorted_sorted (x : string) (l : list string) :
  StronglySorted (fun a b => Py.str_lt b a = false) l ->
  StronglySorted (fun a b => Py.str_lt b a = false) (Py.insert_sorted x l).
Proof.
  induction 1 as [|y l Hl IH Hy]; cbn [Py.insert_sorted].
  - repeat constructor.
  - destruct (Py.str_lt y x) eqn:Hyx.
    + constructor; [exact IH |].
      apply (Permutation_Forall (Permutation_sym (insert_sorted_perm x l))).
      constructor; [now apply str_lt_asym | exact Hy].
    + constructor; [now constructor |].
      constructor; [exact Hyx |].
      eapply Forall_impl; [exact Hy |]. cbn. intros z Hz.
      now apply (str_le_trans x y z).
Qed.

(** [sorted] puts its argument in non-decreasing order. *)
Lemma sorted_sorted (l : list string) :
  StronglySorted (fun a b => Py.str_lt b a = false) (Py.sorted l).
Proof.
  induction l as [|x l IH]; [constructor |].
  change (Py.sorted (x :: l)) with (Py.insert_sorted x (Py.sorted l)).
  now apply insert_sorted_sorted.
Qed.

Lemma decimal_from_acc (ds : string) (acc : Z) :
  decimal_from acc ds
  = acc * 10 ^ Z.of_nat (String.length ds) + decimal_from 0 ds.
Proof.
  revert acc. induction ds as [|c ds IH]; intros acc; cbn [decimal_from String.length].
  - change (10 ^ Z.of_nat 0) with 1. lia.
  - rewrite IH, (IH (10 * 0 + (Py.ord c - 48))).
    rewrite Nat2Z.inj_succ, Z.pow_succ_r by lia. lia.
Qed.

Lemma decimal_value_cons (c : ascii) (ds : string) :
  decimal_value (String c ds)
  = (Py.ord c - 48) * 10 ^ Z.of_nat (String.length ds) + decimal_value ds.
Proof.
  unfold decimal_value. cbn [decimal_from]. rewrite decimal_from_acc. lia.
Qed.

Lemma decimal_value_bound (ds : string) :
  Py.all_chars Py.is_digit ds = true ->
  0 <= decimal_value ds < 10 ^ Z.of_nat (String.length ds).
Proof.
  induction ds as [|c ds IH]; intros Hd.
  - cbn. lia.
  - cbn [Py.all_chars] in Hd. apply andb_true_iff in Hd as [Hc Hd].
    apply is_digit_range in Hc. specialize (IH Hd).
    rewrite decimal_value_cons. cbn [String.length].
    rewrite Nat2Z.inj_succ, Z.pow_succ_r by lia. nia.
Qed.

(** On numbers written with the same count of digits, the order of the texts
    is the order of the numbers. *)
Lemma digits_lt (a b s : string) :
  Py.all_chars Py.is_digit a = true -> Py.all_chars Py.is_digit b = true ->
  String.length a = String.length b ->
  Py.str_lt (a +:+ s) (b +:+ s) = (decimal_value a <? decimal_value b).
Proof.
  revert b. induction a as [|x a IH]; intros [|y b] Ha Hb Hlen; try discriminate.
  - app_step. rewrite str_lt_irrefl. reflexivity.
  - cbn [Py.all_chars] in Ha, Hb.
    apply andb_true_iff in Ha as [Hx Ha]. apply andb_true_iff in Hb as [Hy Hb].
    cbn [String.length] in Hlen. injection Hlen as Hlen.
    pose proof (decimal_value_bound a Ha) as Hva.
    pose proof (decimal_value_bound b Hb) as Hvb.
    rewrite !decimal_value_cons, <- Hlen in *.
    app_step. cbn [Py.str_lt]. rewrite (IH b Ha Hb Hlen).
    destruct (Z.ltb_spec (Py.ord x) (Py.ord y)), (Z.ltb_spec (Py.ord y) (Py.ord x)),
             (Z.ltb_spec (decimal_value a) (decimal_value b));
      try lia; symmetry; first [apply Z.ltb_lt | apply Z.ltb_ge]; nia.
Qed.

(** Distinct frame files with numbers of one width, sorted as text, are
    sorted by number. *)
Lemma numbered_names_sorted (width : nat) (names : list string) :
  Forall (fun name => exists ds,
              name = "frame_" +:+ ds +:+ ".jpg"
              /\ Py.all_chars Py.is_digit ds = true
              /\ String.length ds = width) names ->
  NoDup names ->
  StronglySorted (fun a b => Py.str_lt b a = false) names ->
  exists dss,
    names = map (fun ds => "frame_" +:+ ds +:+ ".jpg") dss
    /\ Forall (fun ds => Py.all_chars Py.is_digit ds = true
                         /\ String.length ds = width) dss
    /\ StronglySorted Z.lt (map decimal_value dss).
Proof.
  induction names as [|name names IH]; intros Hform Hnodup Hsorted.
  - exists []. repeat split; constructor.
  - inversion Hform as [|? ? (ds & -> & Hds & Hlen) Hform']; subst.
    inversion Hnodup as [|? ? Hfresh Hnodup']; subst.
    inversion Hsorted as [|? ? Hsorted' Hhead]; subst.
    destruct (IH Hform' Hnodup' Hsorted') as (dss & -> & Hdss & Hnum).
    exists (ds :: dss). split; [reflexivity |].
    split; [constructor; [split; [exact Hds | reflexivity] | exact Hdss] |].
    cbn [map]. constructor; [exact Hnum |].
    apply Forall_forall. intros v Hv.
    apply list_elem_of_In, in_map_iff in Hv as (ds' & <- & Hin).
    pose proof Hdss as Hall. rewrite Forall_forall in Hall.
    destruct (Hall ds' (proj2 (list_elem_of_In _ _) Hin)) as [Hds' Hlen'].
    rewrite Forall_forall in Hhead.
    assert (Hmem : In ("frame_" +:+ ds' +:+ ".jpg")
                      (map (fun ds => "frame_" +:+ ds +:+ ".jpg") dss))
      by (apply in_map_iff; eauto).
    pose proof (Hhead _ (proj2 (list_elem_of_In _ _) Hmem)) as Hle. cbn in Hle.
    rewrite str_lt_prefix, (digits_lt ds' ds ".jpg" Hds' Hds Hlen') in Hle.
    apply Z.ltb_ge in Hle.
    destruct (Z.eq_dec (decimal_value ds) (decimal_value ds')) as [Heq|Hne]; [| lia].
    exfalso. apply Hfresh. apply list_elem_of_In.
    replace ("frame_" +:+ ds +:+ ".jpg") with ("frame_" +:+ ds' +:+ ".jpg");
      [exact Hmem |].
    f_equal. apply str_le_antisym.
    + rewrite (digits_lt ds' ds ".jpg" Hds' Hds Hlen'). apply Z.ltb_ge. lia.
    + rewrite (digits_lt ds ds' ".jpg" Hds Hds' (eq_sym Hlen')). apply Z.ltb_ge. lia.
Qed.

Lemma frame_files_in_order (width : nat) (listing : list string) :
  NoDup listing -> numbered_frames width listing ->
  exists dss,
    Py.sorted (List.filter (fun f => Py.startswith f "frame_") listing)
    = map (fun ds => "frame_" +:+ ds +:+ ".jpg") dss
    /\ Forall (fun ds => Py.all_chars Py.is_digit ds = true
                         /\ String.length ds = width) dss
    /\ StronglySorted Z.lt (map decimal_value dss).
Proof.
  intros Hnodup Hform. apply numbered_names_sorted.
  - apply Forall_forall. intros name Hin. apply list_elem_of_In in Hin.
    apply (Permutation_in _ (sorted_perm _)) in Hin.
    apply filter_In in Hin as [Hin Hpre]. now apply Hform.
  - apply NoDup_ListNoDup.
    apply (Permutation_NoDup (Permutation_sym (sorted_perm _))).
    now apply List.NoDup_filter, NoDup_ListNoDup.
  - apply sorted_sorted.
Qed.

Lemma frame_number_of_frame_file (dir ds : string) :
  Py.all_chars Py.is_digit ds = true -> ds <> EmptyString ->
  frame_number (Py.join dir ("frame_" +:+ ds +:+ ".jpg")) = Return (decimal_value ds).
Proof.
  intros Hds Hne.
  change ("frame_" +:+ ds +:+ ".jpg") with ("frame" +:+ "_" +:+ ds +:+ "." +:+ "jpg").
  now apply frame_number_numbered.
Qed.

(** The entries made of numbered frame files carry the numbers of the
    files. *)
Lemma frame_entries_numbered {A : Type} (dir : string) (width : nat)
    (entry_path : A -> string) (make : string -> float -> A)
    (dss : list string) (entries : list A) :
  (0 < width)%nat ->
  (forall name t, entry_path (make name t) = Py.join dir name) ->
  Forall (fun ds => Py.all_chars Py.is_digit ds = true
                    /\ String.length ds = width) dss ->
  Forall2 (fun name entry =>
             exists t, _get_frame_timestamp (Py.join dir name) = Return t
                       /\ entry = make name t)
          (map (fun ds => "frame_" +:+ ds +:+ ".jpg") dss) entries ->
  Forall2 (fun entry n => frame_number (entry_path entry) = Return n)
          entries (map decimal_value dss)
  /\ map entry_path entries
     = map (fun ds => Py.join dir ("frame_" +:+ ds +:+ ".jpg")) dss.
Proof.
  intros Hwidth Hpath Hdss. revert entries.
  induction Hdss as [|ds dss [Hds Hlen] Hdss IH]; intros entries Hall;
    cbn [map] in *.
  - inversion Hall; subst. split; [constructor | reflexivity].
  - inversion Hall as [|? entry ? rest (t & _ & ->) Hrest]; subst.
    destruct (IH rest Hrest) as [Hnum Hpaths]. cbn [map]. rewrite Hpath, Hpaths.
    split; [| reflexivity]. constructor; [| exact Hnum].
    rewrite Hpath. apply frame_number_of_frame_file; [exact Hds |].
    intros ->. cbn [String.length] in *. lia.
Qed.

(** X13: the key frames come in the order of their numbers, lowest first, when
    the numbers of the frame files all have the same count of digits: the
    frame numbers of the key frames returned increase strictly, and a frame
    file that is left out has a number above all of them. *)
Theorem key_frames_in_numeric_order (X : externals) (temp_dir video_path : string)
    (w : world) (fs : gmap string string) (width : nat) :
  ffmpeg X ["ffmpeg"; "-i"; video_path; "-vf"; "select=gt(scene\,0.4)";
            "-vsync"; "0"; "-frame_pts"; "1";
            Py.join temp_dir "frame_%04d.jpg"] (files w)
  = Return fs ->
  (0 < width)%nat ->
  numbered_frames width (listdir temp_dir fs) ->
  exists key_frames numbers,
    fst (extract_frames X temp_dir video_path w) = Return key_frames
    /\ Forall2 (fun key_frame n => frame_number (path key_frame) = Return n)
               key_frames numbers
    /\ StronglySorted Z.lt numbers
    /\ (forall name,
          In name (listdir temp_dir fs) -> Py.startswith name "frame_" = true ->
          In (Py.join temp_dir name) (map path key_frames)
          \/ exists n, frame_number (Py.join temp_dir name) = Return n
                       /\ Forall (fun m => m < n) numbers).
Proof.
  intros Hrun Hwidth Hform.
  destruct (extract_frames_ok X temp_dir video_path w fs Hrun)
    as (key_frames & evs & Heq & Hall).
  destruct (frame_files_in_order width (listdir temp_dir fs)
              (NoDup_remove_dups _) Hform) as (dss & Hnames & Hdss & Hnum).
  rewrite Hnames in Hall. rewrite <- fmap_take in Hall.
  assert (Htake : Forall (fun ds => Py.all_chars Py.is_digit ds = true
                                    /\ String.length ds = width) (take 3 dss))
    by now apply Forall_take.
  destruct (frame_entries_numbered temp_dir width path
              (fun name t => Frame (Py.join temp_dir name) t)
              (take 3 dss) key_frames Hwidth (fun _ _ => eq_refl)
              Htake Hall) as [Hnumbers Hpaths].
  rewrite <- (take_drop 3 dss), map_app in Hnum.
  exists key_frames, (map decimal_value (take 3 dss)).
  split; [now rewrite Heq |]. split; [exact Hnumbers |].
  split; [exact (StronglySorted_app_1_l _ _ _ Hnum) |].
  intros name Hin Hpre.
  assert (Hname : In name (map (fun ds => "frame_" +:+ ds +:+ ".jpg") dss)).
  { rewrite <- Hnames. apply (Permutation_in _ (Permutation_sym (sorted_perm _))).
    apply filter_In. now split. }
  apply in_map_iff in Hname as (ds & <- & Hds).
  rewrite <- (take_drop 3 dss) in Hds. apply in_app_or in Hds as [Hkept | Hdrop].
  - left. rewrite Hpaths. apply in_map_iff. eauto.
  - right. exists (decimal_value ds).
    rewrite Forall_forall in Hdss.
    destruct (Hdss ds) as [Hdigits Hlen].
    { apply list_elem_of_In. rewrite <- (take_drop 3 dss). apply in_or_app. now right. }
    split.
    + apply frame_number_of_frame_file; [exact Hdigits |].
      intros ->. cbn in Hlen. lia.
    + apply Forall_forall. intros m Hm.
      apply (StronglySorted_app_1_elem_of _ _ _ m (decimal_value ds) Hnum Hm).
      apply list_elem_of_In, in_map. exact Hdrop.
Qed.

(** Four key frames numbered with four digits, written next to the audio. *)
Lemma key_frames_in_numeric_order_witness :
  exists key_frames numbers,
    fst (extract_frames
           (Sample.collaborators
              ["temp/frame_0300.jpg"; "temp/frame_0090.jpg"; "temp/frame_1200.jpg";
               "temp/frame_0150.jpg"; "temp/audio.wav"] Sample.no_api)
           "temp" "temp/video.mp4" Sample.empty_world)
    = Return key_frames
    /\ Forall2 (fun key_frame n => frame_number (path key_frame) = Return n)
               key_frames numbers
    /\ StronglySorted Z.lt numbers.
Proof.
  destruct (key_frames_in_numeric_order
              (Sample.collaborators
                 ["temp/frame_0300.jpg"; "temp/frame_0090.jpg"; "temp/frame_1200.jpg";
                  "temp/frame_0150.jpg"; "temp/audio.wav"] Sample.no_api)
              "temp" "temp/video.mp4" Sample.empty_world _ 4 eq_refl)
    as (key_frames & numbers & Hrun & Hnumbers & Hsorted & _).
  - lia.
  - intros name Hin Hpre. vm_compute in Hin.
    repeat (destruct Hin as [<- | Hin]); try contradiction;
      try (vm_compute in Hpre; discriminate Hpre);
      match goal with
      | |- exists ds, ?name = _ /\ _ => exists (String.substring 6 4 name)
      end; vm_compute; repeat split.
  - exists key_frames, numbers. repeat split; assumption.
Defined.

Lemma frame_info_filenames (dir : string) (names : list string)
    (frames_info : list frame_info) :
  Forall2 (fun name info =>
             exists t, _get_frame_timestamp (Py.join dir name) = Return t
                       /\ info = FrameInfo (Py.join dir name) t name)
          names frames_info ->
  map fi_filename frames_info = names.
Proof.
  induction 1 as [|name info names frames_info (t & _ & ->) _ IH]; [reflexivity |].
  cbn [map fi_filename]. now rewrite IH.
Qed.

(** X14: the dense frames are all there, once each, and in the order of their
    numbers when the numbers all have the same count of digits:
    [extract_all_frames] returns one entry for each frame file of the frame
    directory, and the frame numbers of the entries increase strictly. *)
Theorem dense_frames_in_numeric_order (X : externals)
    (video_path output_dir : string) (fps : Z) (w : world)
    (fs : gmap string string) (width : nat) :
  let frames_dir := Py.join output_dir "all_frames" in
  ffmpeg X ["ffmpeg"; "-i"; video_path; "-vf"; "fps=" +:+ Py.str_int fps;
            "-frame_pts"; "1"; "-vsync"; "0";
            Py.join frames_dir "frame_%04d.jpg"] (files w)
  = Return fs ->
  (0 < width)%nat ->
  numbered_frames width (listdir frames_dir fs) ->
  exists frames_info numbers,
    fst (extract_all_frames X video_path output_dir fps w) = Return frames_info
    /\ Forall2 (fun info n => frame_number (fi_path info) = Return n)
               frames_info numbers
    /\ StronglySorted Z.lt numbers
    /\ NoDup (map fi_filename frames_info)
    /\ (forall name,
          In name (map fi_filename frames_info)
          <-> In name (listdir frames_dir fs) /\ Py.startswith name "frame_" = true).
Proof.
  intros frames_dir Hrun Hwidth Hform.
  destruct (extract_all_frames_ok X video_path output_dir fps w fs Hrun)
    as (frames_info & evs & Heq & Hall).
  fold frames_dir in Hall.
  pose proof (frame_info_filenames frames_dir _ _ Hall) as Hfiles.
  destruct (frame_files_in_order width (listdir frames_dir fs)
              (NoDup_remove_dups _) Hform) as (dss & Hnames & Hdss & Hnum).
  rewrite Hnames in Hall.
  destruct (frame_entries_numbered frames_dir width fi_path
              (fun name t => FrameInfo (Py.join frames_dir name) t name)
              dss frames_info Hwidth (fun _ _ => eq_refl) Hdss Hall)
    as [Hnumbers _].
  exists frames_info, (map decimal_value dss).
  split; [now rewrite Heq |]. split; [exact Hnumbers |].
  split; [exact Hnum |]. rewrite Hfiles. split.
  - apply NoDup_ListNoDup.
    apply (Permutation_NoDup (Permutation_sym (sorted_perm _))).
    apply List.NoDup_filter, NoDup_ListNoDup, NoDup_remove_dups.
  - intros name. split.
    + intros Hin. apply (Permutation_in _ (sorted_perm _)) in Hin.
      now apply filter_In in Hin.
    + intros Hin. apply (Permutation_in _ (Permutation_sym (sorted_perm _))).
      now apply filter_In.
Qed.

(** The dense frames of a 10-second video. *)
Lemma dense_frames_in_numeric_order_witness :
  exists frames_info numbers,
    fst (extract_all_frames
           (Sample.collaborators Sample.dense_frames_10s Sample.no_api)
           "temp/video.mp4" "output/20240101_120000" 1 Sample.empty_world)
    = Return frames_info
    /\ Forall2 (fun info n => frame_number (fi_path info) = Return n)
               frames_info numbers
    /\ StronglySorted Z.lt numbers.
Proof.
  destruct (dense_frames_in_numeric_order
              (Sample.collaborators Sample.dense_frames_10s Sample.no_api)
              "temp/video.mp4" "output/20240101_120000" 1 Sample.empty_world _ 4
              eq_refl)
    as (frames_info & numbers & Hrun & Hnumbers & Hsorted & _).
  - lia.
  - intros name Hin Hpre. vm_compute in Hin.
    repeat (destruct Hin as [<- | Hin]); try contradiction;
      match goal with
      | |- exists ds, ?name = _ /\ _ => exists (String.substring 6 4 name)
      end; vm_compute; repeat split.
  - exists frames_info, numbers. repeat split; assumption.
Defined.

(** ** A video without sound *)

Lemma events_only_mapM {A B : Type} (f : A -> M B) (l : list A) :
  (forall x, events_only (f x)) -> events_only (mapM f l).
Proof.
  intros Hf. induction l as [|x l IH]; cbn [mapM].
  - apply events_only_ret.
  - apply events_only_bind; [apply Hf | intros y].
    apply events_only_bind; [exact IH | intros ys]. apply events_only_ret.
Qed.

Lemma perform_ocr_events_only (X : externals) (image_path : string) :
  events_only (perform_ocr X image_path).
Proof.
  unfold perform_ocr. apply events_only_try_except; [apply events_only_lift |].
  intros e. apply events_only_bind; [apply events_only_emit | intros _].
  apply events_only_ret.
Qed.

Lemma analyze_image_events_only (L : pylib) (X : externals) (image_path : string) :
  events_only (analyze_image L X image_path).
Proof.
  intros w.
  destruct (analyze_image_timeline L X image_path w) as (n & evs & _ & _ & Hsnd & _).
  eauto.
Qed.

Lemma process_all_frames_events_only (X : externals) (all_frames : list frame_info) :
  events_only (process_all_frames X all_frames).
Proof.
  apply events_only_mapM. intros frame_info.
  apply events_only_bind; [apply perform_ocr_events_only | intros ocr_text].
  apply events_only_ret.
Qed.

Lemma process_key_frames_events_only (L : pylib) (X : externals)
    (key_frames : list frame) :
  events_only (process_key_frames L X key_frames).
Proof.
  apply events_only_mapM. intros frame.
  apply events_only_bind; [apply perform_ocr_events_only | intros ocr_text].
  apply events_only_bind; [apply analyze_image_events_only | intros vision_analysis].
  apply events_only_ret.
Qed.

(** A computation that returns and only adds events. *)
Lemma events_only_run {A : Type} (m : M A) (w : world) :
  events_only m -> (exists a w', m w = (Return a, w')) ->
  exists a evs, m w = (Return a, with_events evs w).
Proof.
  intros Hev (a & w' & Hrun). destruct (Hev w) as [evs Hevs].
  rewrite Hrun in Hevs. cbn [snd] in Hevs. subst w'. eauto.
Qed.

(** The events of the two frame extractions when ffmpeg succeeds. *)
Lemma extract_all_frames_trace (X : externals) (video_path output_dir : string)
    (fps : Z) (w : world) (fs : gmap string string) :
  ffmpeg X (dense_frames_cmd video_path output_dir fps) (files w) = Return fs ->
  exists frames_info,
    extract_all_frames X video_path output_dir fps w
    = (Return frames_info,
       World fs (archives w)
         (trace w
          ++ [Log "INFO" ("Extracting all frames with fps=" +:+ Py.str_int fps);
              Run (dense_frames_cmd video_path output_dir fps);
              Log "INFO" ("Saved " +:+ Py.str_int (Z.of_nat (length frames_info))
                          +:+ " frames to " +:+ Py.join output_dir "all_frames")])).
Proof.
  intros Hrun. unfold dense_frames_cmd in *.
  unfold extract_all_frames, try_except. cbv zeta.
  unfold bind at 1, log at 1, emit at 1.
  unfold bind at 1, subprocess_run at 1. cbn [files with_event]. rewrite Hrun.
  unfold bind at 1, os_listdir at 1. cbn [files with_event with_files].
  unfold bind at 1.
  match goal with
  | |- context [mapM ?f ?names ?w1] =>
      destruct (mapM_pure f (fun _ _ => True) names w1) as (ys & -> & _)
  end.
  { intros name w1. unfold bind, lift.
    destruct (timestamp_total (Py.join (Py.join output_dir "all_frames") name))
      as [t Ht].
    rewrite Ht. unfold ret. eauto. }
  unfold bind, log, emit, ret, with_event, with_files. cbn [files archives trace].
  exists ys. rewrite <- !app_assoc. reflexivity.
Qed.

Lemma extract_frames_trace (X : externals) (temp_dir video_path : string)
    (w : world) (fs : gmap string string) :
  ffmpeg X (key_frames_cmd video_path temp_dir) (files w) = Return fs ->
  exists key_frames,
    extract_frames X temp_dir video_path w
    = (Return key_frames,
       World fs (archives w)
         (trace w
          ++ [Run (key_frames_cmd video_path temp_dir);
              Log "INFO" ("Extracted " +:+ Py.str_int (Z.of_nat (length key_frames))
                          +:+ " frames for analysis")])).
Proof.
  intros Hrun. unfold key_frames_cmd in *.
  unfold extract_frames, try_except. cbv zeta.
  unfold bind at 1, subprocess_run at 1. rewrite Hrun.
  unfold bind at 1, os_listdir at 1. cbn [files with_event with_files].
  unfold bind at 1, log at 1, emit at 1.
  match goal with
  | |- context [mapM ?f ?names ?w1] =>
      destruct (mapM_pure f (fun _ _ => True) names w1) as (ys & Hys & Hall)
  end.
  { intros name w1. unfold bind, lift.
    destruct (timestamp_total (Py.join temp_dir name)) as [t Ht].
    rewrite Ht. unfold ret. eauto. }
  rewrite Hys. exists ys. rewrite (Forall2_length _ _ _ Hall).
  unfold with_event, with_files. cbn [files archives trace].
  rewrite <- !app_assoc. reflexivity.
Qed.

(** X15: a video from which ffmpeg cannot take the sound cannot be analysed:
    when the download and both frame extractions succeed and the audio
    extraction fails, the run ends with [sys.exit(1)] and makes no archive,
    its last output being the line that shows [str(e)] of the exception that
    [extract_audio] lets through.  By the time ffmpeg is run for the sound,
    both frame extractions have returned, the OCR loop over the dense frames
    and the analysis loop over the key frames have run to their end, and
    every request of the run has been sent: what the analysis of the key
    frames has cost is lost. *)
Theorem failed_audio_extraction_exits (L : pylib) (X : externals)
    (url ext video : string) (publish : bool) (w : world) (e : exn) :
  let run := analyze_video L X url publish w in
  let video_path := Py.join "temp" ("video." +:+ ext) in
  let output_dir := Py.join "output" (strftime_stamp X) in
  yt_dlp X url = Return (ext, video) ->
  (forall cmd fs, cmd !! 3%nat = Some "-vf" -> exists fs', ffmpeg X cmd fs = Return fs') ->
  (forall fs, ffmpeg X (audio_cmd video_path "temp") fs = Raise e) ->
  fst run = Return (SysExit 1)
  /\ archives (snd run) = archives w
  /\ last (trace (snd run))
     = Some (Print (nl +:+ "❌ Ошибка: " +:+ exn_msg (reraised X e)))
  /\ exists before after,
       trace (snd run)
       = trace w ++ before ++ Run (audio_cmd video_path "temp") :: after
       /\ In (Run (dense_frames_cmd video_path output_dir 1)) before
       /\ In (Run (key_frames_cmd video_path "temp")) before
       /\ api_calls after = 0%nat
       /\ exists w1 w2 w3 w4 w5 all_frames key_frames all_frames_info frame_analyses,
            extract_all_frames X video_path output_dir 1 w1 = (Return all_frames, w2)
            /\ extract_frames X "temp" video_path w2 = (Return key_frames, w3)
            /\ process_all_frames X all_frames w3 = (Return all_frames_info, w4)
            /\ process_key_frames L X key_frames w4 = (Return frame_analyses, w5)
            /\ trace w5 = trace w ++ before.
Proof.
  intros run video_path output_dir Hdl Hframes Haudio.
  assert (Hrun : exists fs before after,
             run = (Return (SysExit 1),
                    World fs (archives w)
                      (trace w ++ before
                       ++ Run (audio_cmd video_path "temp")
                          :: after
                          ++ [Print (nl +:+ "❌ Ошибка: "
                                     +:+ exn_msg (reraised X e))]))
             /\ In (Run (dense_frames_cmd video_path output_dir 1)) before
             /\ In (Run (key_frames_cmd video_path "temp")) before
             /\ api_calls after = 0%nat
             /\ exists w1 w2 w3 w4 w5 all_frames key_frames all_frames_info
                       frame_analyses,
                  extract_all_frames X video_path output_dir 1 w1
                  = (Return all_frames, w2)
                  /\ extract_frames X "temp" video_path w2 = (Return key_frames, w3)
                  /\ process_all_frames X all_frames w3
                     = (Return all_frames_info, w4)
                  /\ process_key_frames L X key_frames w4
                     = (Return frame_analyses, w5)
                  /\ trace w5 = trace w ++ before).
  2:{ destruct Hrun as (fs & before & after & -> & Hdense & Hkey & Hafter & Hsteps).
      cbn [fst snd archives trace].
      split; [reflexivity |]. split; [reflexivity |]. split.
      - rewrite app_assoc, app_comm_cons, app_assoc. apply last_snoc.
      - exists before. eexists. split; [reflexivity |].
        split; [exact Hdense |]. split; [exact Hkey |].
        split; [| exact Hsteps].
        rewrite api_calls_app, Hafter. reflexivity. }
  unfold run, analyze_video. unfold try_except at 1. cbv zeta.
  unfold bind at 1. rewrite (download_video_ok X _ _ _ _ _ Hdl).
  fold video_path output_dir. unfold bind at 1.
  match goal with
  | |- context [get_video_metadata X ?p ?w1] =>
      destruct (get_video_metadata_events X p w1) as (md & evs0 & -> & _)
  end.
  unfold bind at 1.
  match goal with
  | |- context [extract_all_frames X ?p ?o ?fps ?w1] =>
      destruct (Hframes (dense_frames_cmd p o fps) (files w1) eq_refl)
        as [fs1 Hfs1];
      destruct (extract_all_frames_trace X p o fps w1 fs1 Hfs1)
        as (all_frames & Hstep1)
  end.
  rewrite Hstep1. unfold bind at 1.
  match goal with
  | |- context [extract_frames X ?t ?p ?w1] =>
      destruct (Hframes (key_frames_cmd p t) (files w1) eq_refl)
        as [fs2 Hfs2];
      destruct (extract_frames_trace X t p w1 fs2 Hfs2)
        as (key_frames & Hstep2)
  end.
  rewrite Hstep2. unfold bind at 1.
  match goal with
  | |- context [process_all_frames X ?l ?w1] =>
      destruct (events_only_run _ w1 (process_all_frames_events_only X l)
                  (process_all_frames_run X l w1))
        as (all_frames_info & evs3 & Hstep3)
  end.
  rewrite Hstep3. unfold bind at 1.
  match goal with
  | |- context [process_key_frames L X ?l ?w1] =>
      destruct (events_only_run _ w1 (process_key_frames_events_only L X l)
                  (process_key_frames_run L X l w1))
        as (frame_analyses & evs4 & Hstep4)
  end.
  rewrite Hstep4.
  unfold bind at 1. unfold extract_audio, try_except. cbv zeta.
  unfold bind at 1, subprocess_run at 1.
  fold (audio_cmd video_path "temp"). rewrite Haudio.
  match goal with
  | |- context [log_and_reraise X ?a ?b e ?w1] =>
      destruct (log_and_reraise_result (A := string) X a b e w1)
        as (evs5 & -> & Hevs5)
  end.
  unfold bind, log, print, emit, ret, with_event, with_events, with_files.
  cbn [files archives trace].
  eexists.
  exists ([Log "INFO" ("Attempting to download video from: " +:+ url);
           Log "INFO" "Video download completed successfully"]
          ++ evs0
          ++ [Log "INFO" ("Extracting all frames with fps=" +:+ Py.str_int 1);
              Run (dense_frames_cmd video_path output_dir 1);
              Log "INFO" ("Saved " +:+ Py.str_int (Z.of_nat (length all_frames))
                          +:+ " frames to " +:+ Py.join output_dir "all_frames")]
          ++ [Run (key_frames_cmd video_path "temp");
              Log "INFO" ("Extracted " +:+ Py.str_int (Z.of_nat (length key_frames))
                          +:+ " frames for analysis")]
          ++ evs3 ++ evs4).
  exists (evs5
          ++ [Log "ERROR" ("Ошибка при анализе видео: " +:+ exn_msg (reraised X e))]).
  split.
  { rewrite <- ?app_assoc. cbn [app]. rewrite <- ?app_assoc. reflexivity. }
  split.
  { apply in_or_app. right. apply in_or_app. right. apply in_or_app. left.
    right. now left. }
  split.
  { apply in_or_app. right. apply in_or_app. right. apply in_or_app. right.
    apply in_or_app. left. now left. }
  split.
  { rewrite api_calls_app, Hevs5. reflexivity. }
  do 5 eexists. exists all_frames, key_frames, all_frames_info, frame_analyses.
  split; [exact Hstep1 |]. split; [exact Hstep2 |].
  split; [exact Hstep3 |]. split; [exact Hstep4 |].
  unfold with_events. cbn [files archives trace].
  rewrite <- ?app_assoc. cbn [app]. rewrite <- ?app_assoc. reflexivity.
Qed.

(** A video without an audio stream. *)
Lemma failed_audio_extraction_exits_witness :
  fst (analyze_video Sample.lib Sample.silent_video
         "https://example.org/video" false Sample.empty_world)
  = Return (SysExit 1).
Proof.
  refine (proj1 (failed_audio_extraction_exits Sample.lib Sample.silent_video
                   "https://example.org/video" "mp4" "video" false
                   Sample.empty_world Sample.no_audio_stream eq_refl _ _)).
  - intros cmd fs Hcmd. cbn [ffmpeg Sample.silent_video]. rewrite Hcmd.
    rewrite bool_decide_eq_true_2 by reflexivity. eexists. reflexivity.
  - intros fs. reflexivity.
Defined.

(** The same run: one request was sent, for the key frame, and what is
    printed last is [str(e)], not the stderr that was logged. *)
Example failed_audio_extraction_after_analysis :
  let run := analyze_video Sample.lib Sample.silent_video
               "https://example.org/video" false Sample.empty_world in
  api_calls (trace (snd run)) = 1%nat
  /\ In (Log "ERROR" "FFmpeg error: Output file does not contain any stream")
        (trace (snd run))
  /\ last (trace (snd run))
     = Some (Print (nl +:+ "❌ Ошибка: "
                    +:+ "Command '['ffmpeg', ...]' returned non-zero exit status 1.")).
Proof.
  vm_compute. split; [reflexivity |]. split; [| reflexivity].
  repeat (first [left; reflexivity | right]).
Qed.

(** ** A failed summary on the console *)

(** X16: a summary that could not be made is shown as such: when the summary
    request fails, [generate_summary] followed by the report sends the one
    request and prints the header of the report, the line that announces the
    error, and the error object, provided [json.loads] reads back the error
    payload. *)
Theorem failed_summary_is_reported (L : pylib) (X : externals) (r : results)
    (w : world) (e : exn) :
  let payload := if is_quota e then summary_quota_error
                 else summary_failed_error (exn_msg e) in
  openai X (api_calls (trace w)) = Raise e ->
  json_loads L (json_dumps L payload) = Return payload ->
  bind (generate_summary L X r) (render_report L) w
  = (Return tt,
     with_events [Sleep 5; ApiCall "gpt-4o"; report_header;
                  Print "❌ Ошибка при создании итогового описания:";
                  Print (json_dumps_indent L payload)] w).
Proof.
  intros payload Hreply Hback. unfold bind at 1.
  rewrite generate_summary_result, Hreply. cbn [summary_of_reply].
  fold payload. unfold render_report.
  unfold bind at 1, print at 1, emit at 1. unfold try_except.
  unfold bind at 1, lift at 1. rewrite Hback.
  unfold bind at 1, lift at 1.
  assert (Herr : error_in payload = Return true)
    by (unfold payload; destruct (is_quota e); reflexivity).
  rewrite Herr. cbn [negb]. unfold bind, print, emit. merge_events. reflexivity.
Qed.

(** The console of a run whose quota is exhausted. *)
Lemma failed_summary_is_reported_witness :
  bind (generate_summary Sample.lib (Sample.collaborators [] Sample.quota_api)
          Sample.results_without_frames)
       (render_report Sample.lib) Sample.empty_world
  = (Return tt,
     with_events [Sleep 5; ApiCall "gpt-4o"; report_header;
                  Print "❌ Ошибка при создании итогового описания:";
                  Print (json_dumps_indent Sample.lib summary_quota_error)]
                 Sample.empty_world).
Proof.
  apply (failed_summary_is_reported Sample.lib
           (Sample.collaborators [] Sample.quota_api)
           Sample.results_without_frames Sample.empty_world Sample.quota_exceeded).
  - reflexivity.
  - vm_compute. reflexivity.
Defined.

(** ** Results without an audio analysis *)

(** X17: [create_results_archive] needs the audio analysis: on results whose
    ['audio_analysis'] is still [None] it raises [AttributeError] while it
    formats the readme, after the report file is written; it logs the error
    and makes neither a readme nor an archive. *)
Theorem archive_needs_audio_analysis (L : pylib) (X : externals) (r : results)
    (output_dir : string) (md : video_metadata) (w : world) :
  let results_file := Py.join (Py.join output_dir "analysis_results") "analysis.json" in
  audio r = None ->
  create_results_archive L X r output_dir md w
  = (Raise (Exn "AttributeError" "'NoneType' object has no attribute 'get'"),
     World (<[results_file := json_dumps_indent L (results_json r)]> (files w))
           (archives w)
           (trace w ++ [Log "ERROR" "Error creating archive: 'NoneType' object has no attribute 'get'"])).
Proof.
  intros results_file Haudio. unfold create_results_archive, try_except. cbv zeta.
  unfold bind at 1, write_file at 1.
  unfold bind at 1, lift at 1, readme_content at 1. rewrite Haudio.
  reflexivity.
Qed.

(** The results as [analyze_video] has them before the audio is analysed. *)
Lemma archive_needs_audio_analysis_witness :
  fst (create_results_archive Sample.lib (Sample.collaborators [] Sample.no_api)
         (Results [] None [] None) "output/20240101_120000"
         (Metadata (PFloat 10) "mov,mp4" "640x360") Sample.empty_world)
  = Raise (Exn "AttributeError" "'NoneType' object has no attribute 'get'").
Proof.
  exact (f_equal fst
           (archive_needs_audio_analysis Sample.lib
              (Sample.collaborators [] Sample.no_api) (Results [] None [] None)
              "output/20240101_120000" (Metadata (PFloat 10) "mov,mp4" "640x360")
              Sample.empty_world eq_refl)).
Defined.

(** ** Publishing *)

Import GitHubPublisher.

Lemma requests_sent_app (t t' : list net_event) :
  requests_sent (t ++ t') = requests_sent t ++ requests_sent t'.
Proof. apply omap_app. Qed.

Lemma sends_quiet {A : Type} (m : G A) (P : request -> Prop) :
  (forall t, exists evs, snd (m t) = t ++ evs /\ requests_sent evs = []) ->
  sends m 0 P.
Proof.
  intros Hm t. destruct (Hm t) as (evs & Hevs & Hnone). exists evs.
  rewrite Hnone. split; [exact Hevs |]. split; [cbn; lia | constructor].
Qed.

Lemma sends_le {A : Type} (m : G A) (n n' : nat) (P : request -> Prop) :
  sends m n P -> (n <= n')%nat -> sends m n' P.
Proof.
  intros Hm Hn t. destruct (Hm t) as (evs & Hevs & Hlen & Hall).
  exists evs. split; [exact Hevs |]. split; [lia | exact Hall].
Qed.

Lemma sends_gret {A : Type} (a : A) (P : request -> Prop) : sends (gret a) 0 P.
Proof. apply sends_quiet. intros t. exists []. now rewrite app_nil_r. Qed.

Lemma sends_graise {A : Type} (e : exn) (P : request -> Prop) :
  sends (@graise A e) 0 P.
Proof. apply sends_quiet. intros t. exists []. now rewrite app_nil_r. Qed.

Lemma sends_glift {A : Type} (o : outcome A) (P : request -> Prop) :
  sends (glift o) 0 P.
Proof. apply sends_quiet. intros t. exists []. now rewrite app_nil_r. Qed.

Lemma sends_glog (level msg : string) (P : request -> Prop) :
  sends (glog level msg) 0 P.
Proof. apply sends_quiet. intros t. exists [NetLog level msg]. now split. Qed.

Lemma sends_send (E : environment) (r : request) (P : request -> Prop) :
  P r -> sends (send E r) 1 P.
Proof.
  intros Hr t. exists [Sent r]. split; [reflexivity |].
  split; [cbn; lia | now repeat constructor].
Qed.

Lemma sends_gbind {A B : Type} (m : G A) (k : A -> G B) (n1 n2 n : nat)
    (P : request -> Prop) :
  sends m n1 P -> (forall a, sends (k a) n2 P) -> (n1 + n2 <= n)%nat ->
  sends (gbind m k) n P.
Proof.
  intros Hm Hk Hn t. unfold gbind.
  destruct (Hm t) as (evs & Hevs & Hlen & Hall).
  destruct (m t) as [[a|e] t1]; cbn [snd] in Hevs; subst t1.
  - destruct (Hk a (t ++ evs)) as (evs' & -> & Hlen' & Hall').
    exists (evs ++ evs'). rewrite requests_sent_app, length_app, app_assoc.
    split; [reflexivity |]. split; [lia | now apply Forall_app].
  - exists evs. split; [reflexivity |]. split; [lia | exact Hall].
Qed.

Lemma sends_gtry {A : Type} (body : G A) (handler : exn -> G A) (n : nat)
    (P : request -> Prop) :
  sends body n P -> (forall e, sends (handler e) 0 P) ->
  sends (gtry body handler) n P.
Proof.
  intros Hm Hk t. unfold gtry.
  destruct (Hm t) as (evs & Hevs & Hlen & Hall).
  destruct (body t) as [[a|e] t1]; cbn [snd] in Hevs; subst t1.
  - exists evs. split; [reflexivity |]. split; [lia | exact Hall].
  - destruct (Hk e (t ++ evs)) as (evs' & -> & Hlen' & Hall').
    exists (evs ++ evs'). rewrite requests_sent_app, length_app, app_assoc.
    split; [reflexivity |]. split; [lia | now apply Forall_app].
Qed.

Lemma sends_gfor_each {A : Type} (l : list A) (body : A -> G unit) (c : nat)
    (P : request -> Prop) :
  (forall x, In x l -> sends (body x) c P) ->
  sends (gfor_each l body) (length l * c) P.
Proof.
  induction l as [|x l IH]; intros Hbody; cbn [gfor_each].
  - apply sends_gret.
  - apply (sends_gbind _ _ c (length l * c)).
    + apply Hbody. now left.
    + intros _. apply IH. intros y Hy. apply Hbody. now right.
    + cbn [length]. lia.
Qed.

(** The handlers of the publisher: one log line, and the exception again. *)
Lemma sends_log_and_raise {A : Type} (msg : string) (e : exn)
    (P : request -> Prop) :
  sends (gbind (glog "ERROR" msg) (fun _ => @graise A e)) 0 P.
Proof.
  apply (sends_gbind _ _ 0 0); [apply sends_glog | | lia].
  intros _. apply sends_graise.
Qed.

Lemma create_repo_sends (E : environment) (token name description : string) :
  sends (create_repo E token name description) 1 (publisher_request token name).
Proof.
  unfold create_repo. cbv zeta.
  apply sends_gtry; [| intros e; apply sends_log_and_raise].
  apply sends_send. now split.
Qed.

Lemma get_user_sends (E : environment) (token repo_name : string) :
  sends (get_user E token) 1 (publisher_request token repo_name).
Proof.
  unfold get_user.
  apply sends_gtry; [| intros e; apply sends_log_and_raise].
  apply sends_send. now split.
Qed.

(** The project files are plain names: [Path(file).name] is the file. *)
Lemma project_file_plain (file : string) :
  In file project_file_names -> path_name file = file.
Proof.
  intros Hin. cbn in Hin.
  repeat (destruct Hin as [<- | Hin]; [vm_compute; reflexivity |]).
  contradiction.
Qed.

Lemma upload_file_sends (E : environment) (token repo_name file : string) :
  In file project_file_names ->
  sends (upload_file E token repo_name file "Initial commit") 2
        (publisher_request token repo_name).
Proof.
  intros Hfile. unfold upload_file. cbv zeta.
  apply sends_gtry; [| intros e; apply sends_log_and_raise].
  apply (sends_gbind _ _ 0 2); [apply sends_glift | | lia]. intros content.
  apply (sends_gbind _ _ 1 1); [apply get_user_sends | | lia]. intros user.
  apply (sends_gbind _ _ 0 1); [apply sends_glift | | lia]. intros login.
  apply sends_send. split; [reflexivity |].
  exists (str_json E login), file. rewrite (project_file_plain file Hfile).
  now split.
Qed.

(** X18: what a publication may send: at most seventeen requests (one to
    create the repository, two for each of the eight project files), and none
    without a token; every request carries the token of the environment and is
    the creation of the repository, a look at the user, or the upload of one
    of the project files under its own name. *)
Theorem publish_requests_bounded (E : environment) (repo_name : string)
    (t : list net_event) :
  exists evs,
    snd (publish_to_github E repo_name t) = t ++ evs
    /\ (length (requests_sent evs) <= 17)%nat
    /\ (forall r,
          In r (requests_sent evs) ->
          exists token,
            github_token E = Some token /\ token <> EmptyString
            /\ publisher_request token repo_name r).
Proof.
  unfold publish_to_github.
  destruct (github_token E) as [token|] eqn:Htoken.
  2:{ eexists. split; [reflexivity |]. split; [cbn; lia | intros r []]. }
  destruct (String.eqb token EmptyString) eqn:Hempty.
  { eexists. split; [reflexivity |]. split; [cbn; lia | intros r []]. }
  apply String.eqb_neq in Hempty.
  match goal with
  | |- context [gtry (gbind (gret token) ?k) ?handler t] =>
      change (gtry (gbind (gret token) k) handler t) with (gtry (k token) handler t);
      assert (Hsends : sends (gtry (k token) handler) 17
                             (publisher_request token repo_name))
  end.
  { cbv beta.
    apply sends_gtry; [| intros e; apply sends_log_and_raise].
    apply (sends_gbind _ _ 1 16); [apply create_repo_sends | | lia]. intros repo.
    apply (sends_gbind _ _ 0 16); [apply sends_glift | | lia]. intros html_url.
    apply (sends_gbind _ _ 0 16); [apply sends_glog | | lia]. intros _.
    apply (sends_gbind _ _ 16 0); [| intros _; apply sends_glift | lia].
    apply (sends_gfor_each project_file_names _ 2). intros file Hfile.
    destruct (os_path_exists E file);
      [| apply (sends_le _ 0); [apply sends_gret | lia]].
    apply (sends_gbind _ _ 2 0); [now apply upload_file_sends | | lia].
    intros _. apply sends_glog. }
  destruct (Hsends t) as (evs & Hevs & Hlen & Hall).
  exists evs. split; [exact Hevs |]. split; [exact Hlen |].
  intros r Hr. exists token. split; [reflexivity |]. split; [exact Hempty |].
  rewrite Forall_forall in Hall. now apply Hall, list_elem_of_In.
Qed.

Lemma create_repo_returns (E : environment) (token name description : string)
    (t t' : list net_event) (repo : json) :
  create_repo E token name description t = (Return repo, t') ->
  http E (requests_sent t)
       (Post (api_base +:+ "/user/repos") token
             (JDict [("name", JStr name); ("description", JStr description);
                     ("private", JBool false); ("auto_init", JBool false)]))
  = Return repo.
Proof.
  unfold create_repo, gtry, send. cbv zeta.
  destruct (http E (requests_sent t) _) as [v|e]; [now intros [= -> _] |].
  unfold gbind, glog, graise. discriminate.
Qed.

(** X19: how a publication ends.  A failure, whatever it is, is raised again
    after the line that reports it, which is the last event; a publication
    that returns gives the value under ['html_url'] of the response to the
    creation of the repository, and had a token; without a token (none, or an
    empty one) the publication raises [ValueError]. *)
Theorem publish_outcome (E : environment) (repo_name : string)
    (t : list net_event) :
  let run := publish_to_github E repo_name t in
  (forall e,
      fst run = Raise e ->
      last (snd run)
      = Some (NetLog "ERROR" ("Error publishing to GitHub: " +:+ exn_msg e)))
  /\ (forall v,
        fst run = Return v ->
        exists token repo,
          github_token E = Some token /\ token <> EmptyString
          /\ http E (requests_sent t)
                  (Post (api_base +:+ "/user/repos") token
                        (JDict [("name", JStr repo_name);
                                ("description", JStr "Video Analysis System");
                                ("private", JBool false);
                                ("auto_init", JBool false)]))
             = Return repo
          /\ subscript E repo "html_url" = Return v)
  /\ (github_token E = None \/ github_token E = Some EmptyString ->
      fst run = Raise (Exn "ValueError"
                           "GitHub token not found in environment variables")).
Proof.
  intros run. unfold run, publish_to_github.
  destruct (github_token E) as [token|] eqn:Htoken.
  2:{ cbn. split; [intros e [= <-]; apply last_snoc |].
      split; [discriminate | reflexivity]. }
  destruct (String.eqb token EmptyString) eqn:Hempty.
  { cbn. split; [intros e [= <-]; apply last_snoc |].
    split; [discriminate | reflexivity]. }
  apply String.eqb_neq in Hempty.
  match goal with
  | |- context [gtry (gbind (gret token) ?k) ?handler t] =>
      change (gtry (gbind (gret token) k) handler t) with (gtry (k token) handler t);
      cbv beta; destruct (k token t) as [[v|e] t1] eqn:Hbody
  end.
  - unfold gtry. rewrite Hbody. cbn [fst snd].
    split; [discriminate |]. split.
    2:{ intros [[=] | [= ->]]. congruence. }
    intros v' [= <-]. cbv beta in Hbody. unfold gbind at 1 in Hbody.
    destruct (create_repo E token repo_name _ t) as [[repo|e] t2] eqn:Hcreate;
      [| discriminate].
    apply create_repo_returns in Hcreate.
    unfold gbind at 1, glift at 1 in Hbody.
    destruct (subscript E repo "html_url") as [html_url|e] eqn:Hurl; [| discriminate].
    unfold gbind at 1, glog at 1 in Hbody. unfold gbind at 1 in Hbody.
    match type of Hbody with
    | context [gfor_each ?l ?body ?t3] =>
        destruct (gfor_each l body t3) as [[[]|e] t4]; [| discriminate]
    end.
    unfold glift in Hbody. injection Hbody as <- _.
    exists token, repo. auto.
  - unfold gtry. rewrite Hbody. unfold gbind, glog, graise. cbn [fst snd].
    split; [intros e' [= <-]; apply last_snoc |].
    split; [discriminate |]. intros [[=] | [= ->]]. congruence.
Qed.

Section AcceptingServer.
Variable E : environment.
Variable token : string.
Variable repo_name : string.
Variable user : json.
Variable login : json.
Hypothesis Hget : forall history url tk, http E history (Get url tk) = Return user.
Hypothesis Hput :
  forall history url tk body, exists v, http E history (Put url tk body) = Return v.
Hypothesis Hlogin : subscript E user "login" = Return login.
Hypothesis Hfiles :
  forall file, In file project_file_names -> is_directory E file = false.

(** One upload on a server that accepts it: the look at the user, then the
    file under its name. *)
Lemma upload_file_ok (file bytes : string) (t : list net_event) :
  In file project_file_names ->
  project_files E !! file = Some bytes ->
  exists v,
    upload_file E token repo_name file "Initial commit" t
    = (Return v,
       t ++ map Sent (upload_requests E token repo_name (str_json E login) file)).
Proof.
  intros Hin Hfile. unfold upload_file, gtry. cbv zeta.
  unfold gbind at 1, open_read at 1, glift at 1. rewrite Hfile.
  unfold gbind at 1, get_user at 1, gtry at 1, send at 1. rewrite Hget.
  unfold gbind at 1, glift at 1. rewrite Hlogin.
  unfold send. rewrite (project_file_plain file Hin).
  match goal with
  | |- context [http E ?history (Put ?url ?tk ?body)] =>
      destruct (Hput history url tk body) as [v ->]
  end.
  exists v. unfold upload_requests. rewrite Hfile. cbn [default map].
  now rewrite <- app_assoc.
Qed.

(** The loop over the project files uploads the ones that exist, in order. *)
Lemma uploads_ok (files : list string) (t : list net_event) :
  (forall file, In file files -> In file project_file_names) ->
  exists evs,
    gfor_each files
      (fun file =>
         if os_path_exists E file then
           gbind (upload_file E token repo_name file "Initial commit")
                 (fun _ => glog "INFO" ("Uploaded " +:+ file))
         else gret tt) t
    = (Return tt, t ++ evs)
    /\ requests_sent evs
       = flat_map (upload_requests E token repo_name (str_json E login))
           (List.filter (fun file => bool_decide (is_Some (project_files E !! file)))
                        files).
Proof.
  revert t. induction files as [|file files IH]; intros t Hsub; cbn [gfor_each].
  - exists []. unfold gret. now rewrite app_nil_r.
  - assert (Hexists : os_path_exists E file
                      = bool_decide (is_Some (project_files E !! file))).
    { unfold os_path_exists.
      now rewrite (Hfiles file (Hsub file (or_introl eq_refl))), orb_false_r. }
    unfold gbind at 1. rewrite Hexists. cbn [List.filter].
    destruct (project_files E !! file) as [bytes|] eqn:Hfile.
    + rewrite bool_decide_eq_true_2 by eauto.
      unfold gbind at 1.
      destruct (upload_file_ok file bytes t (Hsub file (or_introl eq_refl)) Hfile)
        as [v ->].
      unfold glog at 1.
      match goal with
      | |- context [gfor_each files ?body ?t1] =>
          destruct (IH t1 (fun f Hf => Hsub f (or_intror Hf))) as (evs & -> & Hevs)
      end.
      eexists. rewrite <- !app_assoc. split; [reflexivity |].
      rewrite !requests_sent_app, Hevs. reflexivity.
    + rewrite bool_decide_eq_false_2 by (intros [? [=]]).
      unfold gret at 1.
      destruct (IH t (fun f Hf => Hsub f (or_intror Hf))) as (evs & -> & Hevs).
      exists evs. now split.
Qed.

End AcceptingServer.

(** X20: on a server that accepts every request, with a token, a publication
    returns the address of the new repository, and uploads each project file
    that exists in the working directory once, in the order of the list, each
    upload being a look at the user followed by the file, encoded, under its
    own name; a project file that does not exist is passed over. *)
Theorem publish_uploads_existing_files (E : environment)
    (token repo_name : string) (repo user html_url login : json)
    (t : list net_event) :
  github_token E = Some token -> token <> EmptyString ->
  (forall history url tk body, http E history (Post url tk body) = Return repo) ->
  (forall history url tk, http E history (Get url tk) = Return user) ->
  (forall history url tk body, exists v, http E history (Put url tk body) = Return v) ->
  subscript E repo "html_url" = Return html_url ->
  subscript E user "login" = Return login ->
  (forall file, In file project_file_names -> is_directory E file = false) ->
  exists evs,
    publish_to_github E repo_name t = (Return html_url, t ++ evs)
    /\ requests_sent evs
       = Post (api_base +:+ "/user/repos") token
              (JDict [("name", JStr repo_name);
                      ("description", JStr "Video Analysis System");
                      ("private", JBool false); ("auto_init", JBool false)])
         :: flat_map (upload_requests E token repo_name (str_json E login))
              (List.filter
                 (fun file => bool_decide (is_Some (project_files E !! file)))
                 project_file_names).
Proof.
  intros Htoken Hempty Hpost Hget Hput Hurl Hlogin Hfiles.
  unfold publish_to_github. rewrite Htoken.
  apply String.eqb_neq in Hempty. rewrite Hempty.
  unfold gtry at 1. unfold gbind at 1, gret at 1.
  unfold gbind at 1, create_repo at 1, gtry at 1, send at 1. cbv zeta.
  rewrite Hpost. unfold gbind at 1, glift at 1. rewrite Hurl.
  unfold gbind at 1, glog at 1. unfold gbind at 1.
  match goal with
  | |- context [gfor_each project_file_names ?body ?t1] =>
      destruct (uploads_ok E token repo_name user login Hget Hput Hlogin Hfiles
                  project_file_names t1 (fun f Hf => Hf)) as (evs & -> & Hevs)
  end.
  unfold glift. rewrite <- !app_assoc. eexists.
  split; [reflexivity |].
  rewrite !requests_sent_app, Hevs. reflexivity.
Qed.

(** A working directory with [main.py] and [README.md]: five requests. *)
Lemma publish_uploads_existing_files_witness :
  exists evs,
    publish_to_github (Sample.github (Some "t0ken")) "video-analysis-system" []
    = (Return (JStr "https://github.com/u/r"), [] ++ evs)
    /\ length (requests_sent evs) = 5%nat.
Proof.
  destruct (publish_uploads_existing_files (Sample.github (Some "t0ken"))
              "t0ken" "video-analysis-system"
              (JDict [("html_url", JStr "https://github.com/u/r");
                      ("login", JStr "u")])
              (JDict [("html_url", JStr "https://github.com/u/r");
                      ("login", JStr "u")])
              (JStr "https://github.com/u/r") (JStr "u") [])
    as (evs & Hrun & Hsent).
  - reflexivity.
  - discriminate.
  - reflexivity.
  - reflexivity.
  - intros history url tk body. eexists. reflexivity.
  - reflexivity.
  - reflexivity.
  - intros file Hin. cbn in Hin.
    repeat (destruct Hin as [<- | Hin]; [vm_compute; reflexivity |]).
    contradiction.
  - exists evs. split; [exact Hrun |]. rewrite Hsent. vm_compute. reflexivity.
Defined.
